(** * SpiralPy solver framework: trace recorder, script emitter, build
      orchestration and native invocation

    A shallow embedding of [spiralpy/spsolver.py] and
    [spiralpy/mdrconvsolver.py].  Methods of [SPSolver] and [MdrconvSolver]
    become computations in a state-and-exception monad over the solver object
    ([self]) and the process-wide world (option dictionaries, working
    directory, temporary directories, files, array buffers, observable
    events).  NumPy/CuPy kernels, the operating system and the external tools
    are an environment record the development is parametric in. *)

From Stdlib Require Import ZArith String List Ascii QArith.
From stdpp Require Import base gmap strings list pretty.

Open Scope string_scope.
Open Scope Z_scope.

(** ** Python values, dictionaries and exceptions *)

Inductive pyval :=
| PyNone
| PyBool (b : bool)
| PyInt (n : Z)
| PyStr (s : string).

#[global] Instance pyval_eq_dec : EqDecision pyval.
Proof. solve_decision. Defined.

(** Python's [==] on the values above: [bool] is a subclass of [int]. *)
Definition py_eq (a b : pyval) : bool :=
  match a, b with
  | PyBool x, PyInt n | PyInt n, PyBool x => Z.b2z x =? n
  | _, _ => bool_decide (a = b)
  end.

(** Truth value testing, as used by [if x] and [not x]. *)
Definition truthy (v : pyval) : bool :=
  match v with
  | PyNone => false
  | PyBool b => b
  | PyInt n => negb (n =? 0)
  | PyStr s => negb (String.eqb s "")
  end.

Abbreviation PyDict := (gmap string pyval).

(** [d.get(k, default)] *)
Definition dict_get (d : PyDict) (k : string) (dflt : pyval) : pyval :=
  default dflt (d !! k).

(** Objects a helper may hand back where a string or a dictionary is
    expected. *)
Inductive pyobj :=
| Atom (v : pyval)
| Dict (d : PyDict).

Inductive exn :=
| RuntimeError (msg : string)
| TypeError (msg : string)
| AttributeError (attr : string)
| IndexError
| ValueError
| OSError
| NotImplementedError.

#[global] Instance exn_eq_dec : EqDecision exn.
Proof. solve_decision. Defined.

Inductive Res (A : Type) :=
| Ok (a : A)
| Exc (e : exn).
Arguments Ok {A} a.
Arguments Exc {A} e.

Definition is_ok {A} (r : Res A) : bool :=
  match r with Ok _ => true | Exc _ => false end.

(** ** Constants *)

Module Constants.
(** Modelled from the spec: [spiralpy/constants.py] is not among the
    sources.  Option keys, platform selectors and directions are the
    "recognized options" of the configuration surface; each constant is
    represented by a literal spelling its own name, so that distinct
    constants are distinct values.  The generator's success code is exit
    status zero ("a non-zero/failure result transitions to Failed"). *)
Definition SP_OPT_COLMAJOR := "SP_OPT_COLMAJOR".
Definition SP_OPT_KEEPTEMP := "SP_OPT_KEEPTEMP".
Definition SP_OPT_METADATA := "SP_OPT_METADATA".
Definition SP_OPT_MPI := "SP_OPT_MPI".
Definition SP_OPT_PLATFORM := "SP_OPT_PLATFORM".
Definition SP_OPT_PRINTRULETREE := "SP_OPT_PRINTRULETREE".
Definition SP_OPT_REALCTYPE := "SP_OPT_REALCTYPE".
Definition SP_CPU := PyStr "SP_CPU".
Definition SP_CUDA := PyStr "SP_CUDA".
Definition SP_HIP := PyStr "SP_HIP".
Definition SP_FORWARD := PyStr "SP_FORWARD".
Definition SP_INVERSE := PyStr "SP_INVERSE".
Definition SP_STR_FORWARD := "SP_STR_FORWARD".
Definition SP_STR_INVERSE := "SP_STR_INVERSE".
Definition SP_STR_SINGLE := "SP_STR_SINGLE".
Definition SP_STR_DOUBLE := "SP_STR_DOUBLE".
Definition SP_TRANSFORM_UNKNOWN := "SP_TRANSFORM_UNKNOWN".
Definition SP_TRANSFORM_MDRCONV := "SP_TRANSFORM_MDRCONV".
Definition SP_KEY_EXEC := "SP_KEY_EXEC".
Definition SP_KEY_INIT := "SP_KEY_INIT".
Definition SP_KEY_DESTROY := "SP_KEY_DESTROY".
Definition SP_KEEPTEMP := "SP_KEEPTEMP".
Definition SP_PRINTRULETREE := "SP_PRINTRULETREE".
Definition SP_WORKDIR := "SP_WORKDIR".
Definition SP_SHARE_DIR := "SP_SHARE_DIR".
Definition SP_LIBSDIR := "SP_LIBSDIR".
Definition SP_SHLIB_EXT := ".SP_SHLIB_EXT".
Definition SP_METAVAR_EXT := "SP_METAVAR_EXT".
Definition SP_METAFILE_EXT := ".SP_METAFILE_EXT".
Definition SPIRAL_RET_OK := PyInt 0.
End Constants.
Import Constants.

(** ** Arrays *)

(** The array module a buffer belongs to: NumPy (host memory) or CuPy
    (device memory). *)
Inductive xpmodule := NP | CP.

#[global] Instance xpmodule_eq_dec : EqDecision xpmodule.
Proof. solve_decision. Defined.

Record ndarray (elem : Type) := mk_ndarray {
  xpmod : xpmodule;
  shape : list Z;
  data : list elem
}.
Arguments mk_ndarray {elem}.
Arguments xpmod {elem}.
Arguments shape {elem}.
Arguments data {elem}.

(** [a.shape[i]] for a literal index [i >= 0]. *)
Definition shape_at {elem} (a : ndarray elem) (i : nat) : Res Z :=
  match shape a !! i with
  | Some n => Ok n
  | None => Exc IndexError
  end.

(** [xp.size(a)] *)
Definition xp_size {elem} (a : ndarray elem) : Z :=
  foldr Z.mul 1 (shape a).

(** The shape contracts of the NumPy/CuPy kernels the operators call.  The
    contents are left to the environment. *)

Definition pad_widths (ndim : nat) (padding : list (Z * Z)) : option (list (Z * Z)) :=
  if forallb (λ p, (0 <=? p.1) && (0 <=? p.2)) padding then
    match padding with
    | [p] => Some (replicate ndim p)
    | _ => if decide (length padding = ndim) then Some padding else None
    end
  else None.

Definition pad_shape (sh : list Z) (pw : list (Z * Z)) : list Z :=
  zip_with (λ n p, p.1 + n + p.2) sh pw.

Definition rfftn_shape (sh : list Z) : option (list Z) :=
  if forallb (λ n, 1 <=? n) sh then
    match reverse sh with
    | [] => None
    | n :: rest => Some (reverse (n / 2 + 1 :: rest))
    end
  else None.

Fixpoint broadcast_rev (a b : list Z) : option (list Z) :=
  match a, b with
  | [], r | r, [] => Some r
  | x :: a', y :: b' =>
      r ← broadcast_rev a' b';
      if decide (x = y) then Some (x :: r)
      else if decide (x = 1) then Some (y :: r)
      else if decide (y = 1) then Some (x :: r)
      else None
  end.

Definition broadcast_shapes (a b : list Z) : option (list Z) :=
  reverse <$> broadcast_rev (reverse a) (reverse b).

Definition irfftn_shape (sh : list Z) (s : list Z) : option (list Z) :=
  if forallb (λ n, 1 <=? n) s then
    match s with
    | [] => None
    | _ => if decide (length s ≤ length sh)%nat
           then Some (take (length sh - length s)%nat sh ++ s)%list
           else None
    end
  else None.

(** Length of [range(n)[start:stop]], Python's slice clamping. *)
Definition slice_len (n start stop : Z) : Z :=
  let clamp i := if i <? 0 then Z.max 0 (i + n) else Z.min i n in
  Z.max 0 (clamp stop - clamp start).

(** ** The solver object and the world *)

Inductive problem_class := SPProblemClass | MdrconvProblemClass.

(** [SPProblem]: dimensions and direction. *)
Record SPProblem := mk_problem {
  pclass : problem_class;
  _dims : list Z;
  _k : pyval
}.

(** [MdrconvProblem(ns)]: the base constructor with the default direction. *)
Definition MdrconvProblem (ns : list Z) : SPProblem :=
  mk_problem MdrconvProblemClass ns SP_FORWARD.

Definition dimensions (p : SPProblem) : list Z := _dims p.
Definition direction (p : SPProblem) : pyval := _k p.

Inductive dtype := np_double | np_single | np_cdouble | np_csingle.

(** A loaded dynamic library: where it was loaded from and what it exports. *)
Record cdll := mk_cdll {
  lib_path : string;
  exports : list string
}.

(** Raw pointers handed to native code: [a.ctypes.data_as(c_void_p)] for a
    host buffer, [a.data.ptr] for a device buffer. *)
Inductive ptr := HostPtr (l : nat) | DevPtr (l : nat).

Record Solver := mk_solver {
  _problem : SPProblem;
  _opts : nat;
  _colMajor : pyval;
  _genHIP : bool;
  _genCuda : bool;
  _keeptemp : pyval;
  _withMPI : pyval;
  _printRuleTree : pyval;
  _tracingOn : bool;
  _callGraph : list string;
  _SharedLibAccess : option cdll;
  _MainFunc : option string;
  _spiralname : string;
  _includeMetadata : pyval;
  _workdir : option string;
  _libsDir : string;
  _namebase : string;
  _mainFuncName : pyval;
  _initFuncName : pyval;
  _destroyFuncName : pyval;
  _ftype : dtype;
  _cxtype : dtype
}.

Definition set_tracingOn (b : bool) (s : Solver) : Solver :=
  mk_solver (_problem s) (_opts s) (_colMajor s) (_genHIP s) (_genCuda s)
    (_keeptemp s) (_withMPI s) (_printRuleTree s) b (_callGraph s)
    (_SharedLibAccess s) (_MainFunc s) (_spiralname s) (_includeMetadata s)
    (_workdir s) (_libsDir s) (_namebase s) (_mainFuncName s)
    (_initFuncName s) (_destroyFuncName s) (_ftype s) (_cxtype s).

Definition set_callGraph (g : list string) (s : Solver) : Solver :=
  mk_solver (_problem s) (_opts s) (_colMajor s) (_genHIP s) (_genCuda s)
    (_keeptemp s) (_withMPI s) (_printRuleTree s) (_tracingOn s) g
    (_SharedLibAccess s) (_MainFunc s) (_spiralname s) (_includeMetadata s)
    (_workdir s) (_libsDir s) (_namebase s) (_mainFuncName s)
    (_initFuncName s) (_destroyFuncName s) (_ftype s) (_cxtype s).

Definition set_SharedLibAccess (l : option cdll) (s : Solver) : Solver :=
  mk_solver (_problem s) (_opts s) (_colMajor s) (_genHIP s) (_genCuda s)
    (_keeptemp s) (_withMPI s) (_printRuleTree s) (_tracingOn s)
    (_callGraph s) l (_MainFunc s) (_spiralname s) (_includeMetadata s)
    (_workdir s) (_libsDir s) (_namebase s) (_mainFuncName s)
    (_initFuncName s) (_destroyFuncName s) (_ftype s) (_cxtype s).

Definition set_MainFunc (f : option string) (s : Solver) : Solver :=
  mk_solver (_problem s) (_opts s) (_colMajor s) (_genHIP s) (_genCuda s)
    (_keeptemp s) (_withMPI s) (_printRuleTree s) (_tracingOn s)
    (_callGraph s) (_SharedLibAccess s) f (_spiralname s) (_includeMetadata s)
    (_workdir s) (_libsDir s) (_namebase s) (_mainFuncName s)
    (_initFuncName s) (_destroyFuncName s) (_ftype s) (_cxtype s).

Definition set_funcNames (main init destroy : pyval) (s : Solver) : Solver :=
  mk_solver (_problem s) (_opts s) (_colMajor s) (_genHIP s) (_genCuda s)
    (_keeptemp s) (_withMPI s) (_printRuleTree s) (_tracingOn s)
    (_callGraph s) (_SharedLibAccess s) (_MainFunc s) (_spiralname s)
    (_includeMetadata s) (_workdir s) (_libsDir s) (_namebase s)
    main init destroy (_ftype s) (_cxtype s).

Definition set_types (f c : dtype) (s : Solver) : Solver :=
  mk_solver (_problem s) (_opts s) (_colMajor s) (_genHIP s) (_genCuda s)
    (_keeptemp s) (_withMPI s) (_printRuleTree s) (_tracingOn s)
    (_callGraph s) (_SharedLibAccess s) (_MainFunc s) (_spiralname s)
    (_includeMetadata s) (_workdir s) (_libsDir s) (_namebase s)
    (_mainFuncName s) (_initFuncName s) (_destroyFuncName s) f c.

(** The transform description used for searching installed libraries. *)
Record FuncMeta := mk_funcmeta {
  md_direction : string;
  md_precision : string;
  md_transformtype : string;
  md_dimensions : list Z;
  md_platform : pyval
}.

#[global] Instance FuncMeta_eq_dec : EqDecision FuncMeta.
Proof. solve_decision. Defined.

(** What the process does that can be seen from outside, oldest first. *)
Inductive Event :=
| EvPrint (line : string)
| EvPrintErr (line : string)
| EvMakedirs (d : string)
| EvChdir (d : string)
| EvMkdtemp (d : string)
| EvRmtree (d : string)
| EvSpiral (script : string)
| EvCopy (src dst : string)
| EvCMake (cmd : string)
| EvWriteMetadata (varname filename : string)
| EvSearch (query : FuncMeta)
| EvCDLL (path : string)
| EvCall (fname : string) (args : list ptr).

#[global] Instance ptr_eq_dec : EqDecision ptr.
Proof. solve_decision. Defined.
#[global] Instance Event_eq_dec : EqDecision Event.
Proof. solve_decision. Defined.

Section Model.

Context {elem : Type}.

(** The world outside the solver object: dictionaries and arrays live in
    stores indexed by object identity, so that two references to one object
    see each other's updates. *)
Record World := mk_world {
  dicts : gmap nat PyDict;
  heap : gmap nat (ndarray elem);
  cwd : string;
  dirs : gset string;
  files : gmap string string;
  rng : nat;
  clock : string;
  events : list Event
}.

Definition set_dicts (d : gmap nat PyDict) (w : World) : World :=
  mk_world d (heap w) (cwd w) (dirs w) (files w) (rng w) (clock w) (events w).
Definition set_heap (h : gmap nat (ndarray elem)) (w : World) : World :=
  mk_world (dicts w) h (cwd w) (dirs w) (files w) (rng w) (clock w) (events w).
Definition set_cwd (d : string) (w : World) : World :=
  mk_world (dicts w) (heap w) d (dirs w) (files w) (rng w) (clock w) (events w).
Definition set_dirs (d : gset string) (w : World) : World :=
  mk_world (dicts w) (heap w) (cwd w) d (files w) (rng w) (clock w) (events w).
Definition set_files (f : gmap string string) (w : World) : World :=
  mk_world (dicts w) (heap w) (cwd w) (dirs w) f (rng w) (clock w) (events w).
Definition set_rng (n : nat) (w : World) : World :=
  mk_world (dicts w) (heap w) (cwd w) (dirs w) (files w) n (clock w) (events w).
Definition set_events (e : list Event) (w : World) : World :=
  mk_world (dicts w) (heap w) (cwd w) (dirs w) (files w) (rng w) (clock w) e.

Record St := mk_st {
  self : Solver;
  world : World
}.

(** Everything the code reaches outside itself. *)
Record Env := mk_env {
  (* contents computed by the NumPy/CuPy kernels *)
  pad_data : list Z → list (Z * Z) → list elem → list elem;
  rfftn_data : list Z → list elem → list elem;
  mul_data : list Z → list elem → list Z → list elem → list elem;
  irfftn_data : list Z → list Z → list elem → list elem;
  slice_data : list Z → list (Z * Z) → list elem → list elem;
  rand_data : nat → list Z → list elem;
  zero : elem;
  true_divide : elem → Z → elem;
  cupy_present : bool;
  (* operating system *)
  getenv : string → option string;
  USER_BASE : string;
  package : string;
  module_dir : string;
  win32 : bool;
  mkdtemp_suffix : World → string;
  open_writable : string → World → bool;
  (* helpers of the package and external tools *)
  findFunctionsWithMetadata : FuncMeta → World → pyobj * pyobj;
  callSpiralWithFile : string → World → pyval;
  cmake_returncode : string → World → Z;
  cmake_stderr : string → World → string;
  lib_exports : string → World → list string;
  native_effect : string → list ptr → gmap nat (ndarray elem) → gmap nat (ndarray elem)
}.

Context (E : Env).

(** *** The monad: state, and exceptions that keep the state reached *)

Definition M (A : Type) : Type := St → Res A * St.

Definition ret {A} (a : A) : M A := λ st, (Ok a, st).
Definition raise {A} (e : exn) : M A := λ st, (Exc e, st).
Definition bind {A B} (m : M A) (k : A → M B) : M B :=
  λ st, match m st with
        | (Ok a, st') => k a st'
        | (Exc e, st') => (Exc e, st')
        end.
Definition lift {A} (r : Res A) : M A := λ st, (r, st).

Definition get_self : M Solver := λ st, (Ok (self st), st).
Definition get_world : M World := λ st, (Ok (world st), st).
Definition upd_self (f : Solver → Solver) : M unit :=
  λ st, (Ok (), mk_st (f (self st)) (world st)).
Definition upd_world (f : World → World) : M unit :=
  λ st, (Ok (), mk_st (self st) (f (world st))).
Definition emit (e : Event) : M unit :=
  upd_world (λ w, set_events (events w ++ [e])%list w).

End Model.

Arguments World : clear implicits.
Arguments St : clear implicits.
Arguments Env : clear implicits.
Arguments M : clear implicits.

Declare Scope py_scope.
Delimit Scope py_scope with py.
Notation "x <~ c1 ;; c2" := (bind c1 (λ x, c2))
  (at level 100, c1 at next level, right associativity) : py_scope.
Notation "c1 ;;; c2" := (bind c1 (λ _, c2))
  (at level 100, right associativity) : py_scope.
Open Scope py_scope.

(** ** Array kernels *)

Section Kernels.

Context {elem : Type} (E : Env elem).

(** Modelled from the spec: [spiralpy.get_array_module] is not among the
    sources.  It tells the memory domain of a buffer, "host or device
    buffer residency": CuPy's answer when CuPy is installed, NumPy
    otherwise. *)
Definition get_array_module (a : ndarray elem) : xpmodule :=
  if cupy_present E then xpmod a else NP.

(** [xp.pad(src, padding)] *)
Definition xp_pad (xp : xpmodule) (src : ndarray elem) (padding : list (Z * Z))
  : Res (ndarray elem) :=
  match pad_widths (length (shape src)) padding with
  | Some pw => Ok (mk_ndarray xp (pad_shape (shape src) pw)
                     (pad_data E (shape src) pw (data src)))
  | None => Exc ValueError
  end.

(** [xp.fft.rfftn(x)] *)
Definition xp_rfftn (xp : xpmodule) (x : ndarray elem) : Res (ndarray elem) :=
  match rfftn_shape (shape x) with
  | Some sh => Ok (mk_ndarray xp sh (rfftn_data E (shape x) (data x)))
  | None => Exc ValueError
  end.

(** [x * y] *)
Definition xp_mul (x y : ndarray elem) : Res (ndarray elem) :=
  if decide (xpmod x = xpmod y) then
    match broadcast_shapes (shape x) (shape y) with
    | Some sh => Ok (mk_ndarray (xpmod x) sh
                       (mul_data E (shape x) (data x) (shape y) (data y)))
    | None => Exc ValueError
    end
  else Exc (TypeError "unsupported operand type(s)").

(** [xp.fft.irfftn(x, s=shape)] *)
Definition xp_irfftn (xp : xpmodule) (x : ndarray elem) (s : list Z)
  : Res (ndarray elem) :=
  match irfftn_shape (shape x) s with
  | Some sh => Ok (mk_ndarray xp sh (irfftn_data E (shape x) s (data x)))
  | None => Exc ValueError
  end.

(** [x[a:b, a:b, a:b]] *)
Definition slice3 (x : ndarray elem) (a b : Z) : Res (ndarray elem) :=
  match shape x with
  | d1 :: d2 :: d3 :: rest =>
      Ok (mk_ndarray (xpmod x)
            (slice_len d1 a b :: slice_len d2 a b :: slice_len d3 a b :: rest)
            (slice_data E (shape x) [(a, b); (a, b); (a, b)] (data x)))
  | _ => Exc IndexError
  end.

(** [xp.random.rand(n1, n2, n3).astype(ftype)] *)
Definition xp_random_rand (xp : xpmodule) (sh : list Z) : M elem (ndarray elem) :=
  w <~ get_world ;;
  if forallb (λ n, 0 <=? n) sh then
    upd_world (set_rng (S (rng w))) ;;;
    ret (mk_ndarray xp sh (rand_data E (rng w) sh))
  else raise ValueError.

End Kernels.

(** [seq[i]] for a literal index [i >= 0]. *)
Definition seq_at {A} (l : list A) (i : nat) : Res A :=
  match l !! i with
  | Some x => Ok x
  | None => Exc IndexError
  end.

(** [str(n)] *)
Definition str (n : Z) : string := pretty n.

(** ** [SPSolver] *)

Module SPSolver.
Section Methods.

Context {elem : Type} (E : Env elem).

(** [self._callGraph.insert(0, st)] *)
Definition callGraph_insert0 (st : string) : M elem unit :=
  upd_self (λ s, set_callGraph (st :: _callGraph s) s).

Definition zeroEmbedBox (src : ndarray elem) (padding : list (Z * Z))
  : M elem (ndarray elem) :=
  let xp := get_array_module E src in
  retCube <~ lift (xp_pad E xp src padding) ;;
  s <~ get_self ;;
  (if _tracingOn s then
     t1 <~ lift (seq_at padding 0) ;;
     t2 <~ (if decide (1 < length padding)%nat
            then lift (seq_at padding 1) else ret t1) ;;
     t3 <~ (if decide (2 < length padding)%nat
            then lift (seq_at padding 2) else ret t2) ;;
     n1 <~ lift (shape_at src 0) ;;
     n2 <~ lift (shape_at src 1) ;;
     n3 <~ lift (shape_at src 2) ;;
     let N1 := t1.1 + n1 + t1.2 in
     let N2 := t2.1 + n2 + t2.2 in
     let N3 := t3.1 + n3 + t3.2 in
     let nnn := "[" +:+ str N1 +:+ "," +:+ str N2 +:+ "," +:+ str N3 +:+ "]" in
     let nsrange1 := "[" +:+ str t1.1 +:+ ".." +:+ str (t1.1 + n1 - 1) +:+ "]" in
     let nsrange2 := "[" +:+ str t2.1 +:+ ".." +:+ str (t2.1 + n2 - 1) +:+ "]" in
     let nsrange3 := "[" +:+ str t3.1 +:+ ".." +:+ str (t3.1 + n3 - 1) +:+ "]" in
     let nsr3D := "[" +:+ nsrange1 +:+ "," +:+ nsrange2 +:+ "," +:+ nsrange3 +:+ "]" in
     let st := "ZeroEmbedBox(" +:+ nnn +:+ ", " +:+ nsr3D +:+ ")" in
     callGraph_insert0 st
   else ret ()) ;;;
  ret retCube.

(** forward multi-dimensional real DFT *)
Definition rfftn (x : ndarray elem) : M elem (ndarray elem) :=
  let xp := get_array_module E x in
  r <~ lift (xp_rfftn E xp x) ;;
  s <~ get_self ;;
  (if _tracingOn s then
     n1 <~ lift (shape_at x 0) ;;
     n2 <~ lift (shape_at x 1) ;;
     n3 <~ lift (shape_at x 2) ;;
     let nnn := "[" +:+ str n1 +:+ "," +:+ str n2 +:+ "," +:+ str n3 +:+ "]" in
     let st := "MDPRDFT(" +:+ nnn +:+ ", -1)" in
     callGraph_insert0 st
   else ret ()) ;;;
  ret r.

(** pointwise array multiplication *)
Definition pointwise (x y : ndarray elem) : M elem (ndarray elem) :=
  r <~ lift (xp_mul E x y) ;;
  s <~ get_self ;;
  (if _tracingOn s then
     let nElems := xp_size x * 2 in
     let st := "RCDiag(FDataOfs(symvar, " +:+ str nElems +:+ ", 0))" in
     callGraph_insert0 st
   else ret ()) ;;;
  ret r.

(** inverse multi-dimensional real DFT *)
Definition irfftn (x : ndarray elem) (shape : list Z) : M elem (ndarray elem) :=
  let xp := get_array_module E x in
  r <~ lift (xp_irfftn E xp x shape) ;;
  s <~ get_self ;;
  (if _tracingOn s then
     n1 <~ lift (seq_at shape 0) ;;
     n2 <~ lift (seq_at shape 1) ;;
     n3 <~ lift (seq_at shape 2) ;;
     let nnn := "[" +:+ str n1 +:+ "," +:+ str n2 +:+ "," +:+ str n3 +:+ "]" in
     let st := "IMDPRDFT(" +:+ nnn +:+ ", 1)" in
     callGraph_insert0 st
   else ret ()) ;;;
  ret r.

(** Extract output data of dimension (Nd, Nd, Nd) from the corner of cube
    (N, N, N) *)
Definition extract (x : ndarray elem) (N Nd : Z) : M elem (ndarray elem) :=
  r <~ lift (slice3 E x (N - Nd) N) ;;
  s <~ get_self ;;
  (if _tracingOn s then
     let nnn := "[" +:+ str N +:+ "," +:+ str N +:+ "," +:+ str N +:+ "]" in
     let ndrange := "[" +:+ str (N - Nd) +:+ ".." +:+ str (N - 1) +:+ "]" in
     let ndr3D := "[" +:+ ndrange +:+ "," +:+ ndrange +:+ "," +:+ ndrange +:+ "]" in
     let st := "ExtractBox(" +:+ nnn +:+ ", " +:+ ndr3D +:+ ")" in
     callGraph_insert0 st
   else ret ()) ;;;
  ret r.

(** The closing loop of [_trace]:
    [for i in range(len(g)-1): g[i] = g[i] + ','] *)
Definition add_separators (g : list string) : list string :=
  foldl (λ g i, match g !! i with
                | Some s => <[i := s +:+ ","]> g
                | None => g
                end)
        g (seq 0 (length g - 1)).

(** Trace execution for generating Spiral script.  [buildTestInput] and
    [runDef] are the subclass's. *)
Definition _trace {A B} (buildTestInput : M elem A) (runDef : A → M elem B)
  : M elem unit :=
  upd_self (set_tracingOn true) ;;;
  upd_self (set_callGraph []) ;;;
  src <~ buildTestInput ;;
  runDef src ;;;
  upd_self (set_tracingOn false) ;;;
  upd_self (λ s, set_callGraph (add_separators (_callGraph s)) s).


(** *** Files, directories and processes *)

Definition nl : string := String (ascii_of_nat 10) "".
Definition dq : string := String (ascii_of_nat 34) "".

(** [os.path.join(a, b)] *)
Definition path_join (a b : string) : string := a +:+ "/" +:+ b.

(** [print(line, file=f)] on an open file *)
Definition fprint (f : string) (line : string) : M elem unit :=
  upd_world (λ w, set_files
    (<[f := default "" (files w !! f) +:+ line +:+ nl]> (files w)) w).

(** [os.path.exists(p)] *)
Definition path_exists (w : World elem) (p : string) : bool :=
  bool_decide (is_Some (files w !! p)) || bool_decide (p ∈ dirs w).

(** [os.chdir(d)] *)
Definition chdir (d : string) : M elem unit :=
  w <~ get_world ;;
  if decide (d ∈ dirs w) then
    emit (EvChdir d) ;;;
    upd_world (set_cwd d)
  else raise OSError.

(** [os.makedirs(d, exist_ok=True)] *)
Definition makedirs (d : string) : M elem unit :=
  emit (EvMakedirs d) ;;;
  upd_world (λ w, set_dirs ({[d]} ∪ dirs w) w).

(** [tempfile.mkdtemp(None, prefix, dir)] *)
Definition mkdtemp (prefix dir : string) : M elem string :=
  w <~ get_world ;;
  let d := path_join dir (prefix +:+ mkdtemp_suffix E w) in
  emit (EvMkdtemp d) ;;;
  upd_world (λ w, set_dirs ({[d]} ∪ dirs w) w) ;;;
  ret d.

Definition is_under (d p : string) : bool :=
  bool_decide (p = d) || String.prefix (d +:+ "/") p.

(** [shutil.rmtree(d, ignore_errors=True)], on a file system that lets the
    directory go. *)
Definition rmtree (d : string) : M elem unit :=
  emit (EvRmtree d) ;;;
  upd_world (λ w, set_dirs (filter (λ p, is_under d p = false) (dirs w)) w) ;;;
  upd_world (λ w, set_files (filter (λ kv, is_under d kv.1 = false) (files w)) w).

(** The overridable methods and the class name, as [self] resolves them. *)
Record Virtual := mk_virtual {
  v_classname : string;
  v_trace : M elem unit;
  v_writeScript : string → M elem unit;
  v_setFunctionMetadata : FuncMeta → FuncMeta
}.

Context (V : Virtual).

Definition _genScript (filename : string) : M elem unit :=
  v_trace V ;;;
  w <~ get_world ;;
  let script_file := path_join (cwd w) filename in
  if open_writable E script_file w then
    upd_world (λ w, set_files (<[script_file := ""]> (files w)) w) ;;;
    let timestr := clock w in
    fprint script_file "" ;;;
    fprint script_file ("# SPIRAL script generated by " +:+ v_classname V) ;;;
    fprint script_file ("# " +:+ timestr) ;;;
    fprint script_file "" ;;;
    v_writeScript V script_file
  else
    emit (EvPrintErr ("Error: Could not open " +:+ filename +:+ " for writing")).

(** [self._opts], read through the reference. *)
Definition opts_dict : M elem PyDict :=
  s <~ get_self ;;
  w <~ get_world ;;
  ret (default ∅ (dicts w !! _opts s)).

Definition _metadataForSearch : M elem FuncMeta :=
  s <~ get_self ;;
  opts <~ opts_dict ;;
  let funcmeta :=
    mk_funcmeta
      (if py_eq (direction (_problem s)) SP_INVERSE
       then SP_STR_INVERSE else SP_STR_FORWARD)
      (if py_eq (dict_get opts SP_OPT_REALCTYPE PyNone) (PyStr "float")
       then SP_STR_SINGLE else SP_STR_DOUBLE)
      SP_TRANSFORM_UNKNOWN
      (dimensions (_problem s))
      (dict_get opts SP_OPT_PLATFORM SP_CPU) in
  ret (v_setFunctionMetadata V funcmeta).

(** Write metadata source file.  Modelled from the spec:
    [writeMetadataSourceFile] is not among the sources; it writes "a sibling
    metadata file describing the newly built artifact", seen here as an
    event. *)
Definition _createMetadataFile (basename : string) : M elem unit :=
  let varname := basename +:+ SP_METAVAR_EXT in
  let filename := basename +:+ SP_METAFILE_EXT in
  emit (EvWriteMetadata varname filename).

(** Run SPIRAL with script as input. *)
Definition _callSpiral (script : string) : M elem pyval :=
  s <~ get_self ;;
  (if _genCuda s then emit (EvPrint "Generating CUDA")
   else if _genHIP s then emit (EvPrint "Generating HIP")
   else emit (EvPrint "Generating C")) ;;;
  emit (EvSpiral script) ;;;
  w <~ get_world ;;
  ret (callSpiralWithFile E script w).

Definition _callCMake (basename : string) : M elem Z :=
  s <~ get_self ;;
  emit (EvPrint "Compiling and linking") ;;;
  w <~ get_world ;;
  let cmfile := path_join (module_dir E) "CMakeLists.txt" in
  emit (EvCopy cmfile (cwd w)) ;;;
  let cmake_defroot := "-DFILEROOT:STRING=" +:+ basename in
  let cmd := "cmake " +:+ cmake_defroot in
  let cmd := if _genCuda s then cmd +:+ " -DHASCUDA=1"
             else if _genHIP s
                  then cmd +:+ " -DHASHIP=1 -DCMAKE_CXX_COMPILER=hipcc"
                  else cmd in
  let cmd := if truthy (_withMPI s) then cmd +:+ " -DHASMPI=1" else cmd in
  let cmd := if truthy (_includeMetadata s)
             then cmd +:+ " -DHAS_METADATA=1" else cmd in
  let cmd := cmd +:+ " -DPY_LIBS_DIR=" +:+ _libsDir s in
  let cmd := if win32 E
             then cmd +:+ " . && cmake --build . --config Release --target install"
             else cmd +:+ " . && make install" in
  emit (EvCMake cmd) ;;;
  w <~ get_world ;;
  let returncode := cmake_returncode E cmd w in
  (if decide (returncode ≠ 0)
   then emit (EvPrintErr (cmake_stderr E cmd w))
   else
     (* the build's expected side effect: the installed library *)
     upd_world (λ w, set_files
       (<[path_join (_libsDir s) ("lib" +:+ basename +:+ SP_SHLIB_EXT) := ""]>
          (files w)) w)) ;;;
  ret returncode.

Definition _setupCFuncs (basename : string) : M elem unit :=
  s <~ get_self ;;
  (* if workdir specified, cd to it *)
  (match _workdir s with
   | Some d =>
       λ st, match chdir d st with
             | (Ok _, st') => (Ok (), st')
             | (Exc _, st') =>
                 emit (EvPrint ("Could not find workdir " +:+ dq +:+ d +:+ dq
                                +:+ ". Using current directory.")) st'
             end
   | None => ret ()
   end) ;;;
  (* create temporary build directory and cd to it *)
  w <~ get_world ;;
  let cwd := cwd w in
  tempdir <~ mkdtemp (basename +:+ "_") cwd ;;
  chdir tempdir ;;;
  let script := basename +:+ ".g" in
  _genScript script ;;;
  r <~ _callSpiral script ;;
  (if py_eq r SPIRAL_RET_OK then
     s <~ get_self ;;
     if truthy (_includeMetadata s) then _createMetadataFile basename
     else ret ()
   else
     (* return to original working directory and raise error *)
     chdir cwd ;;;
     raise (RuntimeError "SPIRAL error")) ;;;
  r <~ _callCMake basename ;;
  (* return to original working directory *)
  chdir cwd ;;;
  (if decide (r ≠ 0) then raise (RuntimeError "CMake error") else ret ()) ;;;
  (* optionally remove temp dir *)
  s <~ get_self ;;
  if negb (truthy (_keeptemp s)) then rmtree tempdir else ret ().

(** *** Loading and calling the generated library *)

(** [ctypes.CDLL(path)] *)
Definition CDLL (path : string) : M elem cdll :=
  emit (EvCDLL path) ;;;
  w <~ get_world ;;
  match files w !! path with
  | Some _ => ret (mk_cdll path (lib_exports E path w))
  | None => raise OSError
  end.

(** Symbol lookup in a library handle; [None] when the handle is [None] or
    the symbol is not exported. *)
Definition lookup_symbol (lib : option cdll) (name : string) : option string :=
  match lib with
  | Some l => if decide (name ∈ exports l) then Some name else None
  | None => None
  end.

(** [getattr(lib, name)] *)
Definition getattr (lib : option cdll) (name : pyval) : M elem string :=
  match name with
  | PyStr n =>
      match lookup_symbol lib n with
      | Some f => ret f
      | None => raise (AttributeError n)
      end
  | _ => raise (TypeError "attribute name must be string")
  end.

(** [getattr(lib, name, None)] *)
Definition getattr_or_None (lib : option cdll) (name : pyval)
  : M elem (option string) :=
  match name with
  | PyStr n => ret (lookup_symbol lib n)
  | _ => raise (TypeError "attribute name must be string")
  end.

(** ['could not find function: ' + name] *)
Definition could_not_find (name : pyval) : M elem unit :=
  match name with
  | PyStr n => raise (RuntimeError ("could not find function: " +:+ n))
  | _ => raise (TypeError "can only concatenate str")
  end.

(** Calling a resolved native entry point on raw pointers. *)
Definition call_native (f : option string) (args : list ptr) : M elem unit :=
  match f with
  | Some fname =>
      emit (EvCall fname args) ;;;
      upd_world (λ w, set_heap (native_effect E fname args (heap w)) w)
  | None => raise (TypeError "object is not callable")
  end.

(** Call the SPIRAL generated init function *)
Definition _initFunc : M elem unit :=
  s <~ get_self ;;
  gf <~ getattr_or_None (_SharedLibAccess s) (_initFuncName s) ;;
  match gf with
  | Some f => call_native (Some f) []
  | None => could_not_find (_initFuncName s)
  end.

(** Call the SPIRAL generated destroy function *)
Definition _destroyFunc : M elem unit :=
  s <~ get_self ;;
  gf <~ getattr_or_None (_SharedLibAccess s) (_destroyFuncName s) ;;
  match gf with
  | Some f => call_native (Some f) []
  | None => could_not_find (_destroyFuncName s)
  end.

(** [__del__]: the destroy function may not exist if cleaning up after
    error. *)
Definition __del__ : M elem unit :=
  λ st, (Ok (), (_destroyFunc st).2).

(** The array object a reference denotes.  Python has no reference to
    nothing; a location outside the store is reported as an error. *)
Definition deref (l : nat) : M elem (ndarray elem) :=
  w <~ get_world ;;
  match heap w !! l with
  | Some a => ret a
  | None => raise (RuntimeError "no such object")
  end.

(** [a.ctypes.data_as(ctypes.c_void_p)]: NumPy arrays have [ctypes], CuPy
    arrays do not. *)
Definition ctypes_data_as (l : nat) : M elem ptr :=
  a <~ deref l ;;
  match xpmod a with
  | NP => ret (HostPtr l)
  | CP => raise (AttributeError "ctypes")
  end.

(** [ctypes.cast(a.data.ptr, ...)]: the [data] of a CuPy array is a memory
    pointer with a [ptr]; the [data] of a NumPy array is a memoryview, which
    has none. *)
Definition data_ptr (l : nat) : M elem ptr :=
  a <~ deref l ;;
  match xpmod a with
  | CP => ret (DevPtr l)
  | NP => raise (AttributeError "ptr")
  end.

(** Call the SPIRAL generated main function *)
Definition _func (dst src : nat) : M elem unit :=
  srcA <~ deref src ;;
  let xp := get_array_module E srcA in
  s <~ get_self ;;
  match xp with
  | NP =>
      if _genCuda s || _genHIP s then
        raise (RuntimeError "GPU function requires CuPy arrays")
      else
        (* NumPy array on CPU *)
        d <~ ctypes_data_as dst ;;
        p <~ ctypes_data_as src ;;
        call_native (_MainFunc s) [d; p]
  | CP =>
      if negb (_genCuda s) && negb (_genHIP s) then
        raise (RuntimeError "CPU function requires NumPy arrays")
      else
        (* CuPy array on GPU *)
        srcdev <~ data_ptr src ;;
        dstdev <~ data_ptr dst ;;
        call_native (_MainFunc s) [dstdev; srcdev]
  end.

(** The dictionary that [opts = {}] in the signature of [__init__] creates
    once, when the [def] is evaluated. *)
Definition __init__defaults : nat := 0%nat.

Definition __init__ (problem : SPProblem) (namebase : string)
    (opts : option nat) : M elem unit :=
  let opts := default __init__defaults opts in
  s0 <~ get_self ;;
  w <~ get_world ;;
  let o := default ∅ (dicts w !! opts) in
  let genHIP := py_eq (dict_get o SP_OPT_PLATFORM SP_CPU) SP_HIP in
  let genCuda := py_eq (dict_get o SP_OPT_PLATFORM SP_CPU) SP_CUDA in
  (* find and possibly create the .libs subdirectory *)
  let libsDir :=
    path_join (path_join (path_join (USER_BASE E) SP_SHARE_DIR) (package E))
              SP_LIBSDIR in
  makedirs libsDir ;;;
  let namebase := if genCuda then namebase +:+ "_cu"
                  else if genHIP then namebase +:+ "_hip"
                  else namebase in
  upd_self (λ _, mk_solver problem opts
    (dict_get o SP_OPT_COLMAJOR (PyBool false))
    genHIP genCuda
    (dict_get o SP_OPT_KEEPTEMP
       (PyBool (bool_decide (is_Some (getenv E SP_KEEPTEMP)))))
    (dict_get o SP_OPT_MPI (PyBool false))
    (dict_get o SP_OPT_PRINTRULETREE
       (PyBool (bool_decide (is_Some (getenv E SP_PRINTRULETREE)))))
    false [] None None "spiral"
    (dict_get o SP_OPT_METADATA (PyBool false))
    (getenv E SP_WORKDIR) libsDir namebase
    (PyStr namebase) (PyStr ("init_" +:+ namebase))
    (PyStr ("destroy_" +:+ namebase))
    (_ftype s0) (_cxtype s0)) ;;;
  (* check first for library built for this specific transform *)
  let sharedLibFullPath :=
    path_join libsDir ("lib" +:+ namebase +:+ SP_SHLIB_EXT) in
  (* if no matching specific library, look in metadata of installed
     libraries and create one if no matching transform is in an existing
     installed library *)
  w <~ get_world ;;
  sharedLibFullPath <~
    (if negb (path_exists w sharedLibFullPath) then
       searchmd <~ _metadataForSearch ;;
       emit (EvSearch searchmd) ;;;
       w <~ get_world ;;
       match findFunctionsWithMetadata E searchmd w with
       | (Atom (PyStr path), Dict names) =>
           if decide (2 < size names)%nat then
             upd_self (λ s, set_funcNames
               (dict_get names SP_KEY_EXEC (_mainFuncName s))
               (dict_get names SP_KEY_INIT (_initFuncName s))
               (dict_get names SP_KEY_DESTROY (_destroyFuncName s)) s) ;;;
             ret path
           else
             _setupCFuncs namebase ;;;
             ret sharedLibFullPath
       | _ =>
           _setupCFuncs namebase ;;;
           ret sharedLibFullPath
       end
     else ret sharedLibFullPath) ;;
  lib <~ CDLL sharedLibFullPath ;;
  upd_self (set_SharedLibAccess (Some lib)) ;;;
  s <~ get_self ;;
  f <~ getattr (_SharedLibAccess s) (_mainFuncName s) ;;
  upd_self (set_MainFunc (Some f)) ;;;
  s <~ get_self ;;
  match _MainFunc s with
  | None => could_not_find (_mainFuncName s)
  | Some _ => _initFunc
  end.

End Methods.
End SPSolver.

(** ** [MdrconvSolver]: cyclic 3D real convolution *)

Module MdrconvSolver.
Section Methods.

Context {elem : Type} (E : Env elem).

(** [sep.join(parts)] *)
Fixpoint str_join (sep : string) (parts : list string) : string :=
  match parts with
  | [] => ""
  | [p] => p
  | p :: rest => p +:+ sep +:+ str_join sep rest
  end.

(** Build test input cube *)
Definition buildTestInput : M elem (ndarray elem * ndarray elem) :=
  s <~ get_self ;;
  xp <~ (if _genCuda s || _genHIP s
         then if cupy_present E then ret CP
              else raise (AttributeError "random")
         else ret NP) ;;
  n1 <~ lift (seq_at (dimensions (_problem s)) 0) ;;
  n2 <~ lift (seq_at (dimensions (_problem s)) 1) ;;
  n3 <~ lift (seq_at (dimensions (_problem s)) 2) ;;
  testSrc <~ xp_random_rand E xp [n1; n2; n3] ;;
  symIn <~ xp_random_rand E xp [n1; n2; n3] ;;
  testSym <~ lift (xp_rfftn E xp symIn) ;;
  ret (testSrc, testSym).

(** Solve using internal Python definition. *)
Definition runDef (src sym : ndarray elem) : M elem (ndarray elem) :=
  srcF <~ SPSolver.rfftn E src ;;
  P <~ SPSolver.pointwise E srcF sym ;;
  out <~ SPSolver.irfftn E P (shape src) ;;
  ret out.

(** Trace execution for generating Spiral script *)
Definition _trace : M elem unit :=
  upd_self (set_tracingOn true) ;;;
  upd_self (set_callGraph []) ;;;
  (* (src, sym) = self.buildTestInput() *)
  input <~ buildTestInput ;;
  runDef input.1 input.2 ;;;
  upd_self (set_tracingOn false) ;;;
  upd_self (λ s, set_callGraph (SPSolver.add_separators (_callGraph s)) s).

Definition _writeScript (script_file : string) : M elem unit :=
  s <~ get_self ;;
  let print := SPSolver.fprint (elem := elem) script_file in
  let nameroot := _namebase s in
  let filename := nameroot in
  let filetype := ".c" in
  let filetype := if _genCuda s then ".cu" else filetype in
  let filetype := if _genHIP s then ".cpp" else filetype in
  print "Load(fftx);" ;;;
  print "ImportAll(fftx);" ;;;
  print "" ;;;
  (if _genCuda s then print "conf := LocalConfig.fftx.confGPU();"
   else if _genHIP s then print "conf := FFTXGlobals.defaultHIPConf();"
   else print "conf := LocalConfig.fftx.defaultConf();") ;;;
  print "" ;;;
  print ("t := let(symvar := var(" +:+ SPSolver.dq +:+ "sym" +:+ SPSolver.dq
         +:+ ", TPtr(TReal)),") ;;;
  print "    TFCall(" ;;;
  print "        Compose([" ;;;
  s <~ get_self ;;
  foldr (λ i k,
           s <~ get_self ;;
           line <~ lift (seq_at (_callGraph s) i) ;;
           print ("            " +:+ line) ;;;
           k)
        (ret ()) (seq 0 (length (_callGraph s))) ;;;
  print "        ])," ;;;
  print ("        rec(fname := " +:+ SPSolver.dq +:+ nameroot +:+ SPSolver.dq
         +:+ ", params := [symvar])") ;;;
  print "    )" ;;;
  print ");" ;;;
  print "" ;;;
  print "opts := conf.getOpts(t);" ;;;
  s <~ get_self ;;
  (if _genCuda s || _genHIP s then print "opts.wrapCFuncs := true;"
   else ret ()) ;;;
  opts <~ SPSolver.opts_dict ;;
  (if py_eq (dict_get opts SP_OPT_REALCTYPE PyNone) (PyStr "float")
   then print ("opts.TRealCtype := " +:+ SPSolver.dq +:+ "float"
               +:+ SPSolver.dq +:+ ";")
   else ret ()) ;;;
  s <~ get_self ;;
  (if truthy (_printRuleTree s) then print "opts.printRuleTree := true;"
   else ret ()) ;;;
  print "tt := opts.tagIt(t);" ;;;
  print "" ;;;
  print "c := opts.fftxGen(tt);" ;;;
  print ("PrintTo(" +:+ SPSolver.dq +:+ filename +:+ filetype +:+ SPSolver.dq
         +:+ ", opts.prettyPrint(c));") ;;;
  print "".

Definition _setFunctionMetadata (obj : FuncMeta) : FuncMeta :=
  mk_funcmeta (md_direction obj) (md_precision obj) SP_TRANSFORM_MDRCONV
              (md_dimensions obj) (md_platform obj).

(** [self]'s method table. *)
Definition methods : SPSolver.Virtual (elem := elem) :=
  SPSolver.mk_virtual "MdrconvSolver" _trace _writeScript _setFunctionMetadata.

(** Call the SPIRAL generated main function *)
Definition _func (dst src sym : nat) : M elem unit :=
  srcA <~ SPSolver.deref src ;;
  let xp := get_array_module E srcA in
  s <~ get_self ;;
  match xp with
  | NP =>
      if _genCuda s || _genHIP s then
        raise (RuntimeError "GPU function requires CuPy arrays")
      else
        (* NumPy array on CPU *)
        d <~ SPSolver.ctypes_data_as dst ;;
        p <~ SPSolver.ctypes_data_as src ;;
        q <~ SPSolver.ctypes_data_as sym ;;
        SPSolver.call_native E (_MainFunc s) [d; p; q]
  | CP =>
      if negb (_genCuda s) && negb (_genHIP s) then
        raise (RuntimeError "CPU function requires NumPy arrays")
      else
        (* CuPy array on GPU *)
        dstdev <~ SPSolver.data_ptr dst ;;
        srcdev <~ SPSolver.data_ptr src ;;
        symdev <~ SPSolver.data_ptr sym ;;
        SPSolver.call_native E (_MainFunc s) [dstdev; srcdev; symdev]
  end.

(** A new array object in the store. *)
Definition alloc (a : ndarray elem) : M elem nat :=
  w <~ get_world ;;
  let l := fresh (dom (heap w)) in
  upd_world (set_heap (<[l := a]> (heap w))) ;;;
  ret l.

(** [xp.divide(dst, n, out=dst)] *)
Definition xp_divide_out (dst : nat) (n : Z) : M elem unit :=
  a <~ SPSolver.deref dst ;;
  let q := mk_ndarray (xpmod a) (shape a)
             (map (λ x, true_divide E x n) (data a)) in
  upd_world (λ w, set_heap (<[dst := q]> (heap w)) w).

(** Call SPIRAL-generated code *)
Definition solve (src sym : nat) (dst : option nat) : M elem nat :=
  srcA <~ SPSolver.deref src ;;
  let xp := get_array_module E srcA in
  (* slice sym if it's a cube *)
  symA <~ SPSolver.deref sym ;;
  let shape := shape symA in
  s0 <~ lift (seq_at shape 0) ;;
  s2 <~ lift (seq_at shape 2) ;;
  sym <~ (if decide (s0 = s2) then
            let N := s0 in
            let Nx := N / 2 + 1 in
            alloc (mk_ndarray xp
                     (take 2 shape ++ slice_len s2 0 Nx :: drop 3 shape)%list
                     (slice_data E shape
                        [(0, s0); (0, default 0 (shape !! 1%nat)); (0, Nx)]
                        (data symA)))
          else ret sym) ;;
  s <~ get_self ;;
  n1 <~ lift (seq_at (dimensions (_problem s)) 0) ;;
  n2 <~ lift (seq_at (dimensions (_problem s)) 1) ;;
  n3 <~ lift (seq_at (dimensions (_problem s)) 2) ;;
  dst <~ (match dst with
          | None =>
              if (0 <=? n1) && (0 <=? n2) && (0 <=? n3)
              then alloc (mk_ndarray xp [n1; n2; n3]
                            (replicate (Z.to_nat (n1 * n2 * n3)) (zero E)))
              else raise ValueError
          | Some d => ret d
          end) ;;
  _func dst src sym ;;;
  xp_divide_out dst (n1 * n2 * n3) ;;;
  ret dst.

(** The dictionary that [opts = {}] in the signature of [__init__] creates
    once, when the [def] is evaluated. *)
Definition __init__defaults : nat := 1%nat.

(** [opts[key] = value] through the reference *)
Definition dict_setitem (l : nat) (key : string) (v : pyval) : M elem unit :=
  upd_world (λ w, set_dicts
    (<[l := <[key := v]> (default ∅ (dicts w !! l))]> (dicts w)) w).

Definition __init__ (problem : SPProblem) (opts : option nat) : M elem unit :=
  let opts := default __init__defaults opts in
  match pclass problem with
  | SPProblemClass => raise (TypeError "problem must be an MdrconvProblem")
  | MdrconvProblemClass =>
      w <~ get_world ;;
      let o := default ∅ (dicts w !! opts) in
      let float := py_eq (dict_get o SP_OPT_REALCTYPE (PyInt 0)) (PyStr "float") in
      let typ := if float then "f" else "d" in
      upd_self (if float then set_types np_single np_csingle
                else set_types np_double np_cdouble) ;;;
      let ns := str_join "x" (map str (dimensions problem)) in
      let namebase := typ +:+ "Mdrconv_" +:+ ns in
      dict_setitem opts SP_OPT_METADATA (PyBool true) ;;;
      SPSolver.__init__ E methods problem namebase (Some opts)
  end.

End Methods.
End MdrconvSolver.

(** ** Reference runs

    A reference computation ([runDef]) reaches the solver only through the
    symbolic operators; which operator it calls next, and on what, may
    depend on the arrays the earlier calls returned. *)

Module Reference.
Section Runs.

Context {elem : Type} (E : Env elem).

Inductive op_call :=
| ZeroEmbedBox (src : ndarray elem) (padding : list (Z * Z))
| Rfftn (x : ndarray elem)
| Pointwise (x y : ndarray elem)
| Irfftn (x : ndarray elem) (shape : list Z)
| Extract (x : ndarray elem) (N Nd : Z).

Definition run_op (c : op_call) : M elem (ndarray elem) :=
  match c with
  | ZeroEmbedBox src padding => SPSolver.zeroEmbedBox E src padding
  | Rfftn x => SPSolver.rfftn E x
  | Pointwise x y => SPSolver.pointwise E x y
  | Irfftn x shape => SPSolver.irfftn E x shape
  | Extract x N Nd => SPSolver.extract E x N Nd
  end.

Inductive RefRun (R : Type) :=
| Done (r : R)
| Call (c : op_call) (k : ndarray elem → RefRun R).
Arguments Done {R} r.
Arguments Call {R} c k.

Fixpoint run {R} (p : RefRun R) : M elem R :=
  match p with
  | Done r => ret r
  | Call c k => v <~ run_op c ;; run (k v)
  end.

(** The number of operator calls a run makes from a given state. *)
Fixpoint calls {R} (p : RefRun R) (st : St elem) : nat :=
  match p with
  | Done _ => 0
  | Call c k =>
      match run_op c st with
      | (Ok v, st') => S (calls (k v) st')
      | (Exc _, _) => 1
      end
  end.


(** [MdrconvSolver.runDef] as a reference run. *)
Definition mdrconv_run (src sym : ndarray elem) : RefRun (ndarray elem) :=
  Call (Rfftn src) (λ srcF,
  Call (Pointwise srcF sym) (λ P,
  Call (Irfftn P (shape src)) (λ out,
  Done out))).


End Runs.
End Reference.

(** The solver seen with the tracing flag forced to [b]. *)
Definition with_tracing {elem} (b : bool) (st : St elem) : St elem :=
  mk_st (set_tracingOn b (self st)) (world st).

(** Code that reads the solver object but leaves it as it is. *)
Definition read_only {elem A} (b : Solver → World elem → Res A * World elem)
  : M elem A :=
  λ st, let r := b (self st) (world st) in (r.1, mk_st (self st) r.2).

(** The last character of a string. *)
Fixpoint str_last (s : string) : option ascii :=
  match s with
  | EmptyString => None
  | String c EmptyString => Some c
  | String _ rest => str_last rest
  end.

Definition separator : ascii := ","%char.

(** ** A concrete environment

    One host-only installation, with rationals for array elements, used to
    run the model on examples. *)

Module Sample.

Definition env : Env Q :=
  mk_env
    (λ _ _ d, d) (λ _ d, d) (λ _ d _ _, d) (λ _ _ d, d) (λ _ _ d, d)
    (λ n sh, replicate (Z.to_nat (foldr Z.mul 1 sh)) (inject_Z (Z.of_nat n)))
    0%Q (λ x n, Qred (x / inject_Z n)%Q) false
    (λ _, None) "/home/user/.local" "spiralpy" "/site-packages/spiralpy" false
    (λ _, "k3x9") (λ _ _, true)
    (λ _ _, (Atom PyNone, Atom PyNone)) (λ _ _, PyInt 0) (λ _ _, 0) (λ _ _, "")
    (λ _ _, ["dMdrconv_4x4x4"; "init_dMdrconv_4x4x4"; "destroy_dMdrconv_4x4x4"])
    (λ _ args h,
       (* a stand-in for the generated code: the source, copied *)
       match args with
       | HostPtr d :: HostPtr s :: _ =>
           match h !! s, h !! d with
           | Some a, Some b => <[d := mk_ndarray (xpmod b) (shape b) (data a)]> h
           | _, _ => h
           end
       | _ => h
       end).

(** An object on which no attribute has been set yet. *)
Definition blank (p : SPProblem) : Solver :=
  mk_solver p 0%nat PyNone false false PyNone PyNone PyNone false [] None None ""
    PyNone None "" "" PyNone PyNone PyNone np_double np_cdouble.

Definition world0 : World Q :=
  mk_world ∅ ∅ "/home/user" {["/home/user"]} ∅ 0 "Mon Jan 01 00:00:00 2024" [].

Definition st0 : St Q := mk_st (blank (MdrconvProblem [4; 4; 4])) world0.

Definition cube (n : Z) : ndarray Q :=
  mk_ndarray NP [n; n; n] (replicate (Z.to_nat (n * n * n)) 1%Q).


Definition fixed_input (_ : Solver) (w : World Q)
  : Res (ndarray Q * ndarray Q) * World Q :=
  (Ok (cube 4, mk_ndarray NP [4; 4; 3] (replicate 48 1%Q)), w).

Definition three_steps (input : ndarray Q * ndarray Q)
  : Reference.RefRun (ndarray Q) :=
  Reference.mdrconv_run input.1 input.2.

Definition traced : Res unit * St Q :=
  SPSolver._trace (read_only fixed_input)
    (λ src, Reference.run env (three_steps src)) st0.

(** The same installation with a generator that fails, and with a native
    build that fails. *)
Definition env_generator_fails : Env Q :=
  mk_env (pad_data env) (rfftn_data env) (mul_data env) (irfftn_data env)
    (slice_data env) (rand_data env) (zero env) (true_divide env)
    (cupy_present env) (getenv env) (USER_BASE env) (package env)
    (module_dir env) (win32 env) (mkdtemp_suffix env) (open_writable env)
    (findFunctionsWithMetadata env) (λ _ _, PyInt 1) (cmake_returncode env)
    (cmake_stderr env) (lib_exports env) (native_effect env).

Definition env_build_fails : Env Q :=
  mk_env (pad_data env) (rfftn_data env) (mul_data env) (irfftn_data env)
    (slice_data env) (rand_data env) (zero env) (true_divide env)
    (cupy_present env) (getenv env) (USER_BASE env) (package env)
    (module_dir env) (win32 env) (mkdtemp_suffix env) (open_writable env)
    (findFunctionsWithMetadata env) (callSpiralWithFile env) (λ _ _, 2)
    (cmake_stderr env) (lib_exports env) (native_effect env).

(** The solver object as the constructor leaves it for dimensions (4,4,4)
    and no options, before the library is loaded. *)
Definition solver444 : Solver :=
  mk_solver (MdrconvProblem [4; 4; 4]) 1%nat (PyBool false) false false
    (PyBool false) (PyBool false) (PyBool false) false [] None None "spiral"
    (PyBool true) None "/home/user/.local/SP_SHARE_DIR/spiralpy/SP_LIBSDIR"
    "dMdrconv_4x4x4" (PyStr "dMdrconv_4x4x4") (PyStr "init_dMdrconv_4x4x4")
    (PyStr "destroy_dMdrconv_4x4x4") np_double np_cdouble.

Definition st444 : St Q := mk_st solver444 world0.

(** Builds of the library for [solver444] in the three installations. *)
Definition build_in (E : Env Q) : Res unit * St Q :=
  SPSolver._setupCFuncs E (MdrconvSolver.methods E) "dMdrconv_4x4x4" st444.



Definition symbol : ndarray Q :=
  mk_ndarray NP [4; 4; 3] (replicate 48 1%Q).


(** The loaded solver for (4,4,4) on the CPU. *)
Definition loaded444 : Solver :=
  set_MainFunc (Some "dMdrconv_4x4x4")
    (set_SharedLibAccess
       (Some (mk_cdll
          "/home/user/.local/SP_SHARE_DIR/spiralpy/SP_LIBSDIR/libdMdrconv_4x4x4.SP_SHLIB_EXT"
          ["dMdrconv_4x4x4"; "init_dMdrconv_4x4x4"; "destroy_dMdrconv_4x4x4"]))
       solver444).


(** A store with a host source (buffer 0) and a host symbol (buffer 2), and
    the solver called on them without a destination. *)
Definition world_host : World Q :=
  mk_world ∅ (<[0%nat := cube 4]> (<[2%nat := symbol]> ∅))
    "/home/user" {["/home/user"]} ∅ 0 "Mon Jan 01 00:00:00 2024" [].

Definition st_host : St Q := mk_st loaded444 world_host.

Definition solved : Res nat * St Q :=
  MdrconvSolver.solve env 0 2 None st_host.

(** Installations in which the search among the installed libraries
    returns [found], and a world in which that library is installed. *)
Definition env_found (found : pyobj * pyobj) : Env Q :=
  mk_env (pad_data env) (rfftn_data env) (mul_data env) (irfftn_data env)
    (slice_data env) (rand_data env) (zero env) (true_divide env)
    (cupy_present env) (getenv env) (USER_BASE env) (package env)
    (module_dir env) (win32 env) (mkdtemp_suffix env) (open_writable env)
    (λ _ _, found) (callSpiralWithFile env)
    (cmake_returncode env) (cmake_stderr env) (lib_exports env)
    (native_effect env).

Definition other_lib : string := "/opt/spiral/libconv.SP_SHLIB_EXT".

Definition found_exec_init : pyobj * pyobj :=
  (Atom (PyStr other_lib),
   Dict (<[SP_KEY_EXEC := PyStr "dMdrconv_4x4x4"]>
           (<[SP_KEY_INIT := PyStr "init_dMdrconv_4x4x4"]> ∅))).

Definition found_three_others : pyobj * pyobj :=
  (Atom (PyStr other_lib),
   Dict (<["a" := PyStr "f"]> (<["b" := PyStr "g"]> (<["c" := PyStr "h"]> ∅)))).

Definition found_all_three : pyobj * pyobj :=
  (Atom (PyStr other_lib),
   Dict (<[SP_KEY_EXEC := PyStr "dMdrconv_4x4x4"]>
           (<[SP_KEY_INIT := PyStr "init_dMdrconv_4x4x4"]>
              (<[SP_KEY_DESTROY := PyStr "destroy_dMdrconv_4x4x4"]> ∅)))).

Definition world_installed : World Q :=
  mk_world ∅ ∅ "/home/user" {["/home/user"]} (<[other_lib := ""]> ∅) 0
    "Mon Jan 01 00:00:00 2024" [].

Definition st_installed : St Q :=
  mk_st (blank (MdrconvProblem [4; 4; 4])) world_installed.

(** Construction of the solver for (4,4,4), no options passed. *)
Definition construct (E : Env Q) (st : St Q) : Res unit * St Q :=
  MdrconvSolver.__init__ E (MdrconvProblem [4; 4; 4]) None st.

(** The same solver a day later, further along in the random stream. *)
Definition world_later : World Q :=
  mk_world ∅ ∅ "/home/user" {["/home/user"]} ∅ 7 "Tue Jan 02 00:00:00 2024" [].

Definition st444_later : St Q := mk_st solver444 world_later.

(** The same solver at the same time, further along in the random
    stream. *)
Definition world_again : World Q :=
  mk_world ∅ ∅ "/home/user" {["/home/user"]} ∅ 7 "Mon Jan 01 00:00:00 2024" [].

Definition st444_again : St Q := mk_st solver444 world_again.

Definition generate (st : St Q) : Res unit * St Q :=
  SPSolver._genScript env (MdrconvSolver.methods env) "dMdrconv_4x4x4.g" st.

Definition script_of (st : St Q) : option string :=
  files (world (generate st).2) !! "/home/user/dMdrconv_4x4x4.g".

End Sample.

(** ** Observations of a run *)

(** [preserves f m]: running [m] leaves the observation [f] of the state as
    it was, whether [m] returns or raises. *)
Definition preserves {elem A X} (f : St elem → X) (m : M elem A) : Prop :=
  ∀ st, f (m st).2 = f st.

(** The events of building and loading a library: directory changes,
    temporary directories, the two external tools, the search among the
    installed libraries and the load. *)
Definition is_build (e : Event) : bool :=
  match e with
  | EvChdir _ | EvMkdtemp _ | EvRmtree _ | EvSpiral _ | EvCMake _
  | EvSearch _ | EvCDLL _ => true
  | _ => false
  end.

Definition build_events {elem} (w : World elem) : list Event :=
  List.filter is_build (events w).

Definition is_cmake (e : Event) : bool :=
  match e with EvCMake _ => true | _ => false end.

(** What the build routine relies on the script generation not to touch:
    the working directory, the directories, the build events and the
    keep-temporary-files flag. *)
Definition build_view {elem} (st : St elem)
  : string * gset string * list Event * pyval :=
  (cwd (world st), dirs (world st), build_events (world st),
   _keeptemp (self st)).

(** The overridden methods stay within script generation. *)
Definition well_behaved {elem} (V : SPSolver.Virtual (elem := elem)) : Prop :=
  preserves build_view (SPSolver.v_trace V) ∧
  ∀ f, preserves build_view (SPSolver.v_writeScript V f).

(** The directory the build works from: the configured work directory when
    there is one and it can be entered, the current directory otherwise. *)
Definition build_dir {elem} (st : St elem) : string :=
  match _workdir (self st) with
  | Some d => if decide (d ∈ dirs (world st)) then d else cwd (world st)
  | None => cwd (world st)
  end.

(** The directory change, if any, with which the build enters it. *)
Definition build_entry {elem} (st : St elem) : list Event :=
  match _workdir (self st) with
  | Some d => if decide (d ∈ dirs (world st)) then [EvChdir d] else []
  | None => []
  end.

(** The build events a run from [st] to [st'] has added. *)
Definition new_build_events {elem} (st st' : St elem) : list Event :=
  drop (length (build_events (world st))) (build_events (world st')).

Definition is_mkdtemp (e : Event) : bool :=
  match e with EvMkdtemp _ => true | _ => false end.


(** The test the constructor applies to what the search returned: a path
    that is a string, and names that are a dictionary with more than two
    entries. *)
Definition usable (found : pyobj * pyobj) : bool :=
  match found with
  | (Atom (PyStr _), Dict names) => bool_decide (2 < size names)%nat
  | _ => false
  end.

(** The returned names contain at least the exec and the init symbol
    names. *)
Definition has_exec_and_init (found : pyobj * pyobj) : bool :=
  match found with
  | (_, Dict names) =>
      bool_decide (is_Some (names !! SP_KEY_EXEC)) &&
      bool_decide (is_Some (names !! SP_KEY_INIT))
  | _ => false
  end.

(** The lines [MdrconvSolver._writeScript] prints, for a solver object and
    the single-precision selection read from its options. *)
Definition script_lines (s : Solver) (float : bool) : list string :=
  (["Load(fftx);";
    "ImportAll(fftx);";
    "";
    (if _genCuda s then "conf := LocalConfig.fftx.confGPU();"
     else if _genHIP s then "conf := FFTXGlobals.defaultHIPConf();"
     else "conf := LocalConfig.fftx.defaultConf();");
    "";
    "t := let(symvar := var(" +:+ SPSolver.dq +:+ "sym" +:+ SPSolver.dq
      +:+ ", TPtr(TReal)),";
    "    TFCall(";
    "        Compose(["]
   ++ map (λ line, "            " +:+ line) (_callGraph s)
   ++ ["        ]),";
       "        rec(fname := " +:+ SPSolver.dq +:+ _namebase s +:+ SPSolver.dq
         +:+ ", params := [symvar])";
       "    )";
       ");";
       "";
       "opts := conf.getOpts(t);"]
   ++ (if _genCuda s || _genHIP s then ["opts.wrapCFuncs := true;"] else [])
   ++ (if float
       then ["opts.TRealCtype := " +:+ SPSolver.dq +:+ "float" +:+ SPSolver.dq
             +:+ ";"]
       else [])
   ++ (if truthy (_printRuleTree s) then ["opts.printRuleTree := true;"] else [])
   ++ ["tt := opts.tagIt(t);";
       "";
       "c := opts.fftxGen(tt);";
       "PrintTo(" +:+ SPSolver.dq +:+ _namebase s
         +:+ (if _genHIP s then ".cpp" else if _genCuda s then ".cu" else ".c")
         +:+ SPSolver.dq +:+ ", opts.prettyPrint(c));";
       ""])%list.

(** Lines as the text of a file: each followed by a newline. *)
Definition unlines (ls : list string) : string :=
  foldr (λ l acc, l +:+ SPSolver.nl +:+ acc) "" ls.

(** The state after [ls] have been printed to the file [f]. *)
Definition append_lines {elem} (f : string) (ls : list string) (st : St elem)
  : St elem :=
  match ls with
  | [] => st
  | _ =>
      mk_st (self st)
        (set_files (<[f := default "" (files (world st) !! f) +:+ unlines ls]>
                      (files (world st))) (world st))
  end.

(** The single-precision selection, read through the options reference. *)
Definition selects_float {elem} (st : St elem) : bool :=
  py_eq (dict_get (default ∅ (dicts (world st) !! _opts (self st)))
           SP_OPT_REALCTYPE PyNone)
        (PyStr "float").

(** Two solvers with identical configuration, as far as script generation
    reads it: problem dimensions, platform, base name, precision and
    rule-tree selections, and the directory the script is written in. *)
Definition same_configuration {elem} (st1 st2 : St elem) : Prop :=
  dimensions (_problem (self st1)) = dimensions (_problem (self st2)) ∧
  _genCuda (self st1) = _genCuda (self st2) ∧
  _genHIP (self st1) = _genHIP (self st2) ∧
  _namebase (self st1) = _namebase (self st2) ∧
  truthy (_printRuleTree (self st1)) = truthy (_printRuleTree (self st2)) ∧
  selects_float st1 = selects_float st2 ∧
  cwd (world st1) = cwd (world st2).

(** The finalized trace of [MdrconvSolver]'s reference run on dimensions
    (n1, n2, n3). *)
Definition mdrconv_entries (n1 n2 n3 : Z) : list string :=
  let nnn := "[" +:+ str n1 +:+ "," +:+ str n2 +:+ "," +:+ str n3 +:+ "]" in
  [("IMDPRDFT(" +:+ nnn +:+ ", 1)") +:+ ",";
   ("RCDiag(FDataOfs(symvar, " +:+ str (foldr Z.mul 1 [n1; n2; n3 / 2 + 1] * 2)
      +:+ ", 0))") +:+ ",";
   "MDPRDFT(" +:+ nnn +:+ ", -1)"].

(** The lines [_genScript] prints before the script proper. *)
Definition script_header (classname timestr : string) : list string :=
  [""; "# SPIRAL script generated by " +:+ classname; "# " +:+ timestr; ""].

(** ** What [SPSolver] leaves to its subclasses *)

Module SPSolverDefaults.
Section Methods.

Context {elem : Type}.

Definition _writeScript (script_file : string) : M elem unit :=
  raise NotImplementedError.

Definition buildTestInput : M elem unit := raise NotImplementedError.

(** [pass] *)
Definition _setFunctionMetadata (obj : FuncMeta) : FuncMeta := obj.

(** [SPSolver._trace] on the methods above.  [self.runDef(src)] passes an
    argument that the [runDef] of the base class does not take. *)
Definition _trace : M elem unit :=
  SPSolver._trace buildTestInput
    (λ _ : unit,
       raise (A := unit)
         (TypeError "runDef() takes 1 positional argument but 2 were given")).

(** The method table of an object of the base class itself. *)
Definition methods : SPSolver.Virtual (elem := elem) :=
  SPSolver.mk_virtual "SPSolver" _trace _writeScript _setFunctionMetadata.

End Methods.
End SPSolverDefaults.

(** The array module [MdrconvSolver.buildTestInput] builds its arrays in. *)
Definition test_module (s : Solver) : xpmodule :=
  if _genCuda s || _genHIP s then CP else NP.

(** The entries of [MdrconvSolver]'s reference run on dimensions
    (n1, n2, n3) as the operators record them, newest first, before the
    closing loop. *)
Definition mdrconv_recorded (n1 n2 n3 : Z) : list string :=
  let nnn := "[" +:+ str n1 +:+ "," +:+ str n2 +:+ "," +:+ str n3 +:+ "]" in
  ["IMDPRDFT(" +:+ nnn +:+ ", 1)";
   "RCDiag(FDataOfs(symvar, " +:+ str (foldr Z.mul 1 [n1; n2; n3 / 2 + 1] * 2)
     +:+ ", 0))";
   "MDPRDFT(" +:+ nnn +:+ ", -1)"].

(** The renderings the operators share: a box [[N1,N2,N3]] and an index
    range [[a..b]]. *)
Definition box3 (N1 N2 N3 : Z) : string :=
  "[" +:+ str N1 +:+ "," +:+ str N2 +:+ "," +:+ str N3 +:+ "]".

Definition index_range (a b : Z) : string :=
  "[" +:+ str a +:+ ".." +:+ str b +:+ "]".

(** The temporary directory of a build: below the directory the build works
    from, named after the library, with the suffix [mkdtemp] chose. *)
Definition temp_build_dir {elem} (basename : string) (st : St elem)
    (suffix : string) : string :=
  SPSolver.path_join (build_dir st) ((basename +:+ "_") +:+ suffix).

(** The raw pointer of a buffer, by the array module it belongs to. *)
Definition ptr_of (m : xpmodule) (l : nat) : ptr :=
  match m with NP => HostPtr l | CP => DevPtr l end.

(** The platform the solver was generated for is the one the array lives
    on: NumPy arrays for a CPU solver, CuPy arrays (with CuPy installed) for
    a GPU solver. *)
Definition on_platform {elem} (E : Env elem) (s : Solver) (a : ndarray elem)
  : bool :=
  match xpmod a with
  | NP => negb (_genCuda s || _genHIP s)
  | CP => cupy_present E && (_genCuda s || _genHIP s)
  end.



(** The directory of installed libraries, the base name with the suffix of
    the platform, and the library of a transform's own name there. *)
Definition libs_dir {elem} (E : Env elem) : string :=
  SPSolver.path_join
    (SPSolver.path_join (SPSolver.path_join (USER_BASE E) SP_SHARE_DIR)
       (package E))
    SP_LIBSDIR.

Definition platform_name (o : PyDict) (namebase : string) : string :=
  if py_eq (dict_get o SP_OPT_PLATFORM SP_CPU) SP_CUDA then namebase +:+ "_cu"
  else if py_eq (dict_get o SP_OPT_PLATFORM SP_CPU) SP_HIP
       then namebase +:+ "_hip"
       else namebase.

Definition own_library {elem} (E : Env elem) (o : PyDict) (namebase : string)
  : string :=
  SPSolver.path_join (libs_dir E)
    ("lib" +:+ platform_name o namebase +:+ SP_SHLIB_EXT).

(** The options a constructor call reads: the dictionary passed, or the
    shared default of the class. *)
Definition options_read {elem} (dflt : nat) (opts : option nat) (st : St elem)
  : PyDict :=
  default ∅ (dicts (world st) !! default dflt opts).

(** The destroy function as [__del__] finds it: the symbol of that name in
    the loaded library, if a library is loaded and exports it. *)
Definition destroy_symbol (s : Solver) : option string :=
  match _destroyFuncName s with
  | PyStr n => SPSolver.lookup_symbol (_SharedLibAccess s) n
  | _ => None
  end.

(** ** Further concrete cases *)

Module Cases.

(** A problem with two dimensions only. *)
Definition st44 : St Q :=
  mk_st (Sample.blank (MdrconvProblem [4; 4])) Sample.world0.



(** An installation in which no file can be opened for writing. *)
Definition env_readonly : Env Q :=
  mk_env (pad_data Sample.env) (rfftn_data Sample.env) (mul_data Sample.env)
    (irfftn_data Sample.env) (slice_data Sample.env) (rand_data Sample.env)
    (zero Sample.env) (true_divide Sample.env) (cupy_present Sample.env)
    (getenv Sample.env) (USER_BASE Sample.env) (package Sample.env)
    (module_dir Sample.env) (win32 Sample.env) (mkdtemp_suffix Sample.env)
    (λ _ _, false)
    (findFunctionsWithMetadata Sample.env) (callSpiralWithFile Sample.env)
    (cmake_returncode Sample.env) (cmake_stderr Sample.env)
    (lib_exports Sample.env) (native_effect Sample.env).

(** The sample solver where an older script is lying around. *)
Definition st444_stale : St Q :=
  mk_st Sample.solver444
    (mk_world ∅ ∅ "/home/user" {["/home/user"]}
       (<["/home/user/dMdrconv_4x4x4.g" := "Load(old);"]> ∅) 0
       "Mon Jan 01 00:00:00 2024" []).

(** A store with a host source (buffer 0), a host symbol (buffer 2) and a
    host destination (buffer 3), and the loaded sample solver on it. *)
Definition world_three : World Q :=
  mk_world ∅ (<[0%nat := Sample.cube 4]> (<[2%nat := Sample.symbol]>
                (<[3%nat := Sample.cube 4]> ∅)))
    "/home/user" {["/home/user"]} ∅ 0 "Mon Jan 01 00:00:00 2024" [].

Definition st_three : St Q := mk_st Sample.loaded444 world_three.






(** A world in which the library of the sample transform's own name is
    installed. *)
Definition world_own : World Q :=
  mk_world ∅ ∅ "/home/user" {["/home/user"]}
    (<["/home/user/.local/SP_SHARE_DIR/spiralpy/SP_LIBSDIR/libdMdrconv_4x4x4.SP_SHLIB_EXT"
       := ""]> ∅)
    0 "Mon Jan 01 00:00:00 2024" [].

Definition st_own : St Q :=
  mk_st (Sample.blank (MdrconvProblem [4; 4; 4])) world_own.




(** A problem with a fourth dimension. *)
Definition st2357 : St Q :=
  mk_st (Sample.blank (MdrconvProblem [2; 3; 5; 7])) Sample.world0.

End Cases.

(** * Properties *)

(** ** Strings *)

Lemma append_nil_inv (a b : string) : a +:+ b = "" → b = "".
Proof. destruct a; simpl; [done | discriminate]. Qed.

Lemma str_last_app (a b : string) : b ≠ "" → str_last (a +:+ b) = str_last b.
Proof.
  intros Hb. induction a as [| c a IH]; simpl; [done |].
  rewrite IH. destruct (a +:+ b) eqn:Hab; [| done].
  apply append_nil_inv in Hab. contradiction.
Qed.

Lemma str_last_snoc (a : string) (c : ascii) :
  str_last (a +:+ String c "") = Some c.
Proof. rewrite str_last_app; done. Qed.

(** ** The closing loop of the trace *)

Section Separators.

Let step (g : list string) (i : nat) : list string :=
  match g !! i with
  | Some s => <[i := s +:+ ","]> g
  | None => g
  end.

Lemma separators_prefix (g : list string) (n : nat) :
  (n ≤ length g)%nat →
  let r := foldl step g (seq 0 n) in
  length r = length g ∧
  (∀ i, (i < n)%nat → r !! i = (λ s, s +:+ ",") <$> g !! i) ∧
  (∀ i, (n ≤ i)%nat → r !! i = g !! i).
Proof.
  induction n as [| n IH]; intros Hn; cbv zeta.
  - simpl. split; [done |]. split; [lia | done].
  - rewrite seq_S, foldl_app. simpl.
    destruct IH as (Hlen & Hlt & Hge); [lia |].
    set (r := foldl step g (seq 0 n)) in *.
    destruct (lookup_lt_is_Some_2 g n) as [s Hs]; [lia |].
    assert (Hstep : step r n = <[n := s +:+ ","]> r).
    { unfold step. by rewrite (Hge n), Hs by lia. }
    rewrite Hstep.
    split; [by rewrite length_insert |].
    split.
    + intros i Hi. destruct (decide (i = n)) as [-> | Hne].
      * rewrite list_lookup_insert_eq by lia. by rewrite Hs.
      * rewrite list_lookup_insert_ne by done. apply Hlt. lia.
    + intros i Hi. rewrite list_lookup_insert_ne by lia. apply Hge. lia.
Qed.

Lemma add_separators_spec (g : list string) :
  length (SPSolver.add_separators g) = length g ∧
  (∀ i, (i < length g - 1)%nat →
        SPSolver.add_separators g !! i = (λ s, s +:+ ",") <$> g !! i) ∧
  (∀ i, (length g - 1 ≤ i)%nat → SPSolver.add_separators g !! i = g !! i).
Proof. apply (separators_prefix g (length g - 1)). lia. Qed.

End Separators.

Lemma str_last_app_some (a b : string) (c : ascii) :
  str_last b = Some c → str_last (a +:+ b) = Some c.
Proof.
  intros Hb. rewrite str_last_app; [done |]. by intros ->.
Qed.

Ltac ends_with_literal := repeat apply str_last_app_some; reflexivity.

Ltac run_monad :=
  unfold bind, ret, raise, lift, get_self, get_world, upd_self, upd_world,
    emit, SPSolver.callGraph_insert0 in *; simpl in *.

(** ** Frame reasoning *)

Section Frame.

Context {elem : Type} {X : Type} (f : St elem → X).

Lemma preserves_state {A} (m : M elem A) (st : St elem) :
  preserves f m → f (m st).2 = f st.
Proof. intros H. apply H. Qed.

Lemma preserves_ret {A} (a : A) : preserves f (ret a).
Proof. by intros st. Qed.

Lemma preserves_raise {A} (e : exn) : preserves f (raise (A := A) e).
Proof. by intros st. Qed.

Lemma preserves_lift {A} (r : Res A) : preserves f (lift r).
Proof. by intros st. Qed.

Lemma preserves_get_self : preserves f get_self.
Proof. by intros st. Qed.

Lemma preserves_get_world : preserves f get_world.
Proof. by intros st. Qed.

Lemma preserves_bind {A B} (m : M elem A) (k : A → M elem B) :
  preserves f m → (∀ a, preserves f (k a)) → preserves f (bind m k).
Proof.
  intros Hm Hk st. unfold bind.
  specialize (Hm st). destruct (m st) as [[a | e] st1]; simpl in *; [| done].
  by rewrite Hk.
Qed.

Lemma preserves_upd_self (g : Solver → Solver) :
  (∀ s w, f (mk_st (g s) w) = f (mk_st s w)) → preserves f (upd_self g).
Proof. intros H [s w]. apply H. Qed.

Lemma preserves_upd_world (g : World elem → World elem) :
  (∀ s w, f (mk_st s (g w)) = f (mk_st s w)) → preserves f (upd_world g).
Proof. intros H [s w]. apply H. Qed.

Lemma preserves_emit (e : Event) :
  (∀ s w, f (mk_st s (set_events (events w ++ [e])%list w)) = f (mk_st s w)) →
  preserves f (emit e).
Proof. intros H. by apply preserves_upd_world. Qed.

End Frame.

(** One step of a frame proof: split a bind, a conditional or a match, or
    close a primitive. *)
Ltac frame_step :=
  match goal with
  | |- preserves _ (bind _ _) => apply preserves_bind; [| intros ?]
  | |- preserves _ (ret _) => apply preserves_ret
  | |- preserves _ (raise _) => apply preserves_raise
  | |- preserves _ (lift _) => apply preserves_lift
  | |- preserves _ get_self => apply preserves_get_self
  | |- preserves _ get_world => apply preserves_get_world
  | |- preserves _ (upd_self _) => apply preserves_upd_self; intros ? ?; reflexivity
  | |- preserves _ (upd_world _) => apply preserves_upd_world; intros ? ?; reflexivity
  | |- preserves _ (emit _) => apply preserves_emit; intros ? ?; reflexivity
  | |- preserves _ (if ?c then _ else _) => destruct c
  | |- preserves _ (match ?c with _ => _ end) => destruct c
  | |- preserves _ (let _ := _ in _) => cbv zeta
  end.

Create HintDb frame.

Ltac frame_steps := repeat first [frame_step | solve [eauto with frame]].

Section KernelFrames.

Context {elem : Type} (E : Env elem).

Lemma xp_random_rand_self xp sh :
  preserves self (xp_random_rand E xp sh).
Proof. unfold xp_random_rand. frame_steps. Qed.

End KernelFrames.

#[global] Hint Resolve xp_random_rand_self : frame.

(** ** The symbolic operators *)

Section OperatorProps.

Context {elem : Type} (E : Env elem).

Import Reference.

(** A traced operator call that returns has put one rendered entry at the
    head of the trace list and has touched nothing else; the entry is closed
    by a parenthesis. *)
Lemma run_op_traced (c : op_call) (st : St elem) v st' :
  _tracingOn (self st) = true →
  run_op E c st = (Ok v, st') →
  ∃ e, str_last e = Some ")"%char ∧
       st' = mk_st (set_callGraph (e :: _callGraph (self st)) (self st)) (world st).
Proof.
  intros Hon Hrun. destruct st as [s w]. simpl in Hon.
  destruct c; simpl in Hrun.
  - unfold SPSolver.zeroEmbedBox in Hrun. run_monad.
    destruct (xp_pad E _ src padding); [| done]. rewrite Hon in Hrun.
    destruct (seq_at padding 0); [| done].
    destruct (decide (1 < length padding)%nat);
      [destruct (seq_at padding 1); [| done] |];
      (destruct (decide (2 < length padding)%nat);
        [destruct (seq_at padding 2); [| done] |]);
      (destruct (shape_at src 0); [| done]);
      (destruct (shape_at src 1); [| done]);
      (destruct (shape_at src 2); [| done]);
      inversion Hrun; subst; (eexists; split; [| reflexivity]);
      ends_with_literal.
  - unfold SPSolver.rfftn in Hrun. run_monad.
    destruct (xp_rfftn E _ x); [| done]. rewrite Hon in Hrun.
    destruct (shape_at x 0); [| done].
    destruct (shape_at x 1); [| done].
    destruct (shape_at x 2); [| done].
    inversion Hrun; subst. eexists; split; [| reflexivity]. ends_with_literal.
  - unfold SPSolver.pointwise in Hrun. run_monad.
    destruct (xp_mul E x y); [| done]. rewrite Hon in Hrun.
    inversion Hrun; subst. eexists; split; [| reflexivity]. ends_with_literal.
  - unfold SPSolver.irfftn in Hrun. run_monad.
    destruct (xp_irfftn E _ x _); [| done]. rewrite Hon in Hrun.
    destruct (seq_at _ 0); [| done].
    destruct (seq_at _ 1); [| done].
    destruct (seq_at _ 2); [| done].
    inversion Hrun; subst. eexists; split; [| reflexivity]. ends_with_literal.
  - unfold SPSolver.extract in Hrun. run_monad.
    destruct (slice3 E x (N - Nd) N); [| done]. rewrite Hon in Hrun.
    inversion Hrun; subst. eexists; split; [| reflexivity]. ends_with_literal.
Qed.

(** With the flag off an operator call is its array kernel and nothing
    more. *)
Lemma run_op_untraced (c : op_call) (st : St elem) :
  _tracingOn (self st) = false →
  (run_op E c st).2 = st.
Proof.
  intros Hoff. destruct st as [s w]. simpl in Hoff.
  destruct c; simpl.
  - unfold SPSolver.zeroEmbedBox. run_monad.
    destruct (xp_pad E _ src padding); [| done]. by rewrite Hoff.
  - unfold SPSolver.rfftn. run_monad.
    destruct (xp_rfftn E _ x); [| done]. by rewrite Hoff.
  - unfold SPSolver.pointwise. run_monad.
    destruct (xp_mul E x y); [| done]. by rewrite Hoff.
  - unfold SPSolver.irfftn. run_monad.
    destruct (xp_irfftn E _ x _); [| done]. by rewrite Hoff.
  - unfold SPSolver.extract. run_monad.
    destruct (slice3 E x (N - Nd) N); [| done]. by rewrite Hoff.
Qed.

End OperatorProps.

Section TracingFlag.

Context {elem : Type} (E : Env elem).

Import Reference.


End TracingFlag.



(** ** The trace recorder *)

Section TraceRecorder.

Context {elem : Type} (E : Env elem).

Import Reference.

(** A traced reference run that returns has put one entry per operator call
    in front of the trace list, each closed by a parenthesis. *)
Lemma run_traced {R} (p : RefRun R) :
  ∀ (st : St elem) r st',
    _tracingOn (self st) = true →
    run E p st = (Ok r, st') →
    ∃ new, length new = calls E p st ∧
           Forall (λ e, str_last e = Some ")"%char) new ∧
           st' = mk_st (set_callGraph (new ++ _callGraph (self st))%list (self st))
                       (world st).
Proof.
  induction p as [r0 | c k IH]; intros st r st' Hon Hrun; simpl in *.
  - unfold ret in Hrun. inversion Hrun; subst. exists []. simpl.
    split; [done |]. split; [constructor |].
    match goal with |- ?x = _ => destruct x as [s w]; by destruct s end.
  - unfold bind in Hrun.
    destruct (run_op E c st) as [[v | x] st1] eqn:Hop; [| done].
    destruct (run_op_traced E c st v st1 Hon Hop) as (e & He & ->).
    apply IH in Hrun; [| done].
    destruct Hrun as (new & Hlen & Hall & ->). simpl.
    exists (new ++ [e])%list. split; [rewrite length_app; simpl; lia |].
    split; [apply Forall_app; split; [done | by constructor] |].
    by rewrite <- app_assoc.
Qed.

(** What the recorder leaves behind, for any way of building the test input
    that does not write to the solver object. *)
Lemma trace_finalized {A R} (b : M elem A) (p : A → RefRun R) (st st' : St elem) :
  (∀ s, self (b s).2 = self s) →
  SPSolver._trace b (λ src, run E (p src)) st = (Ok (), st') →
  ∃ src st1,
    b (mk_st (set_callGraph [] (set_tracingOn true (self st))) (world st))
      = (Ok src, st1) ∧
    is_ok (run E (p src) st1).1 = true ∧
    _tracingOn (self st') = false ∧
    length (_callGraph (self st')) = calls E (p src) st1 ∧
    (∀ i, (i < calls E (p src) st1 - 1)%nat →
          ∃ s, _callGraph (self st') !! i = Some s ∧
               str_last s = Some separator) ∧
    ((0 < calls E (p src) st1)%nat →
     ∃ s, _callGraph (self st') !! (calls E (p src) st1 - 1)%nat = Some s ∧
          str_last s = Some ")"%char).
Proof.
  intros Hb Hrun. unfold SPSolver._trace in Hrun. run_monad.
  set (st_on := mk_st (set_callGraph [] (set_tracingOn true (self st))) (world st))
    in *.
  specialize (Hb st_on).
  destruct (b st_on) as [[src | x] st1] eqn:Hbuild; [| done].
  simpl in Hb.
  destruct (run E (p src) st1) as [[r | x] st2] eqn:Hp; [| done].
  pose proof Hp as Hret.
  apply run_traced in Hp; [| by rewrite Hb].
  destruct Hp as (new & Hlen & Hall & ->).
  inversion Hrun; subst st'; clear Hrun. simpl.
  exists src, st1. split; [done |]. split; [by rewrite Hret |].
  split; [done |].
  rewrite Hb. simpl. rewrite app_nil_r.
  destruct (add_separators_spec new) as (Hl & Hlt & Hge).
  rewrite <- Hlen.
  split; [done |]. split.
  - intros i Hi. rewrite (Hlt i Hi).
    destruct (lookup_lt_is_Some_2 new i) as [s Hs]; [lia |].
    rewrite Hs. simpl. eexists; split; [done |]. apply str_last_snoc.
  - intros Hpos. rewrite Hge by lia.
    destruct (lookup_lt_is_Some_2 new (length new - 1)) as [s Hs]; [lia |].
    exists s. split; [done |].
    rewrite Forall_lookup in Hall. by apply (Hall _ _ Hs).
Qed.

(** C2.  For every reference run, if the recorder returns then the
    finalized composition sequence has exactly as many entries as the run
    made operator calls, say k; each entry at index i < k-1 ends with the
    separator, and the last entry (index k-1) does not end with the separator
    (it ends with the closing parenthesis of its rendering).  Tracing is off
    afterwards. *)
Theorem trace_has_one_entry_per_call {A R}
    (b : Solver → World elem → Res A * World elem) (p : A → RefRun R)
    (st st' : St elem) :
  SPSolver._trace (read_only b) (λ src, run E (p src)) st = (Ok (), st') →
  ∃ src st1,
    read_only b (mk_st (set_callGraph [] (set_tracingOn true (self st))) (world st))
      = (Ok src, st1) ∧
    _tracingOn (self st') = false ∧
    length (_callGraph (self st')) = calls E (p src) st1 ∧
    (∀ i, (i < calls E (p src) st1 - 1)%nat →
          ∃ s, _callGraph (self st') !! i = Some s ∧
               str_last s = Some separator) ∧
    ((0 < calls E (p src) st1)%nat →
     ∃ s, _callGraph (self st') !! (calls E (p src) st1 - 1)%nat = Some s ∧
          str_last s ≠ Some separator).
Proof.
  intros Hrun.
  destruct (trace_finalized (read_only b) p st st') as
    (src & st1 & Hb & _ & Hoff & Hlen & Hsep & Hlast); [done | done |].
  exists src, st1. repeat (split; [done |]).
  intros Hpos. destruct (Hlast Hpos) as (s & Hs & Hend).
  exists s. split; [done |]. rewrite Hend. by intros [=].
Qed.

(** [MdrconvSolver._trace] is the recorder of the base class on the
    subclass's test input and reference run. *)
Lemma mdrconv_trace_unfold (st : St elem) :
  MdrconvSolver._trace E st =
  SPSolver._trace (MdrconvSolver.buildTestInput E)
    (λ input, run E (mdrconv_run input.1 input.2)) st.
Proof. reflexivity. Qed.

Lemma buildTestInput_self (st : St elem) :
  self (MdrconvSolver.buildTestInput E st).2 = self st.
Proof.
  apply (preserves_state self). unfold MdrconvSolver.buildTestInput.
  frame_steps.
Qed.

Lemma mdrconv_run_calls (src sym : ndarray elem) (st : St elem) :
  is_ok (run E (mdrconv_run src sym) st).1 = true →
  calls E (mdrconv_run src sym) st = 3%nat.
Proof.
  simpl. unfold bind.
  destruct (SPSolver.rfftn E src st) as [[a | x] st2]; [| done].
  destruct (SPSolver.pointwise E a sym st2) as [[a' | x] st3]; [| done].
  by destruct (SPSolver.irfftn E a' (shape src) st3) as [[a'' | x] st4].
Qed.

(** The same for the recorder of [MdrconvSolver]: three calls, hence three
    entries whenever it returns. *)
Lemma mdrconv_trace_finalized (st st' : St elem) :
  MdrconvSolver._trace E st = (Ok (), st') →
  _tracingOn (self st') = false ∧
  length (_callGraph (self st')) = 3%nat ∧
  (∀ i, (i < 2)%nat →
        ∃ s, _callGraph (self st') !! i = Some s ∧ str_last s = Some separator) ∧
  (∃ s, _callGraph (self st') !! 2%nat = Some s ∧ str_last s = Some ")"%char).
Proof.
  intros Hrun. rewrite mdrconv_trace_unfold in Hrun.
  apply trace_finalized in Hrun; [| intros s; apply buildTestInput_self].
  destruct Hrun as (input & st1 & Hb & Hok & Hoff & Hlen & Hsep & Hlast).
  rewrite (mdrconv_run_calls _ _ _ Hok) in *.
  split; [done |]. split; [done |]. split; [done |]. apply Hlast. lia.
Qed.

End TraceRecorder.

(** The recorder of the base class on a fixed test input and the three-step
    reference run. *)
Lemma trace_has_one_entry_per_call_witness :
  ∃ src st1,
    read_only Sample.fixed_input
      (mk_st (set_callGraph [] (set_tracingOn true (self Sample.st0)))
             (world Sample.st0)) = (Ok src, st1) ∧
    _tracingOn (self Sample.traced.2) = false ∧
    length (_callGraph (self Sample.traced.2)) =
      Reference.calls Sample.env (Sample.three_steps src) st1 ∧
    (∀ i, (i < Reference.calls Sample.env (Sample.three_steps src) st1 - 1)%nat →
          ∃ s, _callGraph (self Sample.traced.2) !! i = Some s ∧
               str_last s = Some separator) ∧
    ((0 < Reference.calls Sample.env (Sample.three_steps src) st1)%nat →
     ∃ s, _callGraph (self Sample.traced.2)
            !! (Reference.calls Sample.env (Sample.three_steps src) st1 - 1)%nat
          = Some s ∧
          str_last s ≠ Some separator).
Proof.
  apply (trace_has_one_entry_per_call Sample.env Sample.fixed_input
           Sample.three_steps Sample.st0 Sample.traced.2).
  vm_compute. reflexivity.
Defined.

(** ** The example scenario: dimensions (4,4,4) on the CPU *)

Section Scenario444.

Context {elem : Type} (E : Env elem).

Import Reference.


End Scenario444.



(** ** The build routine *)

Lemma build_events_snoc {elem} (w : World elem) (e : Event) :
  build_events (set_events (events w ++ [e])%list w) =
  (build_events w ++ (if is_build e then [e] else []))%list.
Proof.
  unfold build_events. simpl. rewrite List.filter_app. simpl.
  by destruct (is_build e).
Qed.

Lemma emit_build_view {elem} (e : Event) :
  is_build e = false → preserves (elem := elem) build_view (emit e).
Proof.
  intros He [s w]. unfold emit, upd_world, build_view. simpl.
  rewrite build_events_snoc, He. by rewrite app_nil_r.
Qed.

#[global] Hint Resolve emit_build_view : frame.
#[global] Hint Extern 1 (is_build _ = false) => reflexivity : frame.


Section BuildSteps.

Context {elem : Type} (E : Env elem).

Lemma fprint_build_view f line :
  preserves build_view (SPSolver.fprint (elem := elem) f line).
Proof. unfold SPSolver.fprint. frame_steps. Qed.

Lemma chdir_ok (d : string) (st : St elem) :
  d ∈ dirs (world st) →
  SPSolver.chdir d st =
  (Ok (), mk_st (self st)
            (set_cwd d (set_events (events (world st) ++ [EvChdir d])%list
                          (world st)))).
Proof.
  intros Hd. unfold SPSolver.chdir. run_monad. by destruct (decide _).
Qed.

Lemma chdir_fails (d : string) (st : St elem) :
  d ∉ dirs (world st) → SPSolver.chdir d st = (Exc OSError, st).
Proof.
  intros Hd. unfold SPSolver.chdir. run_monad. by destruct (decide _).
Qed.

Lemma createMetadataFile_build_view basename :
  preserves build_view (SPSolver._createMetadataFile (elem := elem) basename).
Proof. unfold SPSolver._createMetadataFile. frame_steps. Qed.

(** The generator is asked once; directories stay as they are. *)
Lemma callSpiral_spec (script : string) (st : St elem) :
  ∃ w', SPSolver._callSpiral E script st
          = (Ok (callSpiralWithFile E script w'), mk_st (self st) w') ∧
        cwd w' = cwd (world st) ∧ dirs w' = dirs (world st) ∧
        build_events w' = (build_events (world st) ++ [EvSpiral script])%list.
Proof.
  destruct st as [s w]. unfold SPSolver._callSpiral. run_monad.
  destruct (_genCuda s); [| destruct (_genHIP s)]; simpl;
    (eexists; split; [reflexivity |]); unfold build_events; simpl;
    rewrite !List.filter_app; simpl; by rewrite app_nil_r.
Qed.

(** The native build is asked once; directories stay as they are. *)
Lemma callCMake_spec (basename : string) (st : St elem) :
  ∃ cmd w0 w',
    SPSolver._callCMake E basename st
      = (Ok (cmake_returncode E cmd w0), mk_st (self st) w') ∧
    cwd w' = cwd (world st) ∧ dirs w' = dirs (world st) ∧
    build_events w' = (build_events (world st) ++ [EvCMake cmd])%list.
Proof.
  destruct st as [s w]. unfold SPSolver._callCMake. run_monad.
  match goal with
  | |- context [cmake_returncode E ?c ?w0] => exists c, w0
  end.
  destruct (decide _); simpl; (eexists; split; [reflexivity |]);
    unfold build_events; simpl;
    rewrite !List.filter_app; simpl; by rewrite !app_nil_r.
Qed.

Context (V : SPSolver.Virtual (elem := elem)).
Hypothesis HV : well_behaved V.

Lemma genScript_build_view filename :
  preserves build_view (SPSolver._genScript E V filename).
Proof.
  destruct HV as [Htrace Hwrite].
  unfold SPSolver._genScript.
  frame_steps; try apply fprint_build_view; try apply Hwrite.
Qed.

End BuildSteps.

Section BuildOutcome.

Context {elem : Type} (E : Env elem).
Context (V : SPSolver.Virtual (elem := elem)).
Hypothesis HV : well_behaved V.

(** The three stretches of [_setupCFuncs]: entering the work directory,
    generating the script in a new temporary directory, and running the
    tools. *)
Let workdir_step (s : Solver) : M elem unit :=
  match _workdir s with
  | Some d =>
      λ st, match SPSolver.chdir d st with
            | (Ok _, st') => (Ok (), st')
            | (Exc _, st') =>
                emit (EvPrint ("Could not find workdir " +:+ SPSolver.dq +:+ d
                               +:+ SPSolver.dq
                               +:+ ". Using current directory.")) st'
            end
  | None => ret ()
  end.

Let run_tools (basename cwd tempdir : string) : M elem unit :=
  r <~ SPSolver._callSpiral E (basename +:+ ".g") ;;
  (if py_eq r SPIRAL_RET_OK then
     s <~ get_self ;;
     if truthy (_includeMetadata s) then SPSolver._createMetadataFile basename
     else ret ()
   else
     SPSolver.chdir cwd ;;;
     raise (RuntimeError "SPIRAL error")) ;;;
  r <~ SPSolver._callCMake E basename ;;
  SPSolver.chdir cwd ;;;
  (if decide (r ≠ 0) then raise (RuntimeError "CMake error") else ret ()) ;;;
  s <~ get_self ;;
  if negb (truthy (_keeptemp s)) then SPSolver.rmtree tempdir else ret ().

Let in_tempdir (basename : string) : M elem unit :=
  w <~ get_world ;;
  tempdir <~ SPSolver.mkdtemp E (basename +:+ "_") (cwd w) ;;
  SPSolver.chdir tempdir ;;;
  SPSolver._genScript E V (basename +:+ ".g") ;;;
  run_tools basename (cwd w) tempdir.

Lemma setupCFuncs_stretches (basename : string) (st : St elem) :
  SPSolver._setupCFuncs E V basename st =
  bind (workdir_step (self st)) (λ _, in_tempdir basename) st.
Proof. reflexivity. Qed.

Lemma is_under_refl (d : string) : SPSolver.is_under d d = true.
Proof. unfold SPSolver.is_under. by rewrite bool_decide_eq_true_2. Qed.

Lemma rmtree_spec (d : string) (st : St elem) :
  ∃ w', SPSolver.rmtree d st = (Ok (), mk_st (self st) w') ∧
        cwd w' = cwd (world st) ∧ (d ∉ dirs w') ∧
        build_events w' = (build_events (world st) ++ [EvRmtree d])%list.
Proof.
  destruct st as [s w]. unfold SPSolver.rmtree. run_monad.
  eexists; split; [reflexivity |]. simpl. split; [done |]. split.
  - rewrite elem_of_filter, is_under_refl. by intros [? _].
  - unfold build_events. simpl. by rewrite List.filter_app.
Qed.

Lemma metadata_step_spec (basename : string) (st : St elem) :
  ∃ st', (s <~ get_self ;;
          if truthy (_includeMetadata s)
          then SPSolver._createMetadataFile basename
          else ret ()) st = (Ok (), st') ∧
         self st' = self st ∧ build_view st' = build_view st.
Proof.
  destruct st as [s w]. unfold SPSolver._createMetadataFile. run_monad.
  destruct (truthy (_includeMetadata s)); simpl;
    (eexists; split; [reflexivity |]); split; try done.
  unfold build_view, build_events. simpl.
  rewrite List.filter_app. simpl. by rewrite app_nil_r.
Qed.

Lemma run_tools_outcome (basename cwd0 tempdir : string) (st : St elem) r st' :
  cwd0 ∈ dirs (world st) →
  tempdir ∈ dirs (world st) →
  run_tools basename cwd0 tempdir st = (r, st') →
  let script := basename +:+ ".g" in
  (r = Exc (RuntimeError "SPIRAL error") ∧
   build_events (world st')
     = (build_events (world st) ++ [EvSpiral script; EvChdir cwd0])%list ∧
   cwd (world st') = cwd0 ∧ tempdir ∈ dirs (world st') ∧
   ∃ w, py_eq (callSpiralWithFile E script w) SPIRAL_RET_OK = false)
  ∨
  (r = Exc (RuntimeError "CMake error") ∧
   cwd (world st') = cwd0 ∧ tempdir ∈ dirs (world st') ∧
   (∃ w, py_eq (callSpiralWithFile E script w) SPIRAL_RET_OK = true) ∧
   ∃ cmd, build_events (world st')
            = (build_events (world st)
               ++ [EvSpiral script; EvCMake cmd; EvChdir cwd0])%list ∧
          ∃ w, cmake_returncode E cmd w ≠ 0)
  ∨
  (r = Ok () ∧
   cwd (world st') = cwd0 ∧
   (∃ w, py_eq (callSpiralWithFile E script w) SPIRAL_RET_OK = true) ∧
   ∃ cmd, (∃ w, cmake_returncode E cmd w = 0) ∧
          if truthy (_keeptemp (self st))
          then build_events (world st')
               = (build_events (world st)
                  ++ [EvSpiral script; EvCMake cmd; EvChdir cwd0])%list ∧
               tempdir ∈ dirs (world st')
          else build_events (world st')
               = (build_events (world st)
                  ++ [EvSpiral script; EvCMake cmd; EvChdir cwd0;
                      EvRmtree tempdir])%list ∧
               tempdir ∉ dirs (world st')).
Proof.
  intros Hcwd Htmp Hrun script. unfold run_tools in Hrun.
  unfold bind at 1 in Hrun.
  destruct (callSpiral_spec E script st) as (w1 & Hsp & Hc1 & Hd1 & He1).
  fold script in Hrun. rewrite Hsp in Hrun.
  destruct (py_eq (callSpiralWithFile E script w1) SPIRAL_RET_OK) eqn:Hret.
  - (* the generator succeeded *)
    unfold bind at 1 in Hrun.
    destruct (metadata_step_spec basename (mk_st (self st) w1))
      as (st2 & Hmd & Hs2 & Hv2).
    rewrite Hmd in Hrun. simpl in Hs2.
    unfold build_view in Hv2. simpl in Hv2.
    injection Hv2 as Hc2 Hd2 He2 _.
    unfold bind at 1 in Hrun.
    destruct (callCMake_spec E basename st2) as (cmd & w0 & w3 & Hcm & Hc3 & Hd3 & He3).
    rewrite Hcm in Hrun.
    unfold bind at 1 in Hrun.
    rewrite chdir_ok in Hrun by (simpl; congruence).
    simpl in Hrun.
    destruct (decide (cmake_returncode E cmd w0 ≠ 0)) as [Hrc | Hrc].
    + (* the native build failed *)
      right; left. unfold bind, raise in Hrun. simpl in Hrun.
      inversion Hrun; subst r st'; clear Hrun. simpl.
      split; [done |]. split; [done |]. split; [congruence |].
      split; [by exists w1 |].
      exists cmd. split; [| by exists w0].
      unfold build_events in *. simpl. rewrite List.filter_app. simpl.
      rewrite He3, He2, He1. by rewrite <- !app_assoc.
    + (* built *)
      right; right. apply dec_stable in Hrc.
      unfold bind at 1, ret at 1 in Hrun.
      unfold bind at 1, get_self at 1 in Hrun. simpl in Hrun.
      rewrite Hs2 in Hrun.
      assert (Hev : build_events
                (set_cwd cwd0 (set_events (events w3 ++ [EvChdir cwd0])%list w3))
              = (build_events (world st)
                 ++ [EvSpiral script; EvCMake cmd; EvChdir cwd0])%list).
      { unfold build_events in *. simpl. rewrite List.filter_app. simpl.
        rewrite He3, He2, He1. by rewrite <- !app_assoc. }
      destruct (truthy (_keeptemp (self st))); simpl in Hrun.
      * unfold ret in Hrun. inversion Hrun; subst r st'; clear Hrun. simpl.
        split; [done |]. split; [done |]. split; [by exists w1 |].
        exists cmd. split; [by exists w0 |]. split; [done | congruence].
      * match type of Hrun with
        | SPSolver.rmtree ?d ?s = _ =>
            destruct (rmtree_spec d s) as (w4 & Hrm & Hc4 & Hd4 & He4)
        end.
        rewrite Hrm in Hrun. inversion Hrun; subst r st'; clear Hrun. simpl.
        split; [done |]. split; [done |]. split; [by exists w1 |].
        exists cmd. split; [by exists w0 |]. split; [| done].
        simpl in He4. rewrite He4, Hev. by rewrite <- !app_assoc.
  - (* the generator failed *)
    left. unfold bind at 1 in Hrun. unfold bind at 1 in Hrun.
    rewrite chdir_ok in Hrun by (simpl; congruence).
    unfold raise in Hrun. inversion Hrun; subst r st'; clear Hrun. simpl.
    split; [done |]. split.
    { unfold build_events in *. simpl. rewrite List.filter_app. simpl.
      rewrite He1. by rewrite <- !app_assoc. }
    split; [done |]. split; [congruence |]. by exists w1.
Qed.


Lemma workdir_step_spec (st : St elem) :
  cwd (world st) ∈ dirs (world st) →
  ∃ st1, workdir_step (self st) st = (Ok (), st1) ∧
         self st1 = self st ∧
         cwd (world st1) = build_dir st ∧
         cwd (world st1) ∈ dirs (world st1) ∧
         dirs (world st1) = dirs (world st) ∧
         build_events (world st1) = (build_events (world st) ++ build_entry st)%list.
Proof.
  intros Hwf. unfold workdir_step, build_dir, build_entry.
  destruct (_workdir (self st)) as [d |].
  - destruct (decide (d ∈ dirs (world st))) as [Hd | Hd].
    + rewrite chdir_ok by done. eexists; split; [reflexivity |]. simpl.
      repeat (split; [done |]).
      unfold build_events. simpl. by rewrite List.filter_app.
    + rewrite chdir_fails by done. destruct st as [s w].
      unfold emit, upd_world. simpl.
      eexists; split; [reflexivity |]. simpl. repeat (split; [done |]).
      unfold build_events. simpl. by rewrite List.filter_app.
  - exists st. unfold ret. repeat (split; [done |]). by rewrite app_nil_r.
Qed.

(** Every run of the build routine is one of four: the script could not be
    generated; the generator failed; the native build failed; the library
    was built. *)
Lemma setupCFuncs_outcome (basename : string) (st : St elem) r st' :
  cwd (world st) ∈ dirs (world st) →
  SPSolver._setupCFuncs E V basename st = (r, st') →
  ∃ tempdir,
    let script := basename +:+ ".g" in
    let B := build_dir st in
    let pre := (build_events (world st) ++ build_entry st
                ++ [EvMkdtemp tempdir; EvChdir tempdir])%list in
    ((∃ x, r = Exc x) ∧
     build_events (world st') = pre ∧
     cwd (world st') = tempdir ∧ tempdir ∈ dirs (world st'))
    ∨
    (r = Exc (RuntimeError "SPIRAL error") ∧
     build_events (world st') = (pre ++ [EvSpiral script; EvChdir B])%list ∧
     cwd (world st') = B ∧ tempdir ∈ dirs (world st') ∧
     ∃ w, py_eq (callSpiralWithFile E script w) SPIRAL_RET_OK = false)
    ∨
    (r = Exc (RuntimeError "CMake error") ∧
     cwd (world st') = B ∧ tempdir ∈ dirs (world st') ∧
     (∃ w, py_eq (callSpiralWithFile E script w) SPIRAL_RET_OK = true) ∧
     ∃ cmd, build_events (world st')
              = (pre ++ [EvSpiral script; EvCMake cmd; EvChdir B])%list ∧
            ∃ w, cmake_returncode E cmd w ≠ 0)
    ∨
    (r = Ok () ∧
     cwd (world st') = B ∧
     (∃ w, py_eq (callSpiralWithFile E script w) SPIRAL_RET_OK = true) ∧
     ∃ cmd, (∃ w, cmake_returncode E cmd w = 0) ∧
            if truthy (_keeptemp (self st))
            then build_events (world st')
                 = (pre ++ [EvSpiral script; EvCMake cmd; EvChdir B])%list ∧
                 tempdir ∈ dirs (world st')
            else build_events (world st')
                 = (pre ++ [EvSpiral script; EvCMake cmd; EvChdir B;
                            EvRmtree tempdir])%list ∧
                 tempdir ∉ dirs (world st')).
Proof.
  intros Hwf Hrun. rewrite setupCFuncs_stretches in Hrun.
  unfold bind at 1 in Hrun.
  destruct (workdir_step_spec st Hwf)
    as (st1 & Hws & Hs1 & Hc1 & Hin1 & Hd1 & He1).
  rewrite Hws in Hrun. unfold in_tempdir in Hrun.
  unfold bind at 1, get_world at 1 in Hrun.
  unfold bind at 1, SPSolver.mkdtemp at 1 in Hrun.
  unfold bind at 1, get_world at 1 in Hrun.
  unfold bind at 1, emit at 1, upd_world at 1 in Hrun.
  unfold bind at 1, upd_world at 1 in Hrun.
  unfold ret at 1 in Hrun. cbv beta iota zeta in Hrun.
  set (tempdir := SPSolver.path_join (cwd (world st1))
                    ((basename +:+ "_") +:+ mkdtemp_suffix E (world st1))) in *.
  exists tempdir. cbv zeta.
  unfold bind at 1 in Hrun.
  rewrite chdir_ok in Hrun by (simpl; set_solver).
  simpl self in Hrun. simpl world in Hrun.
  set (st3 := mk_st (self st1) _) in Hrun.
  assert (Hc3 : cwd (world st3) = tempdir) by done.
  assert (Hd3 : dirs (world st3) = {[tempdir]} ∪ dirs (world st1)) by done.
  assert (He3 : build_events (world st3)
                = (build_events (world st) ++ build_entry st
                   ++ [EvMkdtemp tempdir; EvChdir tempdir])%list).
  { unfold build_events in *. subst st3. simpl.
    rewrite !List.filter_app. simpl. rewrite He1. by rewrite <- !app_assoc. }
  assert (Hk3 : _keeptemp (self st3) = _keeptemp (self st)) by (simpl; congruence).
  clearbody st3.
  unfold bind at 1 in Hrun.
  pose proof (genScript_build_view E V HV (basename +:+ ".g") st3) as Hview.
  destruct (SPSolver._genScript E V (basename +:+ ".g") st3) as [[[] | x] st4].
  - (* the script was generated *)
    simpl in Hview. unfold build_view in Hview.
    injection Hview as Hc4 Hd4 He4 Hk4.
    apply run_tools_outcome in Hrun;
      [| rewrite Hd4, Hd3; set_solver
       | rewrite Hd4, Hd3; set_solver].
    rewrite He4, He3, Hk4, Hk3, Hc1 in Hrun. cbv zeta in Hrun.
    right.
    destruct Hrun as [H | [H | H]]; [left | right; left | right; right].
    + destruct H as (-> & Hev & Hcw & Htd & Hw).
      rewrite <- !app_assoc in Hev. by rewrite <- !app_assoc.
    + destruct H as (-> & Hcw & Htd & Hw & cmd & Hev & Hrc).
      repeat (split; [done |]). exists cmd.
      rewrite <- !app_assoc in Hev. by rewrite <- !app_assoc.
    + destruct H as (-> & Hcw & Hw & cmd & Hrc & Hk).
      repeat (split; [done |]). exists cmd. split; [done |].
      destruct (truthy (_keeptemp (self st)));
        destruct Hk as [Hev Htd]; rewrite <- !app_assoc in Hev;
        by rewrite <- !app_assoc.
  - (* generating the script raised *)
    inversion Hrun; subst r st'; clear Hrun.
    simpl in Hview. unfold build_view in Hview.
    injection Hview as Hc4 Hd4 He4 Hk4.
    left. split; [by eexists |]. rewrite He4, Hc4, Hd4, Hd3.
    split; [done |]. split; [done |]. set_solver.
Qed.

End BuildOutcome.

(** ** [MdrconvSolver]'s methods stay within script generation *)

Section MdrconvFrames.

Context {elem : Type} (E : Env elem).

Lemma operators_build_view (c : Reference.op_call (elem := elem)) :
  preserves build_view (Reference.run_op E c).
Proof.
  destruct c; simpl;
    unfold SPSolver.zeroEmbedBox, SPSolver.rfftn, SPSolver.pointwise,
      SPSolver.irfftn, SPSolver.extract, SPSolver.callGraph_insert0;
    frame_steps.
Qed.

Lemma buildTestInput_build_view :
  preserves build_view (MdrconvSolver.buildTestInput E).
Proof.
  unfold MdrconvSolver.buildTestInput, xp_random_rand. frame_steps.
Qed.

Lemma mdrconv_trace_build_view :
  preserves build_view (MdrconvSolver._trace E).
Proof.
  unfold MdrconvSolver._trace, MdrconvSolver.runDef.
  pose proof buildTestInput_build_view.
  pose proof (λ x, operators_build_view (Reference.Rfftn x)).
  pose proof (λ x y, operators_build_view (Reference.Pointwise x y)).
  pose proof (λ x s, operators_build_view (Reference.Irfftn x s)).
  simpl in *. frame_steps.
Qed.

Lemma print_lines_build_view (f : string) (n : nat) :
  ∀ start,
    preserves build_view
      (foldr (λ i k,
                s <~ get_self ;;
                line <~ lift (seq_at (_callGraph s) i) ;;
                SPSolver.fprint (elem := elem) f ("            " +:+ line) ;;;
                k)
             (ret ()) (seq start n)).
Proof.
  induction n as [| n IH]; intros start; simpl; [apply preserves_ret |].
  pose proof (IH (S start)). pose proof (fprint_build_view (elem := elem) f).
  frame_steps.
Qed.

Lemma mdrconv_writeScript_build_view (f : string) :
  preserves build_view (MdrconvSolver._writeScript (elem := elem) f).
Proof.
  unfold MdrconvSolver._writeScript, SPSolver.opts_dict.
  pose proof (fprint_build_view (elem := elem) f).
  pose proof (print_lines_build_view f).
  frame_steps.
Qed.

Lemma mdrconv_methods_well_behaved :
  well_behaved (MdrconvSolver.methods E).
Proof.
  split; [apply mdrconv_trace_build_view |].
  intros f. apply mdrconv_writeScript_build_view.
Qed.

End MdrconvFrames.

(** ** What the build routine guarantees *)

Lemma new_build_events_app {elem} (st st' : St elem) (evs : list Event) :
  build_events (world st') = (build_events (world st) ++ evs)%list →
  new_build_events st st' = evs.
Proof.
  intros H. unfold new_build_events. rewrite H. apply drop_app_length.
Qed.


Lemma build_entry_no_tools {elem} (st : St elem) :
  List.filter is_cmake (build_entry st) = [] ∧
  List.filter is_mkdtemp (build_entry st) = [] ∧
  ∀ script, EvSpiral script ∉ build_entry st.
Proof.
  unfold build_entry. destruct (_workdir (self st)) as [d |];
    [destruct (decide _) |]; simpl; repeat split; set_solver.
Qed.

Section BuildGuarantees.

Context {elem : Type} (E : Env elem).
Context (V : SPSolver.Virtual (elem := elem)).


(** C3 (as amended).  The build routine creates one temporary directory.
    After it completes successfully the directory is deleted unless the
    keep-temporary-files flag is set; when it raises (on a generator error,
    a build error, or while generating the script) the directory is left in
    place whatever the flag. *)
Theorem temp_dir_removed_only_after_success (basename : string) (st : St elem)
    r st' :
  well_behaved V →
  cwd (world st) ∈ dirs (world st) →
  SPSolver._setupCFuncs E V basename st = (r, st') →
  ∃ tempdir,
    List.filter is_mkdtemp (new_build_events st st') = [EvMkdtemp tempdir] ∧
    match r with
    | Ok _ => if truthy (_keeptemp (self st))
              then tempdir ∈ dirs (world st')
              else tempdir ∉ dirs (world st')
    | Exc _ => tempdir ∈ dirs (world st')
    end.
Proof.
  intros HV Hwf Hrun.
  destruct (setupCFuncs_outcome E V HV basename st r st' Hwf Hrun)
    as (tempdir & Hcases).
  destruct (build_entry_no_tools st) as (_ & Hnm & _).
  exists tempdir. cbv zeta in Hcases.
  destruct Hcases as [H | [H | [H | H]]].
  - destruct H as ((x & ->) & Hev & _ & Hin). split; [| done].
    rewrite (new_build_events_app st st' _ Hev).
    by rewrite List.filter_app, Hnm.
  - destruct H as (-> & Hev & _ & Hin & _). split; [| done].
    rewrite <- !app_assoc in Hev.
    rewrite (new_build_events_app st st' _ Hev).
    by rewrite List.filter_app, Hnm.
  - destruct H as (-> & _ & Hin & _ & cmd & Hev & _). split; [| done].
    rewrite <- !app_assoc in Hev.
    rewrite (new_build_events_app st st' _ Hev).
    by rewrite List.filter_app, Hnm.
  - destruct H as (-> & _ & _ & cmd & _ & Hk).
    destruct (truthy (_keeptemp (self st))); destruct Hk as [Hev Hin];
      (split; [| done]); rewrite <- !app_assoc in Hev;
      rewrite (new_build_events_app st st' _ Hev);
      by rewrite List.filter_app, Hnm.
Qed.

End BuildGuarantees.

(** Membership in a concrete set or list, by evaluation. *)
Ltac by_evaluation := apply (bool_decide_unpack _); vm_compute; exact I.

Lemma sample_world_well_formed : cwd Sample.world0 ∈ dirs Sample.world0.
Proof. by_evaluation. Qed.


(** The build of the sample library that succeeds, keep flag not set. *)
Lemma temp_dir_removed_only_after_success_witness :
  ∃ tempdir,
    List.filter is_mkdtemp
      (new_build_events Sample.st444 (Sample.build_in Sample.env).2)
      = [EvMkdtemp tempdir] ∧
    match (Sample.build_in Sample.env).1 with
    | Ok _ => if truthy (_keeptemp (self Sample.st444))
              then tempdir ∈ dirs (world (Sample.build_in Sample.env).2)
              else tempdir ∉ dirs (world (Sample.build_in Sample.env).2)
    | Exc _ => tempdir ∈ dirs (world (Sample.build_in Sample.env).2)
    end.
Proof.
  apply (temp_dir_removed_only_after_success Sample.env
           (MdrconvSolver.methods Sample.env) "dMdrconv_4x4x4" Sample.st444).
  - apply mdrconv_methods_well_behaved.
  - apply sample_world_well_formed.
  - unfold Sample.build_in. apply surjective_pairing.
Defined.

(** C3 as stated fails: with the keep flag not set, a build that raises on
    a generator error, and one that raises on a build error, both leave the
    temporary directory they created. *)
Lemma temp_dir_left_on_failure_counterexample :
  truthy (_keeptemp (self Sample.st444)) = false ∧
  ((Sample.build_in Sample.env_generator_fails).1
     = Exc (RuntimeError "SPIRAL error") ∧
   EvMkdtemp "/home/user/dMdrconv_4x4x4_k3x9"
     ∈ events (world (Sample.build_in Sample.env_generator_fails).2) ∧
   "/home/user/dMdrconv_4x4x4_k3x9"
     ∈ dirs (world (Sample.build_in Sample.env_generator_fails).2)) ∧
  ((Sample.build_in Sample.env_build_fails).1
     = Exc (RuntimeError "CMake error") ∧
   EvMkdtemp "/home/user/dMdrconv_4x4x4_k3x9"
     ∈ events (world (Sample.build_in Sample.env_build_fails).2) ∧
   "/home/user/dMdrconv_4x4x4_k3x9"
     ∈ dirs (world (Sample.build_in Sample.env_build_fails).2)).
Proof.
  split; [reflexivity |].
  split; (split; [by vm_compute |]); split; by_evaluation.
Qed.

(** ** Memory domains *)

Section Domains.

Context {elem : Type} (E : Env elem).






End Domains.


(** ** Normalization of the result *)

Section Normalization.

Context {elem : Type} (E : Env elem).

Lemma deref_spec (l : nat) (st : St elem) r st' :
  SPSolver.deref l st = (r, st') →
  st' = st ∧
  match r with
  | Ok a => heap (world st) !! l = Some a
  | Exc _ => heap (world st) !! l = None
  end.
Proof.
  unfold SPSolver.deref. run_monad.
  destruct (heap (world st) !! l); intros [= <- <-]; done.
Qed.

Lemma alloc_spec (a : ndarray elem) (st : St elem) :
  ∃ l, MdrconvSolver.alloc a st
       = (Ok l, mk_st (self st)
                  (set_heap (<[l := a]> (heap (world st))) (world st))) ∧
       heap (world st) !! l = None.
Proof.
  unfold MdrconvSolver.alloc. run_monad. eexists; split; [reflexivity |].
  apply not_elem_of_dom. apply is_fresh.
Qed.

(** C8.  After a successful [solve] on problem dimensions (n1, n2, n3), the
    returned destination buffer holds, element by element, what the native
    function left in it divided by n1*n2*n3.  The division is in place: the
    quotients are stored in the very buffer the native function wrote (the
    caller's, when one was passed, and that is the buffer returned), and no
    other buffer changes. *)
Theorem solve_divides_in_place (src sym : nat) (dst : option nat)
    (st : St elem) (d : nat) (st' : St elem) :
  MdrconvSolver.solve E src sym dst st = (Ok d, st') →
  ∃ n1 n2 n3 sym' st_pre st_raw raw out,
    dimensions (_problem (self st)) !! 0%nat = Some n1 ∧
    dimensions (_problem (self st)) !! 1%nat = Some n2 ∧
    dimensions (_problem (self st)) !! 2%nat = Some n3 ∧
    (∀ l, dst = Some l → d = l) ∧
    MdrconvSolver._func E d src sym' st_pre = (Ok (), st_raw) ∧
    heap (world st_raw) !! d = Some raw ∧
    heap (world st') !! d = Some out ∧
    shape out = shape raw ∧
    length (data out) = length (data raw) ∧
    (∀ i x, data raw !! i = Some x →
            data out !! i = Some (true_divide E x (n1 * n2 * n3))) ∧
    (∀ l, l ≠ d → heap (world st') !! l = heap (world st_raw) !! l).
Proof.
  intros Hrun. unfold MdrconvSolver.solve in Hrun.
  unfold bind at 1 in Hrun.
  destruct (SPSolver.deref src st) as [[srcA | x] st1] eqn:Hsrc; [| done].
  apply deref_spec in Hsrc as [-> Hsrc].
  unfold bind at 1 in Hrun.
  destruct (SPSolver.deref sym st) as [[symA | x] st1] eqn:Hsym; [| done].
  apply deref_spec in Hsym as [-> Hsym].
  cbv zeta in Hrun.
  unfold bind at 1, lift at 1 in Hrun.
  destruct (seq_at (shape symA) 0) as [s0 | x]; [| done].
  unfold bind at 1, lift at 1 in Hrun.
  destruct (seq_at (shape symA) 2) as [s2 | x]; [| done].
  unfold bind at 1 in Hrun.
  (* the symbol, sliced or not: the solver object is unchanged *)
  match type of Hrun with
  | (let (_, _) := ?m st in _) = _ =>
      assert (Hsl : ∃ sym1 st1, m st = (Ok sym1, st1) ∧ self st1 = self st)
  end.
  { destruct (decide (s0 = s2)).
    - match goal with
      | |- context [MdrconvSolver.alloc ?a st] =>
          destruct (alloc_spec a st) as (l & Hl & _)
      end.
      rewrite Hl. by eexists _, _.
    - by eexists _, _. }
  destruct Hsl as (sym1 & st1 & Hsl & Hself1). rewrite Hsl in Hrun.
  unfold bind at 1, get_self at 1 in Hrun.
  unfold bind at 1, lift at 1 in Hrun. rewrite Hself1 in Hrun.
  unfold seq_at at 1 in Hrun.
  destruct (dimensions (_problem (self st)) !! 0%nat) as [n1 |] eqn:Hn1; [| done].
  unfold bind at 1, lift at 1 in Hrun. unfold seq_at at 1 in Hrun.
  destruct (dimensions (_problem (self st)) !! 1%nat) as [n2 |] eqn:Hn2; [| done].
  unfold bind at 1, lift at 1 in Hrun. unfold seq_at at 1 in Hrun.
  destruct (dimensions (_problem (self st)) !! 2%nat) as [n3 |] eqn:Hn3; [| done].
  unfold bind at 1 in Hrun.
  match type of Hrun with
  | (let (_, _) := ?m st1 in _) = _ =>
      destruct (m st1) as [[d1 | x] st2] eqn:Hdst; [| done]
  end.
  assert (Hd1 : ∀ l, dst = Some l → d1 = l).
  { intros l ->. unfold ret in Hdst. by inversion Hdst. }
  unfold bind at 1 in Hrun.
  destruct (MdrconvSolver._func E d1 src sym1 st2) as [[[] | x] st3] eqn:Hfunc;
    [| done].
  unfold bind at 1 in Hrun. unfold MdrconvSolver.xp_divide_out in Hrun.
  unfold bind at 1 in Hrun.
  destruct (SPSolver.deref d1 st3) as [[raw | x] st4] eqn:Hraw; [| done].
  apply deref_spec in Hraw as [-> Hraw].
  unfold upd_world, ret in Hrun. inversion Hrun; subst d st'; clear Hrun.
  exists n1, n2, n3, sym1, st2, st3, raw.
  eexists. simpl.
  repeat (split; [done |]).
  split; [apply lookup_insert_eq |]. simpl.
  split; [done |]. split; [by rewrite length_map |].
  split.
  - intros i x Hx. by rewrite list_lookup_fmap, Hx.
  - intros l Hl. by rewrite lookup_insert_ne.
Qed.

End Normalization.

(** The sample solver on a host source and symbol, no destination passed:
    the stand-in native code leaves a cube of ones, and every element
    returned is 1/64. *)
Lemma solve_divides_in_place_witness :
  ∃ out, heap (world Sample.solved.2) !! 3%nat = Some out ∧
         shape out = [4; 4; 4] ∧
         data out = replicate 64 (1 # 64)%Q.
Proof.
  destruct (solve_divides_in_place Sample.env 0 2 None Sample.st_host 3
              Sample.solved.2)
    as (n1 & n2 & n3 & sym' & st_pre & st_raw & raw & out
        & _ & _ & _ & _ & _ & _ & Hout & _).
  - vm_compute. reflexivity.
  - exists out. split; [exact Hout |].
    assert (Hsome : heap (world Sample.solved.2) !! 3%nat
                    = Some (mk_ndarray NP [4; 4; 4] (replicate 64 (1 # 64)%Q)))
      by (vm_compute; reflexivity).
    rewrite Hsome in Hout. by inversion Hout.
Defined.

(** ** Load or build *)

Section LoadOrBuild.

Context {elem : Type} (E : Env elem).
Context (V : SPSolver.Virtual (elem := elem)).
Hypothesis HV : well_behaved V.

(** Loading: the library is opened first; what follows adds no event of
    building or loading. *)
Let load (sharedLibFullPath : string) : M elem unit :=
  lib <~ SPSolver.CDLL E sharedLibFullPath ;;
  upd_self (set_SharedLibAccess (Some lib)) ;;;
  s <~ get_self ;;
  f <~ SPSolver.getattr (_SharedLibAccess s) (_mainFuncName s) ;;
  upd_self (set_MainFunc (Some f)) ;;;
  s <~ get_self ;;
  match _MainFunc s with
  | None => SPSolver.could_not_find (_mainFuncName s)
  | Some _ => SPSolver._initFunc E
  end.

Lemma call_native_build_events f args :
  preserves (λ st, build_events (world st)) (SPSolver.call_native E f args).
Proof.
  unfold SPSolver.call_native. destruct f as [fname |]; [| apply preserves_raise].
  intros [s w]. unfold bind, emit, upd_world. simpl.
  unfold build_events. simpl. rewrite List.filter_app. simpl.
  by rewrite app_nil_r.
Qed.

Lemma load_build_events (p : string) (st : St elem) :
  build_events (world (load p st).2)
  = (build_events (world st) ++ [EvCDLL p])%list.
Proof.
  unfold load, SPSolver.CDLL.
  unfold bind at 1. unfold bind at 1, emit at 1, upd_world at 1.
  unfold bind at 1, get_world at 1. cbv beta iota.
  set (st1 := mk_st (self st) _).
  assert (He : build_events (world st1)
               = (build_events (world st) ++ [EvCDLL p])%list).
  { unfold build_events. subst st1. simpl. by rewrite List.filter_app. }
  rewrite <- He. clearbody st1.
  destruct (files (world st1) !! p); [| done].
  unfold ret at 1. cbv beta iota.
  match goal with
  | |- build_events (world (?m st1).2) = _ =>
      change (build_events (world (m st1).2))
        with ((λ st, build_events (world st)) (m st1).2);
      apply (preserves_state (λ st, build_events (world st)))
  end.
  pose proof call_native_build_events.
  unfold SPSolver.getattr, SPSolver.could_not_find, SPSolver._initFunc,
    SPSolver.getattr_or_None.
  frame_steps. all: unfold SPSolver.could_not_find; frame_steps.
Qed.

(** A build, however it ends, has created its temporary directory. *)
Lemma setupCFuncs_starts_build (basename : string) (st : St elem) r st' :
  cwd (world st) ∈ dirs (world st) →
  SPSolver._setupCFuncs E V basename st = (r, st') →
  ∃ tempdir rest,
    build_events (world st')
    = (build_events (world st) ++ build_entry st
       ++ EvMkdtemp tempdir :: rest)%list.
Proof.
  intros Hwf Hrun.
  destruct (setupCFuncs_outcome E V HV basename st r st' Hwf Hrun)
    as (tempdir & Hcases).
  exists tempdir. cbv zeta in Hcases.
  destruct Hcases as [H | [H | [H | H]]].
  - destruct H as (_ & Hev & _). eexists. exact Hev.
  - destruct H as (_ & Hev & _). eexists. rewrite Hev.
    rewrite <- !app_assoc. reflexivity.
  - destruct H as (_ & _ & _ & _ & cmd & Hev & _). eexists. rewrite Hev.
    rewrite <- !app_assoc. reflexivity.
  - destruct H as (_ & _ & _ & cmd & _ & Hk).
    destruct (truthy (_keeptemp (self st))); destruct Hk as [Hev _];
      eexists; rewrite Hev; rewrite <- !app_assoc; reflexivity.
Qed.

(** The choice between an installed library and a build. *)
Let choose (sharedLibFullPath namebase : string) : M elem string :=
  w <~ get_world ;;
  if negb (SPSolver.path_exists w sharedLibFullPath) then
    searchmd <~ SPSolver._metadataForSearch V ;;
    emit (EvSearch searchmd) ;;;
    w <~ get_world ;;
    match findFunctionsWithMetadata E searchmd w with
    | (Atom (PyStr path), Dict names) =>
        if decide (2 < size names)%nat then
          upd_self (λ s, set_funcNames
            (dict_get names SP_KEY_EXEC (_mainFuncName s))
            (dict_get names SP_KEY_INIT (_initFuncName s))
            (dict_get names SP_KEY_DESTROY (_destroyFuncName s)) s) ;;;
          ret path
        else
          SPSolver._setupCFuncs E V namebase ;;;
          ret sharedLibFullPath
    | _ =>
        SPSolver._setupCFuncs E V namebase ;;;
        ret sharedLibFullPath
    end
  else ret sharedLibFullPath.

Lemma metadataForSearch_spec (st : St elem) :
  ∃ md, SPSolver._metadataForSearch V st = (Ok md, st).
Proof.
  unfold SPSolver._metadataForSearch, SPSolver.opts_dict. run_monad.
  by eexists.
Qed.

Lemma build_then_ret (shared namebase : string) (st : St elem) r st' :
  cwd (world st) ∈ dirs (world st) →
  (SPSolver._setupCFuncs E V namebase ;;; ret shared) st = (r, st') →
  (r = Ok shared ∨ ∃ x, r = Exc x) ∧
  ∃ tempdir rest,
    build_events (world st')
    = (build_events (world st) ++ build_entry st
       ++ EvMkdtemp tempdir :: rest)%list.
Proof.
  intros Hwf Hrun. unfold bind in Hrun.
  destruct (SPSolver._setupCFuncs E V namebase st) as [[[] | x] st1] eqn:Hb;
    unfold ret in Hrun; inversion Hrun; subst r st'; clear Hrun;
    (split; [eauto |]); by eapply setupCFuncs_starts_build.
Qed.

Lemma choose_spec (found : pyobj * pyobj) (shared namebase : string)
    (st : St elem) r st' :
  cwd (world st) ∈ dirs (world st) →
  (∀ md w, findFunctionsWithMetadata E md w = found) →
  choose shared namebase st = (r, st') →
  (r = Ok shared ∧ st' = st)
  ∨
  (∃ md,
     if usable found
     then ∃ path names,
            found = (Atom (PyStr path), Dict names) ∧ r = Ok path ∧
            build_events (world st')
            = (build_events (world st) ++ [EvSearch md])%list
     else (r = Ok shared ∨ ∃ x, r = Exc x) ∧
          ∃ tempdir rest,
            build_events (world st')
            = (build_events (world st) ++ EvSearch md
               :: build_entry st ++ EvMkdtemp tempdir :: rest)%list).
Proof.
  intros Hwf Hfound Hrun. unfold choose in Hrun.
  unfold bind at 1, get_world at 1 in Hrun. cbv beta iota in Hrun.
  destruct (SPSolver.path_exists (world st) shared);
    cbv [negb] in Hrun; cbv beta iota in Hrun.
  { left. unfold ret in Hrun. by inversion Hrun. }
  right.
  destruct (metadataForSearch_spec st) as (md & Hmd).
  unfold bind at 1 in Hrun. rewrite Hmd in Hrun.
  unfold bind at 1, emit at 1, upd_world at 1 in Hrun.
  unfold bind at 1, get_world at 1 in Hrun. cbv beta iota in Hrun.
  rewrite Hfound in Hrun.
  set (st1 := mk_st (self st) _) in Hrun.
  assert (He1 : build_events (world st1)
                = (build_events (world st) ++ [EvSearch md])%list).
  { unfold build_events. subst st1. simpl. by rewrite List.filter_app. }
  assert (Hwf1 : cwd (world st1) ∈ dirs (world st1)) by done.
  assert (Hen1 : build_entry st1 = build_entry st) by done.
  clearbody st1. exists md.
  assert (Hbuild :
    (SPSolver._setupCFuncs E V namebase ;;; ret shared) st1 = (r, st') →
    (r = Ok shared ∨ ∃ x, r = Exc x) ∧
    ∃ tempdir rest,
      build_events (world st')
      = (build_events (world st) ++ EvSearch md
         :: build_entry st ++ EvMkdtemp tempdir :: rest)%list).
  { intros Hb. apply build_then_ret in Hb as (Hr & t & rest & Hev); [| done].
    split; [done |]. exists t, rest.
    rewrite Hev, He1, Hen1. by rewrite <- app_assoc. }
  destruct found as [[[] | d] [v | names]]; simpl usable; try (by apply Hbuild).
  destruct (decide (2 < size names)%nat) as [Hsz | Hsz].
  - rewrite bool_decide_eq_true_2 by done.
    unfold bind, upd_self, ret in Hrun. inversion Hrun; subst r st'.
    by eexists _, _.
  - rewrite bool_decide_eq_false_2 by done. by apply Hbuild.
Qed.

(** The constructor up to the choice: the attributes, and the directory of
    installed libraries. *)
Let libsDir : string :=
  SPSolver.path_join
    (SPSolver.path_join (SPSolver.path_join (USER_BASE E) SP_SHARE_DIR)
       (package E))
    SP_LIBSDIR.

Let platform_namebase (o : PyDict) (namebase : string) : string :=
  if py_eq (dict_get o SP_OPT_PLATFORM SP_CPU) SP_CUDA then namebase +:+ "_cu"
  else if py_eq (dict_get o SP_OPT_PLATFORM SP_CPU) SP_HIP
       then namebase +:+ "_hip"
       else namebase.

Let attributes (problem : SPProblem) (namebase : string) (opts : nat)
    (st : St elem) : St elem :=
  let o := default ∅ (dicts (world st) !! opts) in
  let namebase := platform_namebase o namebase in
  mk_st
    (mk_solver problem opts
       (dict_get o SP_OPT_COLMAJOR (PyBool false))
       (py_eq (dict_get o SP_OPT_PLATFORM SP_CPU) SP_HIP)
       (py_eq (dict_get o SP_OPT_PLATFORM SP_CPU) SP_CUDA)
       (dict_get o SP_OPT_KEEPTEMP
          (PyBool (bool_decide (is_Some (getenv E SP_KEEPTEMP)))))
       (dict_get o SP_OPT_MPI (PyBool false))
       (dict_get o SP_OPT_PRINTRULETREE
          (PyBool (bool_decide (is_Some (getenv E SP_PRINTRULETREE)))))
       false [] None None "spiral"
       (dict_get o SP_OPT_METADATA (PyBool false))
       (getenv E SP_WORKDIR) libsDir namebase
       (PyStr namebase) (PyStr ("init_" +:+ namebase))
       (PyStr ("destroy_" +:+ namebase))
       (_ftype (self st)) (_cxtype (self st)))
    (set_dirs ({[libsDir]} ∪ dirs (world st))
       (set_events (events (world st) ++ [EvMakedirs libsDir])%list (world st))).

Lemma init_stretches (problem : SPProblem) (namebase : string)
    (opts : option nat) (st : St elem) :
  SPSolver.__init__ E V problem namebase opts st =
  (let opts := default SPSolver.__init__defaults opts in
   let o := default ∅ (dicts (world st) !! opts) in
   let nb := platform_namebase o namebase in
   bind (choose (SPSolver.path_join libsDir ("lib" +:+ nb +:+ SP_SHLIB_EXT)) nb)
        load (attributes problem namebase opts st)).
Proof. reflexivity. Qed.

Lemma attributes_spec problem namebase opts (st : St elem) :
  cwd (world st) ∈ dirs (world st) →
  cwd (world (attributes problem namebase opts st))
    ∈ dirs (world (attributes problem namebase opts st)) ∧
  build_events (world (attributes problem namebase opts st))
  = build_events (world st).
Proof.
  intros Hwf. unfold attributes. simpl. split; [set_solver |].
  unfold build_events. simpl. rewrite List.filter_app. simpl.
  by rewrite app_nil_r.
Qed.

(** C5 (as amended).  During solver construction, when no library of the
    transform's own name is installed and the installed libraries are
    searched, the search result is usable, so that the found library is
    loaded and no new one is built, exactly when the returned path is a
    string and the returned exported-names sub-record is a dictionary with
    more than two entries, whichever they are: then the search and the load
    of the found path are the only build-or-load events of the construction;
    otherwise the construction starts a build (it creates the temporary
    build directory). *)
Theorem search_result_usable_with_three_names (problem : SPProblem)
    (namebase : string) (opts : option nat) (found : pyobj * pyobj)
    (st : St elem) r st' (md : FuncMeta) :
  cwd (world st) ∈ dirs (world st) →
  (∀ md w, findFunctionsWithMetadata E md w = found) →
  SPSolver.__init__ E V problem namebase opts st = (r, st') →
  EvSearch md ∈ new_build_events st st' →
  if usable found
  then ∃ path names,
         found = (Atom (PyStr path), Dict names) ∧
         new_build_events st st' = [EvSearch md; EvCDLL path]
  else ∃ tempdir, EvMkdtemp tempdir ∈ new_build_events st st'.
Proof.
  intros Hwf Hfound Hrun Hsearch.
  rewrite init_stretches in Hrun. cbv zeta in Hrun.
  set (o := default ∅ (dicts (world st) !! default SPSolver.__init__defaults opts))
    in *.
  set (nb := platform_namebase o namebase) in *.
  set (shared := SPSolver.path_join libsDir ("lib" +:+ nb +:+ SP_SHLIB_EXT)) in *.
  destruct (attributes_spec problem namebase
              (default SPSolver.__init__defaults opts) st Hwf) as (Hwf1 & He1).
  set (st1 := attributes problem namebase _ st) in *. clearbody st1.
  unfold bind at 1 in Hrun.
  destruct (choose shared nb st1) as [rc st2] eqn:Hch.
  apply (choose_spec found) in Hch; [| done | done].
  destruct Hch as [(-> & ->) | (md0 & Hch)].
  - (* a library of the transform's own name is installed: no search *)
    pose proof (load_build_events shared st1) as Hl.
    rewrite Hrun in Hl. simpl in Hl. rewrite He1 in Hl.
    rewrite (new_build_events_app st st' _ Hl) in Hsearch. set_solver.
  - destruct (usable found).
    + destruct Hch as (path & names & -> & -> & He2).
      pose proof (load_build_events path st2) as Hl.
      rewrite Hrun in Hl. simpl in Hl. rewrite He2, He1 in Hl.
      rewrite <- app_assoc in Hl. simpl in Hl.
      rewrite (new_build_events_app st st' _ Hl) in Hsearch |- *.
      exists path, names. split; [done |].
      assert (md = md0) as -> by set_solver. done.
    + destruct Hch as (Hrc & t & rest & He2). exists t.
      rewrite He1 in He2.
      destruct Hrc as [-> | (x & ->)].
      * pose proof (load_build_events shared st2) as Hl.
        rewrite Hrun in Hl. simpl in Hl. rewrite He2 in Hl.
        rewrite <- app_assoc in Hl.
        rewrite (new_build_events_app st st' _ Hl). set_solver.
      * inversion Hrun; subst r st'.
        rewrite (new_build_events_app st st2 _ He2). set_solver.
Qed.

End LoadOrBuild.

(** The search returns the installed library with its three names: it is
    loaded, and nothing is built. *)
Lemma search_result_usable_with_three_names_witness :
  ∃ path names,
    Sample.found_all_three = (Atom (PyStr path), Dict names) ∧
    new_build_events Sample.st_installed
      (SPSolver.__init__ (Sample.env_found Sample.found_all_three)
         (MdrconvSolver.methods (Sample.env_found Sample.found_all_three))
         (MdrconvProblem [4; 4; 4]) "dMdrconv_4x4x4" (Some 1%nat)
         Sample.st_installed).2
    = [EvSearch (mk_funcmeta SP_STR_FORWARD SP_STR_DOUBLE SP_TRANSFORM_MDRCONV
                   [4; 4; 4] SP_CPU);
       EvCDLL path].
Proof.
  apply (search_result_usable_with_three_names
           (Sample.env_found Sample.found_all_three)
           (MdrconvSolver.methods (Sample.env_found Sample.found_all_three))
           (mdrconv_methods_well_behaved _)
           (MdrconvProblem [4; 4; 4]) "dMdrconv_4x4x4" (Some 1%nat)
           Sample.found_all_three Sample.st_installed
           (SPSolver.__init__ (Sample.env_found Sample.found_all_three)
              (MdrconvSolver.methods (Sample.env_found Sample.found_all_three))
              (MdrconvProblem [4; 4; 4]) "dMdrconv_4x4x4" (Some 1%nat)
              Sample.st_installed).1).
  - by_evaluation.
  - intros md w. reflexivity.
  - apply surjective_pairing.
  - by_evaluation.
Defined.

(** C5 as stated fails in both directions.  A search result whose names
    are exactly the exec and the init name is not used: the construction
    builds a new library.  A search result with three names, none of them
    the exec or the init name, is used: the found library is loaded and
    nothing is built. *)
Lemma exec_and_init_names_counterexample :
  (has_exec_and_init Sample.found_exec_init = true ∧
   EvMkdtemp "/home/user/dMdrconv_4x4x4_k3x9"
     ∈ new_build_events Sample.st_installed
         (Sample.construct (Sample.env_found Sample.found_exec_init)
            Sample.st_installed).2) ∧
  (has_exec_and_init Sample.found_three_others = false ∧
   new_build_events Sample.st_installed
     (Sample.construct (Sample.env_found Sample.found_three_others)
        Sample.st_installed).2
   = [EvSearch (mk_funcmeta SP_STR_FORWARD SP_STR_DOUBLE SP_TRANSFORM_MDRCONV
                  [4; 4; 4] SP_CPU);
      EvCDLL Sample.other_lib]).
Proof.
  split; (split; [by vm_compute |]); [by_evaluation | by vm_compute].
Qed.

(** ** The script emitter *)

Lemma string_app_assoc (a b c : string) : (a +:+ b) +:+ c = a +:+ (b +:+ c).
Proof.
  induction a as [| x a IH]; [done |].
  change (String x ((a +:+ b) +:+ c) = String x (a +:+ (b +:+ c))).
  by rewrite IH.
Qed.

Lemma string_app_nil_r (a : string) : a +:+ "" = a.
Proof.
  induction a as [| x a IH]; [done |].
  change (String x (a +:+ "") = String x a). by rewrite IH.
Qed.

Lemma unlines_cons (l : string) (ls : list string) :
  unlines (l :: ls) = l +:+ SPSolver.nl +:+ unlines ls.
Proof. reflexivity. Qed.

Lemma unlines_app (a b : list string) :
  unlines (a ++ b) = unlines a +:+ unlines b.
Proof.
  induction a as [| l a IH]; [done |].
  rewrite <- app_comm_cons, !unlines_cons, IH.
  by rewrite !string_app_assoc.
Qed.

Section Emitter.

Context {elem : Type} (E : Env elem).

Lemma append_lines_app (f : string) (a b : list string) (st : St elem) :
  append_lines f b (append_lines f a st) = append_lines f (a ++ b) st.
Proof.
  destruct a as [| x a]; [done |].
  destruct b as [| y b]; [by rewrite app_nil_r |].
  destruct st as [s w]. unfold append_lines.
  rewrite <- app_comm_cons.
  cbn [self world files set_files].
  f_equal. unfold set_files. cbn [files dicts heap cwd dirs rng clock events].
  f_equal.
  rewrite lookup_insert_eq. cbn [default].
  rewrite insert_insert_eq. f_equal.
  rewrite app_comm_cons, (unlines_app (x :: a) (y :: b)).
  unfold id. apply string_app_assoc.
Qed.

Lemma fprint_last (f line : string) (st : St elem) :
  SPSolver.fprint f line st = (Ok (), append_lines f [line] st).
Proof.
  destruct st as [s w]. unfold SPSolver.fprint, upd_world, append_lines.
  simpl. by rewrite string_app_nil_r.
Qed.

Lemma fprint_then {A} (f line : string) (k : unit → M elem A) (st : St elem) :
  bind (SPSolver.fprint f line) k st = k () (append_lines f [line] st).
Proof. unfold bind. by rewrite fprint_last. Qed.

Lemma get_self_then {A} (k : Solver → M elem A) (st : St elem) :
  bind get_self k st = k (self st) st.
Proof. reflexivity. Qed.

Lemma ret_then {A B} (a : A) (k : A → M elem B) (st : St elem) :
  bind (ret a) k st = k a st.
Proof. reflexivity. Qed.

Lemma append_lines_self (f : string) (ls : list string) (st : St elem) :
  self (append_lines f ls st) = self st.
Proof. by destruct ls. Qed.

(** The loop over the trace list prints its entries in order, indented. *)
Lemma print_entries (f : string) (n : nat) :
  ∀ start (st : St elem),
    (start + n ≤ length (_callGraph (self st)))%nat →
    foldr (λ i k,
             s <~ get_self ;;
             line <~ lift (seq_at (_callGraph s) i) ;;
             SPSolver.fprint f ("            " +:+ line) ;;;
             k)
          (ret ()) (seq start n) st
    = (Ok (),
       append_lines f
         (map (λ line, "            " +:+ line)
              (take n (drop start (_callGraph (self st))))) st).
Proof.
  induction n as [| n IH]; intros start st Hn; [done |].
  cbn [seq foldr]. rewrite get_self_then.
  destruct (lookup_lt_is_Some_2 (_callGraph (self st)) start) as [line Hline];
    [lia |].
  unfold bind at 1, lift, seq_at. rewrite Hline.
  rewrite fprint_then.
  rewrite IH by (rewrite append_lines_self; lia).
  rewrite append_lines_self, append_lines_app. do 2 f_equal.
  rewrite (drop_S _ _ _ Hline). reflexivity.
Qed.

Lemma print_entries_then {A} (f : string) (k : unit → M elem A) (n : nat)
    (st : St elem) :
  n = length (_callGraph (self st)) →
  bind (foldr (λ i k,
                 s <~ get_self ;;
                 line <~ lift (seq_at (_callGraph s) i) ;;
                 SPSolver.fprint f ("            " +:+ line) ;;;
                 k)
              (ret ()) (seq 0 n)) k st
  = k () (append_lines f
            (map (λ line, "            " +:+ line) (_callGraph (self st))) st).
Proof.
  intros ->. unfold bind at 1. rewrite print_entries by (simpl; lia).
  by rewrite drop_0, firstn_all.
Qed.

Lemma append_lines_dicts (f : string) (ls : list string) (st : St elem) :
  dicts (world (append_lines f ls st)) = dicts (world st).
Proof. by destruct ls. Qed.

Lemma opts_dict_then {A} (k : PyDict → M elem A) (st : St elem) :
  bind SPSolver.opts_dict k st
  = k (default ∅ (dicts (world st) !! _opts (self st))) st.
Proof. reflexivity. Qed.

Lemma optional_fprint_then {A} (f line : string) (c : bool)
    (k : unit → M elem A) (st : St elem) :
  bind (if c then SPSolver.fprint f line else ret ()) k st
  = k () (append_lines f (if c then [line] else []) st).
Proof. destruct c; [apply fprint_then | reflexivity]. Qed.

Lemma either_fprint_then {A} (f a b d : string) (c h : bool)
    (k : unit → M elem A) (st : St elem) :
  bind (if c then SPSolver.fprint f a
        else if h then SPSolver.fprint f b else SPSolver.fprint f d) k st
  = k () (append_lines f [if c then a else if h then b else d] st).
Proof. destruct c; [| destruct h]; apply fprint_then. Qed.

(** What [_writeScript] does: it prints [script_lines], and nothing else. *)
Lemma writeScript_spec (f : string) (st : St elem) :
  MdrconvSolver._writeScript f st
  = (Ok (), append_lines f (script_lines (self st) (selects_float st)) st).
Proof.
  unfold MdrconvSolver._writeScript.
  rewrite get_self_then. cbv zeta.
  repeat first
    [ rewrite fprint_then
    | rewrite either_fprint_then
    | rewrite optional_fprint_then
    | rewrite get_self_then
    | rewrite opts_dict_then
    | rewrite print_entries_then by (by rewrite ?append_lines_self)
    | rewrite append_lines_self
    | rewrite append_lines_dicts
    | progress cbv beta ].
  rewrite fprint_last. rewrite !append_lines_app.
  reflexivity.
Qed.

End Emitter.

Section TraceOfDimensions.

Context {elem : Type} (E : Env elem).

(** What the recorder reads of the solver and of the world it leaves as it
    was. *)
Lemma mdrconv_trace_frame :
  preserves (λ st : St elem,
               (_problem (self st), _opts (self st), _genCuda (self st),
                _genHIP (self st), _namebase (self st),
                _printRuleTree (self st),
                dicts (world st), cwd (world st), files (world st),
                clock (world st)))
            (MdrconvSolver._trace E).
Proof.
  unfold MdrconvSolver._trace, MdrconvSolver.runDef,
    MdrconvSolver.buildTestInput, xp_random_rand,
    SPSolver.rfftn, SPSolver.pointwise, SPSolver.irfftn,
    SPSolver.callGraph_insert0.
  frame_steps.
Qed.

Lemma rfftn_entry (x : ndarray elem) (st : St elem) v st' :
  _tracingOn (self st) = true →
  SPSolver.rfftn E x st = (Ok v, st') →
  ∃ n1 n2 n3,
    shape x !! 0%nat = Some n1 ∧ shape x !! 1%nat = Some n2 ∧
    shape x !! 2%nat = Some n3 ∧
    xp_rfftn E (get_array_module E x) x = Ok v ∧
    st' = mk_st (set_callGraph
                   (("MDPRDFT(" +:+ ("[" +:+ str n1 +:+ "," +:+ str n2 +:+ ","
                                     +:+ str n3 +:+ "]") +:+ ", -1)")
                    :: _callGraph (self st)) (self st))
                (world st).
Proof.
  intros Hon Hrun. destruct st as [s w]. simpl in Hon.
  unfold SPSolver.rfftn, shape_at in Hrun. run_monad.
  destruct (xp_rfftn E _ x); [| done]. rewrite Hon in Hrun.
  destruct (shape x !! 0%nat) as [n1 |]; [| done].
  destruct (shape x !! 1%nat) as [n2 |]; [| done].
  destruct (shape x !! 2%nat) as [n3 |]; [| done].
  inversion Hrun; subst. by exists n1, n2, n3.
Qed.

Lemma pointwise_entry (x y : ndarray elem) (st : St elem) v st' :
  _tracingOn (self st) = true →
  SPSolver.pointwise E x y st = (Ok v, st') →
  st' = mk_st (set_callGraph
                 (("RCDiag(FDataOfs(symvar, " +:+ str (xp_size x * 2) +:+ ", 0))")
                  :: _callGraph (self st)) (self st))
              (world st).
Proof.
  intros Hon Hrun. destruct st as [s w]. simpl in Hon.
  unfold SPSolver.pointwise in Hrun. run_monad.
  destruct (xp_mul E x y); [| done]. rewrite Hon in Hrun.
  by inversion Hrun.
Qed.

Lemma irfftn_entry (x : ndarray elem) (sh : list Z) (st : St elem) v st' :
  _tracingOn (self st) = true →
  SPSolver.irfftn E x sh st = (Ok v, st') →
  ∃ n1 n2 n3,
    sh !! 0%nat = Some n1 ∧ sh !! 1%nat = Some n2 ∧ sh !! 2%nat = Some n3 ∧
    st' = mk_st (set_callGraph
                   (("IMDPRDFT(" +:+ ("[" +:+ str n1 +:+ "," +:+ str n2 +:+ ","
                                      +:+ str n3 +:+ "]") +:+ ", 1)")
                    :: _callGraph (self st)) (self st))
                (world st).
Proof.
  intros Hon Hrun. destruct st as [s w]. simpl in Hon.
  unfold SPSolver.irfftn, seq_at in Hrun. run_monad.
  destruct (xp_irfftn E _ x sh); [| done]. rewrite Hon in Hrun.
  destruct (sh !! 0%nat) as [n1 |]; [| done].
  destruct (sh !! 1%nat) as [n2 |]; [| done].
  destruct (sh !! 2%nat) as [n3 |]; [| done].
  inversion Hrun; subst. by exists n1, n2, n3.
Qed.

(** The test input is a cube of the problem's first three dimensions. *)
Lemma buildTestInput_shape (st : St elem) input st1 :
  MdrconvSolver.buildTestInput E st = (Ok input, st1) →
  ∃ n1 n2 n3,
    dimensions (_problem (self st)) !! 0%nat = Some n1 ∧
    dimensions (_problem (self st)) !! 1%nat = Some n2 ∧
    dimensions (_problem (self st)) !! 2%nat = Some n3 ∧
    shape input.1 = [n1; n2; n3].
Proof.
  intros Hrun. destruct st as [s w].
  unfold MdrconvSolver.buildTestInput, xp_random_rand, seq_at in Hrun.
  run_monad.
  assert (∃ xp, (if _genCuda s || _genHIP s
                 then if cupy_present E then ret CP
                      else raise (AttributeError "random")
                 else ret NP) (mk_st s w) = (Ok xp, mk_st s w)) as (xp & Hxp).
  { destruct (_genCuda s || _genHIP s);
      [destruct (cupy_present E); [by exists CP | by exists NP] | by exists NP]. }
  unfold ret, raise in Hxp. rewrite Hxp in Hrun. clear Hxp.
  destruct (dimensions (_problem s) !! 0%nat) as [n1 |]; [| done].
  destruct (dimensions (_problem s) !! 1%nat) as [n2 |]; [| done].
  destruct (dimensions (_problem s) !! 2%nat) as [n3 |]; [| done].
  exists n1, n2, n3. repeat (split; [done |]).
  destruct ((0 <=? n1) && ((0 <=? n2) && ((0 <=? n3) && true))); [| done].
  destruct (xp_rfftn E xp _); [| done].
  by inversion Hrun.
Qed.

(** The trace depends on the problem dimensions only. *)
Lemma mdrconv_trace_entries (st st' : St elem) :
  MdrconvSolver._trace E st = (Ok (), st') →
  ∃ n1 n2 n3,
    dimensions (_problem (self st)) !! 0%nat = Some n1 ∧
    dimensions (_problem (self st)) !! 1%nat = Some n2 ∧
    dimensions (_problem (self st)) !! 2%nat = Some n3 ∧
    _callGraph (self st') = mdrconv_entries n1 n2 n3.
Proof.
  intros Hrun. unfold MdrconvSolver._trace in Hrun.
  unfold bind at 1, upd_self at 1 in Hrun.
  unfold bind at 1, upd_self at 1 in Hrun.
  cbn [self world] in Hrun.
  set (st0 := mk_st (set_callGraph [] (set_tracingOn true (self st))) (world st))
    in Hrun.
  unfold bind at 1 in Hrun.
  destruct (MdrconvSolver.buildTestInput E st0) as [[input | x] st1] eqn:Hb;
    [| done].
  pose proof (buildTestInput_self E st0) as Hs1. rewrite Hb in Hs1.
  simpl in Hs1.
  apply buildTestInput_shape in Hb as (n1 & n2 & n3 & H1 & H2 & H3 & Hsh).
  exists n1, n2, n3. repeat (split; [done |]).
  unfold bind at 1, MdrconvSolver.runDef in Hrun.
  unfold bind at 1 in Hrun.
  destruct (SPSolver.rfftn E input.1 st1) as [[srcF | x] st2] eqn:Hf; [| done].
  apply rfftn_entry in Hf as (m1 & m2 & m3 & Hm1 & Hm2 & Hm3 & Hk & ->);
    [| by rewrite Hs1].
  rewrite Hsh in Hm1, Hm2, Hm3. simpl in Hm1, Hm2, Hm3.
  injection Hm1 as <-. injection Hm2 as <-. injection Hm3 as <-.
  assert (Hshape : shape srcF = [n1; n2; n3 / 2 + 1]).
  { unfold xp_rfftn, rfftn_shape in Hk. rewrite Hsh in Hk.
    destruct (forallb _ _); [| done]. simpl in Hk. by inversion Hk. }
  unfold bind at 1 in Hrun.
  match type of Hrun with
  | context [SPSolver.pointwise E srcF input.2 ?s] =>
      destruct (SPSolver.pointwise E srcF input.2 s) as [[P | x] st3] eqn:Hp;
        [| done]
  end.
  apply pointwise_entry in Hp as ->; [| by rewrite Hs1].
  unfold bind at 1 in Hrun.
  match type of Hrun with
  | context [SPSolver.irfftn E P (shape input.1) ?s] =>
      destruct (SPSolver.irfftn E P (shape input.1) s) as [[out | x] st4] eqn:Hi;
        [| done]
  end.
  apply irfftn_entry in Hi as (k1 & k2 & k3 & Hk1 & Hk2 & Hk3 & ->);
    [| by rewrite Hs1].
  rewrite Hsh in Hk1, Hk2, Hk3. simpl in Hk1, Hk2, Hk3.
  injection Hk1 as <-. injection Hk2 as <-. injection Hk3 as <-.
  unfold ret at 1, bind at 1, upd_self at 1 in Hrun.
  unfold upd_self in Hrun. inversion Hrun; subst st'; clear Hrun.
  cbn [self world _callGraph set_callGraph set_tracingOn].
  rewrite Hs1. cbn [_callGraph set_callGraph set_tracingOn].
  unfold xp_size. rewrite Hshape. reflexivity.
Qed.

End TraceOfDimensions.

Lemma get_world_then {elem A} (k : World elem → M elem A) (st : St elem) :
  bind get_world k st = k (world st) st.
Proof. reflexivity. Qed.

Section ScriptText.

Context {elem : Type} (E : Env elem).

Lemma lookup_append_lines (f : string) (ls : list string) (st : St elem) :
  files (world st) !! f = Some "" →
  files (world (append_lines f ls st)) !! f = Some (unlines ls).
Proof.
  intros Hf. destruct ls as [| l ls]; [done |].
  unfold append_lines. cbn [world files set_files].
  rewrite lookup_insert_eq, Hf. reflexivity.
Qed.

(** What [_genScript] leaves in the script file: the header, with the time
    of day, and the lines of [_writeScript] for the trace just recorded. *)
Lemma genScript_spec (filename : string) (st st' : St elem) :
  SPSolver._genScript E (MdrconvSolver.methods E) filename st = (Ok (), st') →
  ∃ st_t,
    MdrconvSolver._trace E st = (Ok (), st_t) ∧
    (open_writable E (SPSolver.path_join (cwd (world st_t)) filename)
       (world st_t) = true →
     files (world st') !! SPSolver.path_join (cwd (world st_t)) filename
     = Some (unlines (script_header "MdrconvSolver" (clock (world st_t))
                      ++ script_lines (self st_t) (selects_float st_t)))).
Proof.
  intros Hrun. unfold SPSolver._genScript in Hrun.
  cbn [SPSolver.v_trace SPSolver.v_writeScript SPSolver.v_classname
       MdrconvSolver.methods] in Hrun.
  unfold bind at 1 in Hrun.
  destruct (MdrconvSolver._trace E st) as [[[] | x] st_t] eqn:Ht; [| done].
  exists st_t. split; [done |]. intros Hopen.
  rewrite get_world_then in Hrun. cbv zeta in Hrun. rewrite Hopen in Hrun.
  unfold bind at 1, upd_world at 1 in Hrun.
  set (path := SPSolver.path_join (cwd (world st_t)) filename) in *.
  set (st_o := mk_st (self st_t) _) in Hrun.
  assert (Hempty : files (world st_o) !! path = Some "")
    by apply lookup_insert_eq.
  assert (Hself : self st_o = self st_t) by done.
  assert (Hfloat : selects_float st_o = selects_float st_t) by done.
  clearbody st_o.
  rewrite !fprint_then in Hrun. rewrite writeScript_spec in Hrun.
  rewrite !append_lines_app in Hrun.
  apply pair_equal_spec in Hrun as [_ <-].
  rewrite lookup_append_lines by done.
  rewrite !append_lines_self, Hself.
  unfold selects_float at 1.
  rewrite !append_lines_self, !append_lines_dicts.
  fold (selects_float st_o). rewrite Hfloat. reflexivity.
Qed.

End ScriptText.

Lemma script_lines_ext (s1 s2 : Solver) (f1 f2 : bool) :
  _genCuda s1 = _genCuda s2 →
  _genHIP s1 = _genHIP s2 →
  _namebase s1 = _namebase s2 →
  _callGraph s1 = _callGraph s2 →
  truthy (_printRuleTree s1) = truthy (_printRuleTree s2) →
  f1 = f2 →
  script_lines s1 f1 = script_lines s2 f2.
Proof.
  intros Hc Hh Hn Hg Ht ->. unfold script_lines.
  by rewrite Hc, Hh, Hn, Hg, Ht.
Qed.

Section Determinism.

Context {elem : Type} (E : Env elem).

(** C6 (as amended).  Generating the script file twice with identical
    configuration (which makes the finalized trace sequences identical)
    produces the same text except for the header line that carries the time
    of generation: the two texts are the header, each with its own time,
    followed by one and the same body; they are byte-identical when the two
    generations read the same time. *)
Theorem script_text_determined_up_to_timestamp (filename : string)
    (st1 st2 st1' st2' : St elem) :
  same_configuration st1 st2 →
  (∀ w, open_writable E (SPSolver.path_join (cwd (world st1)) filename) w = true) →
  SPSolver._genScript E (MdrconvSolver.methods E) filename st1 = (Ok (), st1') →
  SPSolver._genScript E (MdrconvSolver.methods E) filename st2 = (Ok (), st2') →
  ∃ body,
    files (world st1') !! SPSolver.path_join (cwd (world st1)) filename
    = Some (unlines (script_header "MdrconvSolver" (clock (world st1)) ++ body)) ∧
    files (world st2') !! SPSolver.path_join (cwd (world st1)) filename
    = Some (unlines (script_header "MdrconvSolver" (clock (world st2)) ++ body)) ∧
    (clock (world st1) = clock (world st2) →
     files (world st1') !! SPSolver.path_join (cwd (world st1)) filename
     = files (world st2') !! SPSolver.path_join (cwd (world st1)) filename).
Proof.
  intros (Hd & Hc & Hh & Hn & Ht & Hf & Hcwd) Hopen Hrun1 Hrun2.
  apply genScript_spec in Hrun1 as (t1 & Ht1 & Hfile1).
  apply genScript_spec in Hrun2 as (t2 & Ht2 & Hfile2).
  pose proof (mdrconv_trace_frame E st1) as Hfr1. rewrite Ht1 in Hfr1.
  pose proof (mdrconv_trace_frame E st2) as Hfr2. rewrite Ht2 in Hfr2.
  simpl in Hfr1, Hfr2.
  injection Hfr1 as Hp1 Ho1 Hc1 Hh1 Hn1 Hr1 Hdi1 Hcw1 _ Hcl1.
  injection Hfr2 as Hp2 Ho2 Hc2 Hh2 Hn2 Hr2 Hdi2 Hcw2 _ Hcl2.
  apply mdrconv_trace_entries in Ht1 as (n1 & n2 & n3 & Ha1 & Ha2 & Ha3 & Hg1).
  apply mdrconv_trace_entries in Ht2 as (m1 & m2 & m3 & Hb1 & Hb2 & Hb3 & Hg2).
  rewrite Hd in Ha1, Ha2, Ha3.
  assert (m1 = n1) as -> by congruence.
  assert (m2 = n2) as -> by congruence.
  assert (m3 = n3) as -> by congruence.
  rewrite Hcw1, Hcl1 in Hfile1. rewrite Hcw2, Hcl2, <- Hcwd in Hfile2.
  exists (script_lines (self t1) (selects_float t1)).
  split; [apply Hfile1, Hopen |].
  assert (Hsame : script_lines (self t2) (selects_float t2)
                  = script_lines (self t1) (selects_float t1)).
  { apply script_lines_ext; try congruence.
    unfold selects_float in *. rewrite Hdi1, Ho1, Hdi2, Ho2. by symmetry. }
  rewrite <- Hsame at 1.
  split; [apply Hfile2, Hopen |].
  intros Hclock. rewrite Hfile1, Hfile2 by apply Hopen.
  by rewrite Hsame, Hclock.
Qed.

End Determinism.

(** Two generations at the same time of day, with different test inputs. *)
Lemma script_text_determined_up_to_timestamp_witness :
  Sample.script_of Sample.st444 = Sample.script_of Sample.st444_again.
Proof.
  destruct (script_text_determined_up_to_timestamp Sample.env
              "dMdrconv_4x4x4.g" Sample.st444 Sample.st444_again
              (Sample.generate Sample.st444).2
              (Sample.generate Sample.st444_again).2)
    as (body & _ & _ & Hsame).
  - repeat split.
  - intros w. reflexivity.
  - vm_compute. reflexivity.
  - vm_compute. reflexivity.
  - apply Hsame. reflexivity.
Defined.

(** C6 as stated fails: the same solver, with the same trace sequence and
    configuration, generates a different text a day later. *)
Lemma script_text_changes_with_time_counterexample :
  same_configuration Sample.st444 Sample.st444_later ∧
  _callGraph (self (Sample.generate Sample.st444).2)
  = _callGraph (self (Sample.generate Sample.st444_later).2) ∧
  Sample.script_of Sample.st444 ≠ Sample.script_of Sample.st444_later.
Proof.
  split; [repeat split |]. split; [by vm_compute |]. by_evaluation.
Qed.

(** ** The options dictionary *)

Section Options.

Context {elem : Type} (E : Env elem).

(** The guarded change to the work directory, under any observation that
    neither a directory change nor a printed line affects. *)
Lemma try_chdir_preserves {X} (f : St elem → X) (d : string) (e : Event) :
  preserves f (SPSolver.chdir (elem := elem) d) →
  preserves f (emit e) →
  preserves f (λ st, match SPSolver.chdir d st with
                     | (Ok _, st') => (Ok (), st')
                     | (Exc _, st') => emit e st'
                     end).
Proof.
  intros Hc He st. specialize (Hc st).
  destruct (SPSolver.chdir d st) as [[[] | x] st1]; [exact Hc |].
  transitivity (f st1); [apply He | exact Hc].
Qed.

(** The solver's reference to its options, and the dictionaries. *)
Let options_view (st : St elem) : nat * gmap nat PyDict :=
  (_opts (self st), dicts (world st)).

Lemma chdir_options_view (d : string) :
  preserves options_view (SPSolver.chdir (elem := elem) d).
Proof. unfold SPSolver.chdir. frame_steps. Qed.

Lemma print_lines_options_view (file : string) (n : nat) :
  ∀ start,
    preserves options_view
      (foldr (λ i k,
                s <~ get_self ;;
                line <~ lift (seq_at (_callGraph s) i) ;;
                SPSolver.fprint (elem := elem) file ("            " +:+ line) ;;;
                k)
             (ret ()) (seq start n)).
Proof.
  induction n as [| n IH]; intros start; simpl; [apply preserves_ret |].
  pose proof (IH (S start)). unfold SPSolver.fprint. frame_steps.
Qed.

Lemma mdrconv_trace_options_view :
  preserves options_view (MdrconvSolver._trace E).
Proof.
  unfold MdrconvSolver._trace, MdrconvSolver.runDef,
    MdrconvSolver.buildTestInput, xp_random_rand,
    SPSolver.rfftn, SPSolver.pointwise, SPSolver.irfftn,
    SPSolver.callGraph_insert0.
  frame_steps.
Qed.

Lemma mdrconv_writeScript_options_view (file : string) :
  preserves options_view (MdrconvSolver._writeScript (elem := elem) file).
Proof.
  unfold MdrconvSolver._writeScript, SPSolver.opts_dict.
  pose proof (print_lines_options_view file).
  assert (∀ line, preserves options_view
                    (SPSolver.fprint (elem := elem) file line))
    by (intros line; unfold SPSolver.fprint; frame_steps).
  frame_steps.
Qed.

Lemma setupCFuncs_options_view (basename : string) :
  preserves options_view
    (SPSolver._setupCFuncs E (MdrconvSolver.methods E) basename).
Proof.
  unfold SPSolver._setupCFuncs, SPSolver.mkdtemp,
    SPSolver._genScript, SPSolver._callSpiral, SPSolver._createMetadataFile,
    SPSolver._callCMake, SPSolver.rmtree.
  cbn [SPSolver.v_trace SPSolver.v_writeScript SPSolver.v_classname
       MdrconvSolver.methods].
  pose proof chdir_options_view.
  pose proof mdrconv_trace_options_view.
  pose proof mdrconv_writeScript_options_view.
  pose proof (λ d e, try_chdir_preserves options_view d e
                       (chdir_options_view d)) as Htry.
  assert (∀ f line, preserves options_view
                      (SPSolver.fprint (elem := elem) f line))
    by (intros f line; unfold SPSolver.fprint; frame_steps).
  frame_steps.
  all: apply Htry; frame_steps.
Qed.

Lemma makedirs_spec (d : string) (st : St elem) :
  SPSolver.makedirs d st
  = (Ok (), mk_st (self st)
              (set_dirs ({[d]} ∪ dirs (world st))
                 (set_events (events (world st) ++ [EvMakedirs d])%list
                    (world st)))).
Proof. reflexivity. Qed.

(** The constructor of the base class keeps the reference it was given (the
    shared default when none was given) and never writes to a dictionary,
    whether it returns or raises. *)
Lemma base_constructor_options (problem : SPProblem) (namebase : string)
    (opts : option nat) (st : St elem) :
  options_view
    (SPSolver.__init__ E (MdrconvSolver.methods E) problem namebase opts st).2
  = (default SPSolver.__init__defaults opts, dicts (world st)).
Proof.
  unfold SPSolver.__init__.
  rewrite get_self_then, get_world_then. cbv zeta.
  unfold bind at 1. rewrite makedirs_spec.
  unfold bind at 1, upd_self at 1. cbn [self world].
  match goal with
  | |- options_view (?m ?s).2 = _ =>
      transitivity (options_view s); [| reflexivity];
      apply (preserves_state options_view m s)
  end.
  unfold SPSolver._metadataForSearch, SPSolver.opts_dict, SPSolver.CDLL,
    SPSolver.getattr, SPSolver.could_not_find, SPSolver._initFunc,
    SPSolver.getattr_or_None, SPSolver.call_native.
  pose proof setupCFuncs_options_view.
  frame_steps.
  all: unfold SPSolver.could_not_find; frame_steps.
Qed.

(** C10.  Constructing an [MdrconvSolver] on an [MdrconvProblem] sets the
    metadata-inclusion key to true in the very dictionary the caller passed
    in, and leaves every other entry and every other dictionary as it was;
    the solver keeps a reference to that same dictionary.  This holds whether
    the construction returns or raises after the class check.  When the
    options argument is omitted the dictionary is the one default shared by
    all such calls, so the key is found set by every later construction
    that omits the argument. *)
Theorem constructor_sets_metadata_option (problem : SPProblem)
    (opts : option nat) (st : St elem) r st' :
  pclass problem = MdrconvProblemClass →
  MdrconvSolver.__init__ E problem opts st = (r, st') →
  dicts (world st') !! default MdrconvSolver.__init__defaults opts
  = Some (<[SP_OPT_METADATA := PyBool true]>
            (default ∅ (dicts (world st)
                          !! default MdrconvSolver.__init__defaults opts))) ∧
  (∀ l, l ≠ default MdrconvSolver.__init__defaults opts →
        dicts (world st') !! l = dicts (world st) !! l) ∧
  _opts (self st') = default MdrconvSolver.__init__defaults opts.
Proof.
  intros Hclass Hrun. unfold MdrconvSolver.__init__ in Hrun.
  rewrite Hclass in Hrun. cbv zeta in Hrun.
  rewrite get_world_then in Hrun.
  unfold bind at 1, upd_self at 1 in Hrun.
  unfold bind at 1, MdrconvSolver.dict_setitem at 1, upd_world at 1 in Hrun.
  cbn [self world] in Hrun.
  match type of Hrun with
  | SPSolver.__init__ _ _ ?p ?n ?o ?s = _ =>
      pose proof (base_constructor_options p n o s) as Hview
  end.
  rewrite Hrun in Hview. unfold options_view in Hview.
  cbn [snd world dicts set_dicts default] in Hview.
  injection Hview as Hopts Hdicts.
  rewrite Hdicts. split; [apply lookup_insert_eq |].
  split; [| exact Hopts].
  intros l Hl. by rewrite lookup_insert_ne.
Qed.

End Options.

(** Construction without an options argument, in a world whose default
    dictionary is still empty. *)
Lemma constructor_sets_metadata_option_witness :
  dicts (world (Sample.construct Sample.env Sample.st0).2) !! 1%nat
  = Some (<[SP_OPT_METADATA := PyBool true]> ∅) ∧
  _opts (self (Sample.construct Sample.env Sample.st0).2) = 1%nat.
Proof.
  destruct (constructor_sets_metadata_option Sample.env
              (MdrconvProblem [4; 4; 4]) None Sample.st0
              (Sample.construct Sample.env Sample.st0).1
              (Sample.construct Sample.env Sample.st0).2
              eq_refl (surjective_pairing _))
    as (Hset & _ & Hopts).
  split; [exact Hset | exact Hopts].
Defined.

(** Two constructions that omit the options argument share one dictionary:
    the second solver refers to the dictionary of the first, and finds the
    key already set when it starts. *)
Example default_options_are_shared :
  let first := Sample.construct Sample.env Sample.st0 in
  let second :=
    Sample.construct Sample.env
      (mk_st (Sample.blank (MdrconvProblem [4; 4; 4])) (world first.2)) in
  first.1 = Ok () ∧ second.1 = Ok () ∧
  _opts (self first.2) = _opts (self second.2) ∧
  dict_get (default ∅ (dicts (world first.2) !! _opts (self second.2)))
    SP_OPT_METADATA PyNone = PyBool true.
Proof. by vm_compute. Qed.

(** * Further properties *)

(** ** Further properties of the trace recorder *)

(** X1.  The closing loop of the trace recorder appends a comma to every
    entry but the last and changes nothing else; the empty list and a list
    of one entry are left as they are. *)
Theorem add_separators_closed_form (g : list string) :
  SPSolver.add_separators g =
  (map (λ s, s +:+ ",") (take (length g - 1) g) ++ drop (length g - 1) g)%list.
Proof.
  destruct (add_separators_spec g) as (Hlen & Hlt & Hge).
  apply list_eq. intros i.
  destruct (decide (i < length g - 1)%nat) as [Hi | Hi].
  - rewrite Hlt by done.
    rewrite lookup_app_l by (rewrite length_map, length_take; lia).
    rewrite list_lookup_fmap. by rewrite lookup_take_lt by lia.
  - rewrite Hge by lia.
    rewrite lookup_app_r by (rewrite length_map, length_take; lia).
    rewrite length_map, length_take, lookup_drop. f_equal. lia.
Qed.

Section TraceFailure.

Context {elem : Type} (E : Env elem).

Import Reference.

(** An operator call that raises has not touched the state: the entry is
    inserted last. *)
Lemma run_op_raises_unchanged (c : op_call) (st : St elem) x st' :
  run_op E c st = (Exc x, st') → st' = st.
Proof.
  intros Hrun. destruct st as [s w].
  destruct c as [src padding | x0 | x0 y | x0 sh | x0 N Nd]; simpl in Hrun.
  - unfold SPSolver.zeroEmbedBox in Hrun. run_monad.
    destruct (xp_pad E _ src padding); [| by inversion Hrun].
    destruct (_tracingOn s); [| done].
    destruct (seq_at padding 0); [| by inversion Hrun].
    destruct (decide (1 < length padding)%nat);
      [destruct (seq_at padding 1); [| by inversion Hrun] |];
      (destruct (decide (2 < length padding)%nat);
        [destruct (seq_at padding 2); [| by inversion Hrun] |]);
      (destruct (shape_at src 0); [| by inversion Hrun]);
      (destruct (shape_at src 1); [| by inversion Hrun]);
      (destruct (shape_at src 2); [| by inversion Hrun]);
      done.
  - unfold SPSolver.rfftn in Hrun. run_monad.
    destruct (xp_rfftn E _ x0); [| by inversion Hrun].
    destruct (_tracingOn s); [| done].
    destruct (shape_at x0 0); [| by inversion Hrun].
    destruct (shape_at x0 1); [| by inversion Hrun].
    destruct (shape_at x0 2); [| by inversion Hrun].
    done.
  - unfold SPSolver.pointwise in Hrun. run_monad.
    destruct (xp_mul E x0 y); [| by inversion Hrun].
    by destruct (_tracingOn s).
  - unfold SPSolver.irfftn in Hrun. run_monad.
    destruct (xp_irfftn E _ x0 sh); [| by inversion Hrun].
    destruct (_tracingOn s); [| done].
    destruct (seq_at sh 0); [| by inversion Hrun].
    destruct (seq_at sh 1); [| by inversion Hrun].
    destruct (seq_at sh 2); [| by inversion Hrun].
    done.
  - unfold SPSolver.extract in Hrun. run_monad.
    destruct (slice3 E x0 (N - Nd) N); [| by inversion Hrun].
    by destruct (_tracingOn s).
Qed.

(** However a traced reference run ends, it has put rendered entries in
    front of the trace list and has touched nothing else. *)
Lemma run_traced_any {R} (p : RefRun R) :
  ∀ (st : St elem),
    _tracingOn (self st) = true →
    ∃ new, Forall (λ e, str_last e = Some ")"%char) new ∧
           (run E p st).2
           = mk_st (set_callGraph (new ++ _callGraph (self st))%list (self st))
                   (world st).
Proof.
  induction p as [r0 | c k IH]; intros st Hon; simpl.
  - exists []. split; [constructor |]. destruct st as [s w]. by destruct s.
  - unfold bind.
    destruct (run_op E c st) as [[v | x] st1] eqn:Hop.
    + destruct (run_op_traced E c st v st1 Hon Hop) as (e & He & ->).
      destruct (IH v (mk_st (set_callGraph (e :: _callGraph (self st)) (self st))
                        (world st)) Hon) as (new & Hall & Hst).
      exists (new ++ [e])%list.
      split; [apply Forall_app; split; [done | by constructor] |].
      rewrite Hst. simpl. by rewrite <- app_assoc.
    + apply run_op_raises_unchanged in Hop as ->.
      exists []. split; [constructor |]. destruct st as [s w]. by destruct s.
Qed.

(** X2.  When the trace recorder raises, because the test input could not
    be built or because the reference run raised, the tracing flag is left
    switched on; the entries recorded so far stay in the trace list, and none
    of them has been given a separator. *)
Theorem failed_trace_leaves_tracing_on {A R} (b : M elem A) (p : A → RefRun R)
    (st : St elem) x st' :
  preserves self b →
  SPSolver._trace b (λ src, run E (p src)) st = (Exc x, st') →
  _tracingOn (self st') = true ∧
  Forall (λ e, str_last e ≠ Some separator) (_callGraph (self st')).
Proof.
  intros Hb Hrun. unfold SPSolver._trace in Hrun.
  unfold bind at 1, upd_self at 1 in Hrun.
  unfold bind at 1, upd_self at 1 in Hrun. cbn [self world] in Hrun.
  set (st_on := mk_st (set_callGraph [] (set_tracingOn true (self st))) (world st))
    in Hrun.
  unfold bind at 1 in Hrun.
  pose proof (Hb st_on) as Hself.
  destruct (b st_on) as [[src | y] st1].
  - simpl in Hself. unfold bind at 1 in Hrun.
    destruct (run_traced_any (p src) st1) as (new & Hall & Hst);
      [by rewrite Hself |].
    destruct (run E (p src) st1) as [[r | y] st2]; [done |].
    inversion Hrun; subst y st'; clear Hrun. simpl in Hst. subst st2.
    rewrite Hself. simpl. split; [done |].
    rewrite app_nil_r. eapply Forall_impl; [exact Hall |].
    intros e He. rewrite He. by intros [=].
  - inversion Hrun; subst y st'; clear Hrun. simpl in Hself.
    rewrite Hself. simpl. split; [done | constructor].
Qed.

End TraceFailure.

(** The recorder of [MdrconvSolver] on a problem with two dimensions: the
    test input cannot be built. *)
Lemma failed_trace_leaves_tracing_on_witness :
  _tracingOn (self (MdrconvSolver._trace Sample.env Cases.st44).2) = true ∧
  Forall (λ e, str_last e ≠ Some separator)
    (_callGraph (self (MdrconvSolver._trace Sample.env Cases.st44).2)).
Proof.
  apply (failed_trace_leaves_tracing_on Sample.env
           (MdrconvSolver.buildTestInput Sample.env)
           (λ input, Reference.mdrconv_run input.1 input.2)
           Cases.st44 IndexError).
  - intros st. apply buildTestInput_self.
  - vm_compute. reflexivity.
Defined.

Section TraceOfValidProblem.

Context {elem : Type} (E : Env elem).

Lemma broadcast_rev_same (l : list Z) : broadcast_rev l l = Some l.
Proof.
  induction l as [| n l IH]; [done |]. simpl. rewrite IH. simpl.
  by rewrite decide_True.
Qed.

Lemma broadcast_shapes_same (l : list Z) : broadcast_shapes l l = Some l.
Proof.
  unfold broadcast_shapes. rewrite broadcast_rev_same. simpl.
  by rewrite reverse_involutive.
Qed.

Lemma buildTestInput_ok (st : St elem) (n1 n2 n3 : Z) :
  dimensions (_problem (self st)) !! 0%nat = Some n1 →
  dimensions (_problem (self st)) !! 1%nat = Some n2 →
  dimensions (_problem (self st)) !! 2%nat = Some n3 →
  1 ≤ n1 → 1 ≤ n2 → 1 ≤ n3 →
  (_genCuda (self st) || _genHIP (self st) = true → cupy_present E = true) →
  ∃ src sym,
    MdrconvSolver.buildTestInput E st
    = (Ok (src, sym),
       mk_st (self st) (set_rng (S (S (rng (world st)))) (world st))) ∧
    shape src = [n1; n2; n3] ∧ shape sym = [n1; n2; n3 / 2 + 1] ∧
    xpmod src = test_module (self st) ∧ xpmod sym = test_module (self st).
Proof.
  intros H1 H2 H3 Hn1 Hn2 Hn3 Hcp. destruct st as [s w]. simpl in *.
  unfold MdrconvSolver.buildTestInput, xp_random_rand, seq_at, test_module.
  run_monad. rewrite H1, H2, H3.
  assert (Hnn : (0 <=? n1) && ((0 <=? n2) && ((0 <=? n3) && true)) = true).
  { rewrite !andb_true_iff, !Z.leb_le. lia. }
  assert (Hsh : rfftn_shape [n1; n2; n3] = Some [n1; n2; n3 / 2 + 1]).
  { unfold rfftn_shape. simpl.
    replace ((1 <=? n1) && ((1 <=? n2) && ((1 <=? n3) && true))) with true; [done |].
    symmetry. rewrite !andb_true_iff, !Z.leb_le. lia. }
  destruct (_genCuda s || _genHIP s); simpl.
  - rewrite Hcp by done. simpl. rewrite Hnn. simpl.
    unfold xp_rfftn. simpl. rewrite Hsh. by eexists _, _.
  - rewrite Hnn. simpl. unfold xp_rfftn. simpl. rewrite Hsh. by eexists _, _.
Qed.

Lemma all_at_least_one (n1 n2 n3 : Z) :
  1 ≤ n1 → 1 ≤ n2 → 1 ≤ n3 →
  (1 <=? n1) && ((1 <=? n2) && ((1 <=? n3) && true)) = true.
Proof. intros. rewrite !andb_true_iff, !Z.leb_le. lia. Qed.

(** The reference run of [MdrconvSolver] on a source of shape (n1, n2, n3)
    and a symbol in half-complex layout, both of one array module. *)
Lemma runDef_ok (src sym : ndarray elem) (st : St elem) (n1 n2 n3 : Z) :
  shape src = [n1; n2; n3] →
  shape sym = [n1; n2; n3 / 2 + 1] →
  xpmod sym = get_array_module E src →
  1 ≤ n1 → 1 ≤ n2 → 1 ≤ n3 →
  ∃ out,
    MdrconvSolver.runDef E src sym st
    = (Ok out,
       if _tracingOn (self st)
       then mk_st (set_callGraph
                     (mdrconv_recorded n1 n2 n3 ++ _callGraph (self st))%list
                     (self st))
                  (world st)
       else st) ∧
    shape out = [n1; n2; n3].
Proof.
  intros Hsrc Hsym Hmod Hn1 Hn2 Hn3. destruct st as [s w].
  destruct s as [? ? ? ? ? ? ? ? tr ? ? ? ? ? ? ? ? ? ? ? ? ?].
  unfold MdrconvSolver.runDef, SPSolver.rfftn, SPSolver.pointwise,
    SPSolver.irfftn, xp_rfftn, xp_mul, xp_irfftn, shape_at, seq_at.
  run_monad. rewrite Hsrc.
  unfold rfftn_shape. simpl. rewrite all_at_least_one by done.
  destruct tr; simpl;
    rewrite Hsym, Hmod; rewrite decide_True by done;
    change (reverse [n3 `div` 2 + 1; n2; n1]) with [n1; n2; n3 `div` 2 + 1];
    rewrite broadcast_shapes_same;
    unfold irfftn_shape; simpl; rewrite all_at_least_one by done; simpl;
    by eexists.
Qed.

(** The recorder of [MdrconvSolver] on a valid problem, as a function of
    the state. *)
Lemma mdrconv_trace_returns (st : St elem) (n1 n2 n3 : Z) :
  dimensions (_problem (self st)) !! 0%nat = Some n1 →
  dimensions (_problem (self st)) !! 1%nat = Some n2 →
  dimensions (_problem (self st)) !! 2%nat = Some n3 →
  1 ≤ n1 → 1 ≤ n2 → 1 ≤ n3 →
  (_genCuda (self st) || _genHIP (self st) = true → cupy_present E = true) →
  MdrconvSolver._trace E st
  = (Ok (),
     mk_st (set_callGraph (mdrconv_entries n1 n2 n3)
              (set_tracingOn false (self st)))
           (set_rng (S (S (rng (world st)))) (world st))).
Proof.
  intros H1 H2 H3 Hn1 Hn2 Hn3 Hcp.
  unfold MdrconvSolver._trace.
  unfold bind at 1, upd_self at 1.
  unfold bind at 1, upd_self at 1. cbn [self world].
  set (st_on := mk_st (set_callGraph [] (set_tracingOn true (self st))) (world st)).
  destruct (buildTestInput_ok st_on n1 n2 n3)
    as (src & sym & Hb & Hs & Hy & Hms & Hmy); try done.
  unfold bind at 1. rewrite Hb. cbv beta iota. cbn [fst snd].
  match goal with
  | |- _ ?s1 = _ =>
      destruct (runDef_ok src sym s1 n1 n2 n3) as (out & Hr & _); try done
  end.
  { rewrite Hmy. unfold get_array_module. rewrite Hms.
    unfold test_module. simpl.
    destruct (_genCuda (self st) || _genHIP (self st)) eqn:Hg;
      [| by destruct (cupy_present E)].
    by rewrite Hcp. }
  unfold bind at 1. rewrite Hr. cbv beta iota.
  destruct st as [s w]. by destruct s.
Qed.

(** X3.  For a problem whose first three dimensions are n1, n2, n3, all at
    least 1 (further dimensions are ignored), on the CPU or on a GPU
    platform with CuPy installed, the trace recorder of [MdrconvSolver]
    returns; it leaves the tracing flag off and exactly three entries:
    inverse transform on [n1,n2,n3], pointwise product over
    2*n1*n2*(n3//2+1) reals, forward transform on [n1,n2,n3].  It has drawn
    two random arrays, and has written no file and printed nothing. *)
Theorem mdrconv_trace_of_valid_problem (st : St elem) (n1 n2 n3 : Z) :
  dimensions (_problem (self st)) !! 0%nat = Some n1 →
  dimensions (_problem (self st)) !! 1%nat = Some n2 →
  dimensions (_problem (self st)) !! 2%nat = Some n3 →
  1 ≤ n1 → 1 ≤ n2 → 1 ≤ n3 →
  (_genCuda (self st) || _genHIP (self st) = true → cupy_present E = true) →
  ∃ st',
    MdrconvSolver._trace E st = (Ok (), st') ∧
    _callGraph (self st') = mdrconv_entries n1 n2 n3 ∧
    _tracingOn (self st') = false ∧
    rng (world st') = S (S (rng (world st))) ∧
    files (world st') = files (world st) ∧
    events (world st') = events (world st).
Proof.
  intros H1 H2 H3 Hn1 Hn2 Hn3 Hcp.
  rewrite (mdrconv_trace_returns st n1 n2 n3) by done.
  eexists. split; [reflexivity |]. by repeat split.
Qed.

End TraceOfValidProblem.

(** A problem of shape (2,3,5,7): the fourth dimension plays no part. *)
Lemma mdrconv_trace_of_valid_problem_witness :
  ∃ st',
    MdrconvSolver._trace Sample.env Cases.st2357 = (Ok (), st') ∧
    _callGraph (self st')
    = ["IMDPRDFT([2,3,5], 1),"; "RCDiag(FDataOfs(symvar, 36, 0)),";
       "MDPRDFT([2,3,5], -1)"] ∧
    _tracingOn (self st') = false ∧
    rng (world st') = 2%nat ∧
    files (world st') = files (world Cases.st2357) ∧
    events (world st') = events (world Cases.st2357).
Proof.
  apply (mdrconv_trace_of_valid_problem Sample.env Cases.st2357 2 3 5).
  - reflexivity.
  - reflexivity.
  - reflexivity.
  - lia.
  - lia.
  - lia.
  - simpl. discriminate.
Defined.

Section ShortProblem.

Context {elem : Type} (E : Env elem).


End ShortProblem.


Section UntracedRuns.

Context {elem : Type} (E : Env elem).

Import Reference.

Lemma run_untraced {R} (p : RefRun R) (st : St elem) :
  _tracingOn (self st) = false → (run E p st).2 = st.
Proof.
  revert st. induction p as [r | c k IH]; intros st Hoff; simpl; [done |].
  unfold bind. pose proof (run_op_untraced E c st Hoff) as Hop.
  destruct (run_op E c st) as [[v | x] st1]; simpl in Hop; subst st1; [| done].
  by apply IH.
Qed.

(** X5.  With the tracing flag off, the reference computation of
    [MdrconvSolver] is a pure function of its two arrays: whether it
    returns or raises, the solver object and the world are left as they
    were.  On a source of shape (n1, n2, n3), all at least 1, and a symbol
    of the same array module in half-complex layout (n1, n2, n3//2+1), it
    returns an array of the shape of the source. *)
Theorem runDef_untraced_is_pure (src sym : ndarray elem) (st : St elem) :
  _tracingOn (self st) = false →
  (MdrconvSolver.runDef E src sym st).2 = st ∧
  ∀ n1 n2 n3,
    shape src = [n1; n2; n3] →
    shape sym = [n1; n2; n3 / 2 + 1] →
    xpmod sym = get_array_module E src →
    1 ≤ n1 → 1 ≤ n2 → 1 ≤ n3 →
    ∃ out, (MdrconvSolver.runDef E src sym st).1 = Ok out ∧
           shape out = shape src.
Proof.
  intros Hoff. split.
  - change (MdrconvSolver.runDef E src sym) with (run E (mdrconv_run src sym)).
    by apply run_untraced.
  - intros n1 n2 n3 Hs Hy Hm Hn1 Hn2 Hn3.
    destruct (runDef_ok E src sym st n1 n2 n3) as (out & Hr & Hout); try done.
    exists out. rewrite Hr. split; [done | congruence].
Qed.

End UntracedRuns.

(** The reference computation on a cube of edge 4 and its symbol. *)
Lemma runDef_untraced_is_pure_witness :
  (MdrconvSolver.runDef Sample.env (Sample.cube 4) Sample.symbol Sample.st_host).2
  = Sample.st_host ∧
  ∃ out, (MdrconvSolver.runDef Sample.env (Sample.cube 4) Sample.symbol
            Sample.st_host).1 = Ok out ∧
         shape out = [4; 4; 4].
Proof.
  destruct (runDef_untraced_is_pure Sample.env (Sample.cube 4) Sample.symbol
              Sample.st_host eq_refl) as [Hst Hsh].
  split; [exact Hst |].
  apply (Hsh 4 4 4); try reflexivity; lia.
Defined.

(** ** Further properties of the symbolic operators *)

Section EmbedAndExtract.

Context {elem : Type} (E : Env elem).

(** X6.  A traced zero-embedding of a source of shape (n1, n2, n3) that
    returns was given one pad pair, which is then used for all three axes,
    or three pad pairs.  The box rendered in its entry is the shape of the
    array it returns, and each range rendered starts at the leading pad
    width and spans the extent of the source on that axis. *)
Theorem zeroEmbedBox_entry_matches_result (src : ndarray elem)
    (padding : list (Z * Z)) (st : St elem) v st' (n1 n2 n3 : Z) :
  _tracingOn (self st) = true →
  shape src = [n1; n2; n3] →
  SPSolver.zeroEmbedBox E src padding st = (Ok v, st') →
  ∃ t1 t2 t3 : Z * Z,
    (padding = [t1] ∧ t2 = t1 ∧ t3 = t1 ∨ padding = [t1; t2; t3]) ∧
    shape v = [t1.1 + n1 + t1.2; t2.1 + n2 + t2.2; t3.1 + n3 + t3.2] ∧
    st' = mk_st
            (set_callGraph
               (("ZeroEmbedBox("
                 +:+ box3 (t1.1 + n1 + t1.2) (t2.1 + n2 + t2.2) (t3.1 + n3 + t3.2)
                 +:+ ", "
                 +:+ ("[" +:+ index_range t1.1 (t1.1 + n1 - 1)
                      +:+ "," +:+ index_range t2.1 (t2.1 + n2 - 1)
                      +:+ "," +:+ index_range t3.1 (t3.1 + n3 - 1) +:+ "]")
                 +:+ ")")
                :: _callGraph (self st)) (self st))
            (world st).
Proof.
  intros Hon Hsh Hrun. destruct st as [s w]. simpl in Hon.
  unfold SPSolver.zeroEmbedBox, xp_pad, pad_widths, shape_at, seq_at in Hrun.
  rewrite Hsh in Hrun. run_monad. rewrite Hon in Hrun.
  destruct (forallb _ padding); [| done].
  destruct padding as [| t1 [| t2 [| t3 [| t4 rest]]]]; simpl in Hrun;
    try done.
  - inversion Hrun; subst v st'; clear Hrun.
    exists t1, t1, t1. split; [by left |]. done.
  - inversion Hrun; subst v st'; clear Hrun.
    exists t1, t2, t3. split; [by right |]. done.
Qed.

(** X7.  Extracting the corner of edge Nd from a cube of edge N, with
    0 <= Nd <= N, returns an array of shape (Nd, Nd, Nd), as the method's
    description says; the state is touched only by the trace entry, when
    tracing.  Asking for more than the cube holds, N < Nd <= 2N, does not
    raise: the negative start index wraps around and the array returned has
    shape (Nd-N, Nd-N, Nd-N). *)
Theorem extract_corner_shape (x : ndarray elem) (N Nd : Z) (st : St elem) :
  shape x = [N; N; N] →
  0 ≤ Nd ≤ 2 * N →
  ∃ v, SPSolver.extract E x N Nd st
       = (Ok v,
          if _tracingOn (self st)
          then mk_st
                 (set_callGraph
                    (("ExtractBox(" +:+ box3 N N N +:+ ", "
                      +:+ ("[" +:+ index_range (N - Nd) (N - 1)
                           +:+ "," +:+ index_range (N - Nd) (N - 1)
                           +:+ "," +:+ index_range (N - Nd) (N - 1) +:+ "]")
                      +:+ ")")
                     :: _callGraph (self st)) (self st))
                 (world st)
          else st) ∧
       shape v = if decide (Nd ≤ N) then [Nd; Nd; Nd]
                 else [Nd - N; Nd - N; Nd - N].
Proof.
  intros Hsh Hnd. destruct st as [s w].
  unfold SPSolver.extract, slice3. rewrite Hsh. run_monad.
  assert (Hlen : slice_len N (N - Nd) N = if decide (Nd ≤ N) then Nd else Nd - N).
  { unfold slice_len.
    destruct (N <? 0) eqn:H1; [apply Z.ltb_lt in H1 | apply Z.ltb_ge in H1];
      destruct (N - Nd <? 0) eqn:H2;
      [apply Z.ltb_lt in H2 | apply Z.ltb_ge in H2
      | apply Z.ltb_lt in H2 | apply Z.ltb_ge in H2];
      destruct (decide (Nd ≤ N)); lia. }
  eexists. split.
  - destruct (_tracingOn s); reflexivity.
  - simpl. rewrite Hlen. by destruct (decide (Nd ≤ N)).
Qed.

End EmbedAndExtract.

(** A cube of edge 4 embedded with one pad pair (1, 2), traced. *)
Lemma zeroEmbedBox_entry_matches_result_witness :
  ∃ t1 t2 t3 : Z * Z,
    ([(1, 2)] = [t1] ∧ t2 = t1 ∧ t3 = t1 ∨ [(1, 2)] = [t1; t2; t3]) ∧
    shape (mk_ndarray NP [7; 7; 7] (data (Sample.cube 4)))
    = [t1.1 + 4 + t1.2; t2.1 + 4 + t2.2; t3.1 + 4 + t3.2] ∧
    (SPSolver.zeroEmbedBox Sample.env (Sample.cube 4) [(1, 2)]
       (with_tracing true Sample.st0)).2
    = mk_st
        (set_callGraph
           (("ZeroEmbedBox("
             +:+ box3 (t1.1 + 4 + t1.2) (t2.1 + 4 + t2.2) (t3.1 + 4 + t3.2)
             +:+ ", "
             +:+ ("[" +:+ index_range t1.1 (t1.1 + 4 - 1)
                  +:+ "," +:+ index_range t2.1 (t2.1 + 4 - 1)
                  +:+ "," +:+ index_range t3.1 (t3.1 + 4 - 1) +:+ "]")
             +:+ ")")
            :: _callGraph (self (with_tracing true Sample.st0)))
           (self (with_tracing true Sample.st0)))
        (world (with_tracing true Sample.st0)).
Proof.
  apply (zeroEmbedBox_entry_matches_result Sample.env (Sample.cube 4) [(1, 2)]
           (with_tracing true Sample.st0)); reflexivity.
Defined.

(** The corner of edge 3 of a cube of edge 4. *)
Lemma extract_corner_shape_witness :
  ∃ v, SPSolver.extract Sample.env (Sample.cube 4) 4 3 Sample.st0
       = (Ok v, Sample.st0) ∧
       shape v = [3; 3; 3].
Proof.
  apply (extract_corner_shape Sample.env (Sample.cube 4) 4 3 Sample.st0);
    [reflexivity | lia].
Defined.

(** ** Further properties of the build routine *)

Section BuildPhases.

Context {elem : Type} (E : Env elem).
Context (V : SPSolver.Virtual (elem := elem)).

(** What [_setupCFuncs] does once the script has been generated. *)
Let after_script (basename cwd tempdir : string) : M elem unit :=
  r <~ SPSolver._callSpiral E (basename +:+ ".g") ;;
  (if py_eq r SPIRAL_RET_OK then
     s <~ get_self ;;
     if truthy (_includeMetadata s) then SPSolver._createMetadataFile basename
     else ret ()
   else
     SPSolver.chdir cwd ;;;
     raise (RuntimeError "SPIRAL error")) ;;;
  r <~ SPSolver._callCMake E basename ;;
  SPSolver.chdir cwd ;;;
  (if decide (r ≠ 0) then raise (RuntimeError "CMake error") else ret ()) ;;;
  s <~ get_self ;;
  if negb (truthy (_keeptemp s)) then SPSolver.rmtree tempdir else ret ().

(** Entering the work directory, when one is configured. *)
Let enter_workdir (s : Solver) : M elem unit :=
  match _workdir s with
  | Some d =>
      λ st, match SPSolver.chdir d st with
            | (Ok _, st') => (Ok (), st')
            | (Exc _, st') =>
                emit (EvPrint ("Could not find workdir " +:+ SPSolver.dq +:+ d
                               +:+ SPSolver.dq
                               +:+ ". Using current directory.")) st'
            end
  | None => ret ()
  end.

Lemma setupCFuncs_phases (basename : string) (st : St elem) :
  SPSolver._setupCFuncs E V basename st =
  bind (enter_workdir (self st))
       (λ _, w <~ get_world ;;
             tempdir <~ SPSolver.mkdtemp E (basename +:+ "_") (cwd w) ;;
             SPSolver.chdir tempdir ;;;
             SPSolver._genScript E V (basename +:+ ".g") ;;;
             after_script basename (cwd w) tempdir) st.
Proof. reflexivity. Qed.

(** The build routine up to the generation of the script: it has entered
    a new temporary directory below the directory it works from, and has
    touched nothing else. *)
Lemma setupCFuncs_enters (basename : string) (st : St elem) :
  cwd (world st) ∈ dirs (world st) →
  ∃ suffix st3,
    let tempdir := temp_build_dir basename st suffix in
    SPSolver._setupCFuncs E V basename st
    = bind (SPSolver._genScript E V (basename +:+ ".g"))
           (λ _, after_script basename (build_dir st) tempdir) st3 ∧
    self st3 = self st ∧
    cwd (world st3) = tempdir ∧
    dirs (world st3) = {[tempdir]} ∪ dirs (world st) ∧
    build_dir st ∈ dirs (world st) ∧
    files (world st3) = files (world st) ∧
    dicts (world st3) = dicts (world st) ∧
    heap (world st3) = heap (world st) ∧
    rng (world st3) = rng (world st) ∧
    clock (world st3) = clock (world st) ∧
    build_events (world st3)
    = (build_events (world st) ++ build_entry st
       ++ [EvMkdtemp tempdir; EvChdir tempdir])%list.
Proof.
  intros Hwf. rewrite setupCFuncs_phases.
  unfold bind at 1.
  assert (Hws : ∃ st1,
    enter_workdir (self st) st = (Ok (), st1) ∧
    self st1 = self st ∧
    cwd (world st1) = build_dir st ∧
    cwd (world st1) ∈ dirs (world st1) ∧
    dirs (world st1) = dirs (world st) ∧
    files (world st1) = files (world st) ∧
    dicts (world st1) = dicts (world st) ∧
    heap (world st1) = heap (world st) ∧
    rng (world st1) = rng (world st) ∧
    clock (world st1) = clock (world st) ∧
    build_events (world st1) = (build_events (world st) ++ build_entry st)%list).
  { unfold enter_workdir, build_dir, build_entry.
    destruct (_workdir (self st)) as [d |].
    - destruct (decide (d ∈ dirs (world st))) as [Hd | Hd].
      + rewrite chdir_ok by done. eexists; split; [reflexivity |]. simpl.
        repeat (split; [done |]).
        unfold build_events. simpl. by rewrite List.filter_app.
      + rewrite chdir_fails by done. destruct st as [s w].
        unfold emit, upd_world. simpl.
        eexists; split; [reflexivity |]. simpl. repeat (split; [done |]).
        unfold build_events. simpl. by rewrite List.filter_app.
    - exists st. unfold ret. repeat (split; [done |]). by rewrite app_nil_r. }
  destruct Hws as (st1 & -> & Hs1 & Hc1 & Hin1 & Hd1 & Hf1 & Hdi1 & Hh1 & Hr1
                   & Hcl1 & He1).
  rewrite get_world_then. cbv zeta.
  unfold bind at 1, SPSolver.mkdtemp at 1.
  unfold bind at 1, get_world at 1.
  unfold bind at 1, emit at 1, upd_world at 1.
  unfold bind at 1, upd_world at 1.
  unfold ret at 1. cbv beta iota zeta.
  exists (mkdtemp_suffix E (world st1)). unfold temp_build_dir. rewrite <- Hc1.
  set (tempdir := SPSolver.path_join (cwd (world st1))
                    ((basename +:+ "_") +:+ mkdtemp_suffix E (world st1))).
  unfold bind at 1.
  rewrite chdir_ok by (simpl; set_solver).
  simpl self. simpl world.
  eexists. cbv zeta. split; [reflexivity |].
  simpl. rewrite Hd1.
  repeat (split; [by rewrite <- ?Hd1 |]).
  unfold build_events in *. simpl.
  rewrite !List.filter_app. simpl. rewrite He1. by rewrite <- !app_assoc.
Qed.

Hypothesis HV : well_behaved V.

(** The build routine by the outcome of the script generation: when that
    raises, the build raises the same exception there and then; when it
    returns, the generator is run, and the build ends in the directory it
    worked from, with one of three results. *)
Lemma setupCFuncs_by_script (basename : string) (st : St elem) r st' :
  cwd (world st) ∈ dirs (world st) →
  SPSolver._setupCFuncs E V basename st = (r, st') →
  ∃ suffix st3,
    let tempdir := temp_build_dir basename st suffix in
    self st3 = self st ∧
    cwd (world st3) = tempdir ∧
    dirs (world st3) = {[tempdir]} ∪ dirs (world st) ∧
    files (world st3) = files (world st) ∧
    dicts (world st3) = dicts (world st) ∧
    heap (world st3) = heap (world st) ∧
    rng (world st3) = rng (world st) ∧
    clock (world st3) = clock (world st) ∧
    build_events (world st3)
    = (build_events (world st) ++ build_entry st
       ++ [EvMkdtemp tempdir; EvChdir tempdir])%list ∧
    match SPSolver._genScript E V (basename +:+ ".g") st3 with
    | (Exc x, st4) => r = Exc x ∧ st' = st4
    | (Ok _, _) =>
        (r = Ok () ∨ r = Exc (RuntimeError "SPIRAL error")
         ∨ r = Exc (RuntimeError "CMake error")) ∧
        cwd (world st') = build_dir st ∧
        ∃ rest, new_build_events st st'
                = (build_entry st
                   ++ [EvMkdtemp tempdir; EvChdir tempdir;
                       EvSpiral (basename +:+ ".g")] ++ rest)%list
    end.
Proof.
  intros Hwf Hrun.
  destruct (setupCFuncs_enters basename st Hwf)
    as (suffix & st3 & Heq & Hs & Hc & Hd & HB & Hf & Hdi & Hh & Hr & Hcl & He).
  cbv zeta in *. exists suffix, st3.
  repeat (split; [done |]).
  rewrite Heq in Hrun. unfold bind at 1 in Hrun.
  pose proof (genScript_build_view E V HV (basename +:+ ".g") st3) as Hview.
  destruct (SPSolver._genScript E V (basename +:+ ".g") st3) as [[[] | x] st4].
  - simpl in Hview. unfold build_view in Hview.
    injection Hview as Hc4 Hd4 He4 Hk4.
    unfold after_script in Hrun.
    apply run_tools_outcome in Hrun;
      [| rewrite Hd4, Hd; set_solver | rewrite Hd4, Hd; set_solver].
    rewrite He4, He in Hrun. cbv zeta in Hrun.
    destruct Hrun as [H | [H | H]].
    + destruct H as (-> & Hev & Hcw & _).
      split; [tauto |]. split; [done |].
      exists [EvChdir (build_dir st)].
      apply new_build_events_app. rewrite Hev. by rewrite <- !app_assoc.
    + destruct H as (-> & Hcw & _ & _ & cmd & Hev & _).
      split; [tauto |]. split; [done |].
      exists [EvCMake cmd; EvChdir (build_dir st)].
      apply new_build_events_app. rewrite Hev. by rewrite <- !app_assoc.
    + destruct H as (-> & Hcw & _ & cmd & _ & Hk).
      split; [tauto |]. split; [done |].
      destruct (truthy (_keeptemp (self st4))); destruct Hk as [Hev _];
        eexists; apply new_build_events_app; rewrite Hev;
        rewrite <- !app_assoc; reflexivity.
  - by inversion Hrun.
Qed.

End BuildPhases.

Lemma string_app_inv_nil (a b : string) : a +:+ b = a → b = "".
Proof.
  induction a as [| c a IH]; [done |].
  change (String c (a +:+ b) = String c a → b = "").
  intros [=]. by apply IH.
Qed.

Lemma path_join_neq (a b : string) : SPSolver.path_join a b ≠ a.
Proof.
  unfold SPSolver.path_join. intros H.
  apply string_app_inv_nil in H. discriminate H.
Qed.

Section WorkingDirectory.

Context {elem : Type} (E : Env elem).
Context (V : SPSolver.Virtual (elem := elem)).


End WorkingDirectory.

Section BaseClassBuild.

Context {elem : Type} (E : Env elem).

Lemma base_methods_well_behaved :
  well_behaved (SPSolverDefaults.methods (elem := elem)).
Proof.
  split.
  - unfold SPSolverDefaults.methods, SPSolverDefaults._trace, SPSolver._trace,
      SPSolverDefaults.buildTestInput. simpl. frame_steps.
  - intros f. apply preserves_raise.
Qed.

(** X9.  An object of the base class has no test input and no reference
    computation.  Its build raises [NotImplementedError] as soon as the
    script is to be generated: the temporary directory has been created and
    entered, neither tool has run, no file has been written, the tracing
    flag is left on, and the process is left inside the temporary
    directory. *)
Theorem base_class_build_raises (basename : string) (st : St elem) :
  cwd (world st) ∈ dirs (world st) →
  ∃ suffix st',
    let tempdir := temp_build_dir basename st suffix in
    SPSolver._setupCFuncs E SPSolverDefaults.methods basename st
    = (Exc NotImplementedError, st') ∧
    new_build_events st st'
    = (build_entry st ++ [EvMkdtemp tempdir; EvChdir tempdir])%list ∧
    cwd (world st') = tempdir ∧
    files (world st') = files (world st) ∧
    _tracingOn (self st') = true.
Proof.
  intros Hwf.
  destruct (SPSolver._setupCFuncs E SPSolverDefaults.methods basename st)
    as [r st'] eqn:Hrun.
  destruct (setupCFuncs_by_script E _ base_methods_well_behaved basename st r st'
              Hwf Hrun)
    as (suffix & st3 & Hs & Hc & Hd & Hf & _ & _ & _ & _ & He & Hcase).
  cbv zeta in *. exists suffix, st'.
  assert (Hgen : SPSolver._genScript E SPSolverDefaults.methods
                   (basename +:+ ".g") st3
                 = (Exc NotImplementedError,
                    mk_st (set_callGraph [] (set_tracingOn true (self st3)))
                          (world st3))) by reflexivity.
  rewrite Hgen in Hcase. destruct Hcase as (-> & ->).
  split; [done |]. simpl.
  split; [by apply new_build_events_app |]. done.
Qed.

End BaseClassBuild.


Lemma base_class_build_raises_witness :
  ∃ suffix st',
    let tempdir := temp_build_dir "func" Sample.st444 suffix in
    SPSolver._setupCFuncs Sample.env SPSolverDefaults.methods "func" Sample.st444
    = (Exc NotImplementedError, st') ∧
    new_build_events Sample.st444 st'
    = (build_entry Sample.st444 ++ [EvMkdtemp tempdir; EvChdir tempdir])%list ∧
    cwd (world st') = tempdir ∧
    files (world st') = files (world Sample.st444) ∧
    _tracingOn (self st') = true.
Proof.
  apply (base_class_build_raises Sample.env "func" Sample.st444).
  by_evaluation.
Defined.

(** ** Further properties of the script generation *)

Section ScriptOfValidProblem.

Context {elem : Type} (E : Env elem).

(** [_genScript] of [MdrconvSolver] on a valid problem, as a function of the
    state: the trace is recorded; then the script file is created anew and
    written, or, when it cannot be opened, a message goes to the error
    stream. *)
Lemma mdrconv_genScript_returns (filename : string) (st : St elem)
    (n1 n2 n3 : Z) :
  dimensions (_problem (self st)) !! 0%nat = Some n1 →
  dimensions (_problem (self st)) !! 1%nat = Some n2 →
  dimensions (_problem (self st)) !! 2%nat = Some n3 →
  1 ≤ n1 → 1 ≤ n2 → 1 ≤ n3 →
  (_genCuda (self st) || _genHIP (self st) = true → cupy_present E = true) →
  let st_t := mk_st (set_callGraph (mdrconv_entries n1 n2 n3)
                       (set_tracingOn false (self st)))
                    (set_rng (S (S (rng (world st)))) (world st)) in
  let path := SPSolver.path_join (cwd (world st)) filename in
  SPSolver._genScript E (MdrconvSolver.methods E) filename st
  = (Ok (),
     if open_writable E path (world st_t)
     then append_lines path
            (script_header "MdrconvSolver" (clock (world st))
             ++ script_lines (self st_t) (selects_float st))
            (mk_st (self st_t)
               (set_files (<[path := ""]> (files (world st_t))) (world st_t)))
     else mk_st (self st_t)
            (set_events
               (events (world st_t)
                ++ [EvPrintErr ("Error: Could not open " +:+ filename
                                +:+ " for writing")])%list
               (world st_t))).
Proof.
  intros H1 H2 H3 Hn1 Hn2 Hn3 Hcp st_t path.
  unfold SPSolver._genScript.
  cbn [SPSolver.v_trace SPSolver.v_writeScript SPSolver.v_classname
       MdrconvSolver.methods].
  unfold bind at 1.
  rewrite (mdrconv_trace_returns E st n1 n2 n3) by done.
  fold st_t. rewrite get_world_then. cbv zeta.
  change (SPSolver.path_join (cwd (world st_t)) filename) with path.
  destruct (open_writable E path (world st_t)); [| reflexivity].
  unfold bind at 1, upd_world at 1.
  rewrite !fprint_then. rewrite writeScript_spec.
  rewrite !append_lines_app. do 2 f_equal.
Qed.

(** X10.  When the script file cannot be opened for writing, the script
    generation neither raises nor writes: it has recorded the trace, prints
    one message to the error stream and returns normally, leaving every
    file as it was. *)
Theorem unwritable_script_is_reported_not_raised (filename : string)
    (st : St elem) (n1 n2 n3 : Z) :
  dimensions (_problem (self st)) !! 0%nat = Some n1 →
  dimensions (_problem (self st)) !! 1%nat = Some n2 →
  dimensions (_problem (self st)) !! 2%nat = Some n3 →
  1 ≤ n1 → 1 ≤ n2 → 1 ≤ n3 →
  (_genCuda (self st) || _genHIP (self st) = true → cupy_present E = true) →
  (∀ w, open_writable E (SPSolver.path_join (cwd (world st)) filename) w
        = false) →
  ∃ st',
    SPSolver._genScript E (MdrconvSolver.methods E) filename st = (Ok (), st') ∧
    files (world st') = files (world st) ∧
    events (world st')
    = (events (world st)
       ++ [EvPrintErr ("Error: Could not open " +:+ filename
                       +:+ " for writing")])%list ∧
    _callGraph (self st') = mdrconv_entries n1 n2 n3.
Proof.
  intros H1 H2 H3 Hn1 Hn2 Hn3 Hcp Hopen.
  rewrite (mdrconv_genScript_returns filename st n1 n2 n3) by done.
  cbv zeta. rewrite Hopen. eexists. split; [reflexivity |]. done.
Qed.

(** X11.  When the script file can be opened, the script generation of
    [MdrconvSolver] on a valid problem replaces whatever the file held: its
    text is the four header lines followed by the script proper, with the
    three entries of the trace in the composition, and depends on nothing
    else.  No other file is touched and nothing is printed. *)
Theorem script_file_is_written_anew (filename : string) (st : St elem)
    (n1 n2 n3 : Z) :
  dimensions (_problem (self st)) !! 0%nat = Some n1 →
  dimensions (_problem (self st)) !! 1%nat = Some n2 →
  dimensions (_problem (self st)) !! 2%nat = Some n3 →
  1 ≤ n1 → 1 ≤ n2 → 1 ≤ n3 →
  (_genCuda (self st) || _genHIP (self st) = true → cupy_present E = true) →
  (∀ w, open_writable E (SPSolver.path_join (cwd (world st)) filename) w
        = true) →
  ∃ st',
    SPSolver._genScript E (MdrconvSolver.methods E) filename st = (Ok (), st') ∧
    files (world st') !! SPSolver.path_join (cwd (world st)) filename
    = Some (unlines
              (script_header "MdrconvSolver" (clock (world st))
               ++ script_lines
                    (set_callGraph (mdrconv_entries n1 n2 n3) (self st))
                    (selects_float st))) ∧
    (∀ p, p ≠ SPSolver.path_join (cwd (world st)) filename →
          files (world st') !! p = files (world st) !! p) ∧
    events (world st') = events (world st).
Proof.
  intros H1 H2 H3 Hn1 Hn2 Hn3 Hcp Hopen.
  rewrite (mdrconv_genScript_returns filename st n1 n2 n3) by done.
  cbv zeta. rewrite Hopen. eexists. split; [reflexivity |].
  split; [| split].
  - rewrite lookup_append_lines by apply lookup_insert_eq.
    reflexivity.
  - intros p Hp. unfold append_lines. simpl.
    by rewrite !lookup_insert_ne.
  - reflexivity.
Qed.

End ScriptOfValidProblem.

Section BuildOfValidProblem.

Context {elem : Type} (E : Env elem).


End BuildOfValidProblem.


(** The script of the sample solver where nothing can be written. *)
Lemma unwritable_script_is_reported_not_raised_witness :
  ∃ st',
    SPSolver._genScript Cases.env_readonly
      (MdrconvSolver.methods Cases.env_readonly) "dMdrconv_4x4x4.g" Sample.st444
    = (Ok (), st') ∧
    files (world st') = files (world Sample.st444) ∧
    events (world st')
    = (events (world Sample.st444)
       ++ [EvPrintErr ("Error: Could not open " +:+ "dMdrconv_4x4x4.g"
                       +:+ " for writing")])%list ∧
    _callGraph (self st') = mdrconv_entries 4 4 4.
Proof.
  apply (unwritable_script_is_reported_not_raised Cases.env_readonly
           "dMdrconv_4x4x4.g" Sample.st444 4 4 4).
  - reflexivity.
  - reflexivity.
  - reflexivity.
  - lia.
  - lia.
  - lia.
  - simpl. discriminate.
  - intros w. reflexivity.
Defined.

(** The script of the sample solver, written over an older file of the
    same name. *)
Lemma script_file_is_written_anew_witness :
  ∃ st',
    SPSolver._genScript Sample.env (MdrconvSolver.methods Sample.env)
      "dMdrconv_4x4x4.g" Cases.st444_stale
    = (Ok (), st') ∧
    files (world st') !! "/home/user/dMdrconv_4x4x4.g"
    = Some (unlines
              (script_header "MdrconvSolver" "Mon Jan 01 00:00:00 2024"
               ++ script_lines
                    (set_callGraph (mdrconv_entries 4 4 4) Sample.solver444)
                    false)).
Proof.
  destruct (script_file_is_written_anew Sample.env "dMdrconv_4x4x4.g"
              Cases.st444_stale 4 4 4) as (st' & Hrun & Htext & _).
  - reflexivity.
  - reflexivity.
  - reflexivity.
  - lia.
  - lia.
  - lia.
  - simpl. discriminate.
  - intros w. reflexivity.
  - exists st'. split; [exact Hrun | exact Htext].
Defined.


(** ** Further properties of the native invocation *)

Section NativeCall.

Context {elem : Type} (E : Env elem).

Lemma deref_then {A} (l : nat) (a : ndarray elem) (k : ndarray elem → M elem A)
    (st : St elem) :
  heap (world st) !! l = Some a →
  bind (SPSolver.deref l) k st = k a st.
Proof.
  intros Hl. unfold SPSolver.deref. run_monad. by rewrite Hl.
Qed.

Lemma ptr_on_platform (s : Solver) (l : nat) (a asrc : ndarray elem)
    (st : St elem) :
  heap (world st) !! l = Some a →
  xpmod a = xpmod asrc →
  (match xpmod asrc with
   | NP => SPSolver.ctypes_data_as l st
   | CP => SPSolver.data_ptr l st
   end) = (Ok (ptr_of (xpmod asrc) l), st).
Proof.
  intros Hl Hm. unfold SPSolver.ctypes_data_as, SPSolver.data_ptr, SPSolver.deref.
  run_monad. rewrite Hl. simpl. rewrite Hm.
  by destruct (xpmod asrc).
Qed.

(** X13.  When the buffers all live on the platform the solver was
    generated for, the compute invocation calls the native main function
    exactly once, on raw pointers to the buffers in the order destination,
    source (and, for [MdrconvSolver], symbol); it prints nothing, and
    changes the world only through what the native function does to the
    buffers. *)
Theorem native_function_called_once_in_order (st : St elem)
    (dst src sym : nat) (ad asrc asym : ndarray elem) (f : string) :
  heap (world st) !! dst = Some ad →
  heap (world st) !! src = Some asrc →
  heap (world st) !! sym = Some asym →
  xpmod ad = xpmod asrc →
  xpmod asym = xpmod asrc →
  on_platform E (self st) asrc = true →
  _MainFunc (self st) = Some f →
  let p := ptr_of (xpmod asrc) in
  let called (args : list ptr) :=
    mk_st (self st)
      (set_heap (native_effect E f args (heap (world st)))
         (set_events (events (world st) ++ [EvCall f args])%list (world st))) in
  SPSolver._func E dst src st = (Ok (), called [p dst; p src]) ∧
  MdrconvSolver._func E dst src sym st = (Ok (), called [p dst; p src; p sym]).
Proof.
  intros Hd Hs Hy Hmd Hmy Hplat Hf p called.
  pose proof (ptr_on_platform (self st) dst ad asrc st Hd Hmd) as Hpd.
  pose proof (ptr_on_platform (self st) src asrc asrc st Hs eq_refl) as Hps.
  pose proof (ptr_on_platform (self st) sym asym asrc st Hy Hmy) as Hpy.
  unfold on_platform in Hplat.
  unfold SPSolver._func, MdrconvSolver._func, get_array_module.
  rewrite !(deref_then src asrc) by done. cbv zeta.
  rewrite !get_self_then. rewrite Hf.
  subst p called.
  destruct (xpmod asrc).
  - apply negb_true_iff in Hplat. rewrite Hplat.
    assert (Hxp : (if cupy_present E then NP else NP) = NP)
      by (by destruct (cupy_present E)).
    rewrite Hxp.
    unfold bind.
    repeat first [rewrite Hpd | rewrite Hps | rewrite Hpy | progress cbv beta iota].
    split; reflexivity.
  - apply andb_true_iff in Hplat as [Hcp Hg]. rewrite Hcp.
    assert (Hn : negb (_genCuda (self st)) && negb (_genHIP (self st)) = false).
    { destruct (_genCuda (self st)), (_genHIP (self st)); done. }
    rewrite Hn.
    unfold bind.
    repeat first [rewrite Hpd | rewrite Hps | rewrite Hpy | progress cbv beta iota].
    split; reflexivity.
Qed.

End NativeCall.

(** The loaded sample solver on three host buffers. *)
Lemma native_function_called_once_in_order_witness :
  SPSolver._func Sample.env 3 0 Cases.st_three
  = (Ok (),
     mk_st Sample.loaded444
       (set_heap
          (native_effect Sample.env "dMdrconv_4x4x4" [HostPtr 3; HostPtr 0]
             (heap Cases.world_three))
          (set_events [EvCall "dMdrconv_4x4x4" [HostPtr 3; HostPtr 0]]
             Cases.world_three))) ∧
  MdrconvSolver._func Sample.env 3 0 2 Cases.st_three
  = (Ok (),
     mk_st Sample.loaded444
       (set_heap
          (native_effect Sample.env "dMdrconv_4x4x4"
             [HostPtr 3; HostPtr 0; HostPtr 2] (heap Cases.world_three))
          (set_events [EvCall "dMdrconv_4x4x4" [HostPtr 3; HostPtr 0; HostPtr 2]]
             Cases.world_three))).
Proof.
  apply (native_function_called_once_in_order Sample.env Cases.st_three 3 0 2
           (Sample.cube 4) (Sample.cube 4) Sample.symbol "dMdrconv_4x4x4").
  - reflexivity.
  - reflexivity.
  - reflexivity.
  - reflexivity.
  - reflexivity.
  - reflexivity.
  - reflexivity.
Defined.

(** ** Further properties of [solve] *)

Section SolveSteps.

Context {elem : Type} (E : Env elem).


End SolveSteps.

Section SolveProps.

Context {elem : Type} (E : Env elem).





End SolveProps.




(** ** Further properties of the constructor *)

Section LoadInstalled.

Context {elem : Type} (E : Env elem).

Lemma own_library_exists (w : World elem) (p : string) :
  is_Some (files w !! p) → SPSolver.path_exists w p = true.
Proof.
  intros H. unfold SPSolver.path_exists. by rewrite bool_decide_eq_true_2.
Qed.

(** The last stretch of the constructor: opening the library, resolving
    the main function, calling the init function. *)
Let load (sharedLibFullPath : string) : M elem unit :=
  lib <~ SPSolver.CDLL E sharedLibFullPath ;;
  upd_self (set_SharedLibAccess (Some lib)) ;;;
  s <~ get_self ;;
  f <~ SPSolver.getattr (_SharedLibAccess s) (_mainFuncName s) ;;
  upd_self (set_MainFunc (Some f)) ;;;
  s <~ get_self ;;
  match _MainFunc s with
  | None => SPSolver.could_not_find (_mainFuncName s)
  | Some _ => SPSolver._initFunc E
  end.

Lemma load_spec (p : string) (st : St elem) (ex : list string)
    (main init : string) :
  is_Some (files (world st) !! p) →
  (∀ w, lib_exports E p w = ex) →
  _mainFuncName (self st) = PyStr main →
  _initFuncName (self st) = PyStr init →
  ∃ r st',
    load p st = (r, st') ∧
    r = (if decide (main ∈ ex)
         then if decide (init ∈ ex) then Ok ()
              else Exc (RuntimeError ("could not find function: " +:+ init))
         else Exc (AttributeError main)) ∧
    events (world st')
    = (events (world st) ++ [EvCDLL p]
       ++ (if decide (main ∈ ex)
           then if decide (init ∈ ex) then [EvCall init []] else []
           else []))%list ∧
    self st'
    = (if decide (main ∈ ex) then set_MainFunc (Some main) else id)
        (set_SharedLibAccess (Some (mk_cdll p ex)) (self st)).
Proof.
  intros [c Hc] Hex Hmain Hinit. destruct st as [s w]. simpl in *.
  unfold load, SPSolver.CDLL, SPSolver.getattr, SPSolver._initFunc,
    SPSolver.getattr_or_None, SPSolver.lookup_symbol, SPSolver.call_native,
    SPSolver.could_not_find.
  run_monad. rewrite Hc. simpl. rewrite Hmain, Hex. simpl.
  destruct (decide (main ∈ ex)); simpl.
  - rewrite Hinit, ?Hex. simpl.
    destruct (decide (init ∈ ex)); simpl; eexists _, _;
      (split; [reflexivity |]); simpl; by rewrite <- ?app_assoc.
  - eexists _, _. split; [reflexivity |]. simpl. done.
Qed.

Context (V : SPSolver.Virtual (elem := elem)).

(** X17.  When a library of the transform's own name is installed, the
    constructor loads it without searching the installed libraries and
    without building anything.  The construction then succeeds exactly when
    the library exports the main function and the init function, which is
    called once, without arguments.  A missing main function surfaces as
    the [AttributeError] of the attribute lookup (the test of the main
    function against [None] that follows never fires), a missing init
    function as [RuntimeError]. *)
Theorem installed_library_is_loaded_as_is (problem : SPProblem)
    (namebase : string) (opts : option nat) (st : St elem) (ex : list string) :
  let o := options_read SPSolver.__init__defaults opts st in
  let nb := platform_name o namebase in
  let lib := own_library E o namebase in
  is_Some (files (world st) !! lib) →
  (∀ w, lib_exports E lib w = ex) →
  ∃ r st',
    SPSolver.__init__ E V problem namebase opts st = (r, st') ∧
    r = (if decide (nb ∈ ex)
         then if decide ("init_" +:+ nb ∈ ex) then Ok ()
              else Exc (RuntimeError ("could not find function: "
                                      +:+ ("init_" +:+ nb)))
         else Exc (AttributeError nb)) ∧
    events (world st')
    = (events (world st)
       ++ [EvMakedirs (libs_dir E); EvCDLL lib]
       ++ (if decide (nb ∈ ex)
           then if decide ("init_" +:+ nb ∈ ex)
                then [EvCall ("init_" +:+ nb) []] else []
           else []))%list ∧
    _SharedLibAccess (self st') = Some (mk_cdll lib ex) ∧
    _MainFunc (self st') = (if decide (nb ∈ ex) then Some nb else None).
Proof.
  intros o nb lib Hfile Hex.
  unfold SPSolver.__init__. rewrite get_self_then, get_world_then. cbv zeta.
  unfold bind at 1. rewrite makedirs_spec.
  unfold bind at 1, upd_self at 1. cbn [self world].
  rewrite get_world_then. cbn [self world].
  fold (options_read SPSolver.__init__defaults opts st). fold o.
  change (SPSolver.path_join
            (SPSolver.path_join (SPSolver.path_join (USER_BASE E) SP_SHARE_DIR)
               (package E)) SP_LIBSDIR) with (libs_dir E).
  change (if py_eq (dict_get o SP_OPT_PLATFORM SP_CPU) SP_CUDA
          then namebase +:+ "_cu"
          else if py_eq (dict_get o SP_OPT_PLATFORM SP_CPU) SP_HIP
               then namebase +:+ "_hip" else namebase) with nb.
  change (SPSolver.path_join (libs_dir E) ("lib" +:+ nb +:+ SP_SHLIB_EXT))
    with lib.
  rewrite own_library_exists by done. cbn [negb].
  unfold bind at 1, ret at 1.
  match goal with
  | |- ∃ r st', ?m ?s = _ ∧ _ =>
      destruct (load_spec lib s ex nb ("init_" +:+ nb))
        as (r & st' & Hload & Hr & Hev & Hself); try done
  end.
  exists r, st'. split; [exact Hload |]. split; [exact Hr |].
  split.
  - rewrite Hev. simpl. by rewrite <- app_assoc.
  - rewrite Hself. by destruct (decide (nb ∈ ex)).
Qed.

End LoadInstalled.

(** The sample library, installed under the transform's own name. *)
Lemma installed_library_is_loaded_as_is_witness :
  ∃ r st',
    SPSolver.__init__ Sample.env (MdrconvSolver.methods Sample.env)
      (MdrconvProblem [4; 4; 4]) "dMdrconv_4x4x4" (Some 1%nat) Cases.st_own
    = (r, st') ∧
    r = Ok () ∧
    events (world st')
    = [EvMakedirs "/home/user/.local/SP_SHARE_DIR/spiralpy/SP_LIBSDIR";
       EvCDLL "/home/user/.local/SP_SHARE_DIR/spiralpy/SP_LIBSDIR/libdMdrconv_4x4x4.SP_SHLIB_EXT";
       EvCall "init_dMdrconv_4x4x4" []] ∧
    _SharedLibAccess (self st')
    = Some (mk_cdll
              "/home/user/.local/SP_SHARE_DIR/spiralpy/SP_LIBSDIR/libdMdrconv_4x4x4.SP_SHLIB_EXT"
              ["dMdrconv_4x4x4"; "init_dMdrconv_4x4x4";
               "destroy_dMdrconv_4x4x4"]) ∧
    _MainFunc (self st') = Some "dMdrconv_4x4x4".
Proof.
  apply (installed_library_is_loaded_as_is Sample.env
           (MdrconvSolver.methods Sample.env) (MdrconvProblem [4; 4; 4])
           "dMdrconv_4x4x4" (Some 1%nat) Cases.st_own
           ["dMdrconv_4x4x4"; "init_dMdrconv_4x4x4"; "destroy_dMdrconv_4x4x4"]).
  - by eexists.
  - intros w. reflexivity.
Defined.

Section LoadFound.

Context {elem : Type} (E : Env elem).
Context (V : SPSolver.Virtual (elem := elem)).

Lemma own_library_still_absent (st : St elem) (o : PyDict) (namebase : string)
    (evs : list Event) :
  SPSolver.path_exists (world st) (own_library E o namebase) = false →
  SPSolver.path_exists
    (set_dirs ({[libs_dir E]} ∪ dirs (world st)) (set_events evs (world st)))
    (own_library E o namebase) = false.
Proof.
  unfold SPSolver.path_exists. simpl.
  rewrite !orb_false_iff, !bool_decide_eq_false. intros [Hf Hd].
  split; [done |]. rewrite elem_of_union, elem_of_singleton.
  intros [Heq | Hin]; [| done].
  by apply path_join_neq in Heq.
Qed.

Lemma metadataForSearch_then {A} (k : FuncMeta → M elem A) (st : St elem) :
  ∃ md, bind (SPSolver._metadataForSearch V) k st = k md st.
Proof.
  destruct (metadataForSearch_spec V st) as (md & Hmd).
  exists md. unfold bind. by rewrite Hmd.
Qed.

(** X18.  When the search among the installed libraries is used, the
    found library is loaded under the names it was registered with: the
    main, init and destroy function names are taken from the returned
    names key by key, and a key that is missing leaves the name derived
    from the base name in place.  The base name itself stays the one
    derived from the problem.  The construction succeeds exactly when the
    found library exports the main and the init function under those
    names. *)
Theorem found_names_replace_defaults_key_by_key (problem : SPProblem)
    (namebase : string) (opts : option nat) (st : St elem)
    (path : string) (names : PyDict) (ex : list string) (main init : string) :
  let o := options_read SPSolver.__init__defaults opts st in
  let nb := platform_name o namebase in
  SPSolver.path_exists (world st) (own_library E o namebase) = false →
  (∀ md w, findFunctionsWithMetadata E md w = (Atom (PyStr path), Dict names)) →
  (2 < size names)%nat →
  is_Some (files (world st) !! path) →
  (∀ w, lib_exports E path w = ex) →
  dict_get names SP_KEY_EXEC (PyStr nb) = PyStr main →
  dict_get names SP_KEY_INIT (PyStr ("init_" +:+ nb)) = PyStr init →
  ∃ r st',
    SPSolver.__init__ E V problem namebase opts st = (r, st') ∧
    r = (if decide (main ∈ ex)
         then if decide (init ∈ ex) then Ok ()
              else Exc (RuntimeError ("could not find function: " +:+ init))
         else Exc (AttributeError main)) ∧
    _mainFuncName (self st') = PyStr main ∧
    _initFuncName (self st') = PyStr init ∧
    _destroyFuncName (self st')
    = dict_get names SP_KEY_DESTROY (PyStr ("destroy_" +:+ nb)) ∧
    _namebase (self st') = nb ∧
    _SharedLibAccess (self st') = Some (mk_cdll path ex) ∧
    _MainFunc (self st') = (if decide (main ∈ ex) then Some main else None).
Proof.
  intros o nb Habs Hfound Hsize Hfile Hex Hmain Hinit.
  unfold SPSolver.__init__. rewrite get_self_then, get_world_then. cbv zeta.
  unfold bind at 1. rewrite makedirs_spec.
  unfold bind at 1, upd_self at 1. cbn [self world].
  rewrite get_world_then. cbn [self world].
  fold (options_read SPSolver.__init__defaults opts st). fold o.
  change (SPSolver.path_join
            (SPSolver.path_join (SPSolver.path_join (USER_BASE E) SP_SHARE_DIR)
               (package E)) SP_LIBSDIR) with (libs_dir E).
  change (if py_eq (dict_get o SP_OPT_PLATFORM SP_CPU) SP_CUDA
          then namebase +:+ "_cu"
          else if py_eq (dict_get o SP_OPT_PLATFORM SP_CPU) SP_HIP
               then namebase +:+ "_hip" else namebase) with nb.
  change (SPSolver.path_join (libs_dir E) ("lib" +:+ nb +:+ SP_SHLIB_EXT))
    with (own_library E o namebase).
  rewrite own_library_still_absent by done. cbn [negb].
  unfold bind at 1.
  match goal with
  | |- context [bind (SPSolver._metadataForSearch V) ?k ?s] =>
      destruct (metadataForSearch_then k s) as (md & ->)
  end.
  unfold bind at 1, emit at 1, upd_world at 1. cbn [self world].
  rewrite get_world_then. rewrite Hfound.
  rewrite decide_True by done.
  unfold bind at 1, upd_self at 1. unfold ret at 1. cbn [self world].
  match goal with
  | |- ∃ r st', ?m ?s = _ ∧ _ =>
      destruct (load_spec E path s ex main init)
        as (r & st' & Hload & Hr & Hev & Hself); try done
  end.
  exists r, st'. split; [exact Hload |]. split; [exact Hr |].
  rewrite Hself. by destruct (decide (main ∈ ex)).
Qed.

End LoadFound.

(** A found library registered under three other keys: the names derived
    from the base name stay in place. *)
Lemma found_names_replace_defaults_key_by_key_witness :
  ∃ r st',
    SPSolver.__init__ (Sample.env_found Sample.found_three_others)
      (MdrconvSolver.methods (Sample.env_found Sample.found_three_others))
      (MdrconvProblem [4; 4; 4]) "dMdrconv_4x4x4" (Some 1%nat)
      Sample.st_installed = (r, st') ∧
    r = Ok () ∧
    _mainFuncName (self st') = PyStr "dMdrconv_4x4x4" ∧
    _initFuncName (self st') = PyStr "init_dMdrconv_4x4x4" ∧
    _destroyFuncName (self st') = PyStr "destroy_dMdrconv_4x4x4" ∧
    _SharedLibAccess (self st')
    = Some (mk_cdll Sample.other_lib
              ["dMdrconv_4x4x4"; "init_dMdrconv_4x4x4";
               "destroy_dMdrconv_4x4x4"]).
Proof.
  destruct (found_names_replace_defaults_key_by_key
              (Sample.env_found Sample.found_three_others)
              (MdrconvSolver.methods (Sample.env_found Sample.found_three_others))
              (MdrconvProblem [4; 4; 4]) "dMdrconv_4x4x4" (Some 1%nat)
              Sample.st_installed Sample.other_lib
              (<["a" := PyStr "f"]> (<["b" := PyStr "g"]> (<["c" := PyStr "h"]> ∅)))
              ["dMdrconv_4x4x4"; "init_dMdrconv_4x4x4"; "destroy_dMdrconv_4x4x4"]
              "dMdrconv_4x4x4" "init_dMdrconv_4x4x4")
    as (r & st' & Hrun & Hr & Hm & Hi & Hd & _ & Hl & _).
  - reflexivity.
  - intros md w. reflexivity.
  - vm_compute. lia.
  - by eexists.
  - intros w. reflexivity.
  - reflexivity.
  - reflexivity.
  - exists r, st'.
    split; [exact Hrun |]. split; [exact Hr |]. split; [exact Hm |].
    split; [exact Hi |]. split; [exact Hd | exact Hl].
Defined.

Section SolverIdentity.

Context {elem : Type} (E : Env elem).












End SolverIdentity.


(** ** The destructor *)

Section Destructor.

Context {elem : Type} (E : Env elem).

(** X20.  The destructor never raises.  When a library is loaded and
    exports the destroy function under the name the solver holds, it calls
    that function once, without arguments; in every other case, in
    particular on an object whose construction failed before the library
    was loaded, it does nothing at all. *)
Theorem destructor_never_raises (st : St elem) :
  SPSolver.__del__ E st
  = (Ok (),
     match destroy_symbol (self st) with
     | Some f =>
         mk_st (self st)
           (set_heap (native_effect E f [] (heap (world st)))
              (set_events (events (world st) ++ [EvCall f []])%list (world st)))
     | None => st
     end).
Proof.
  destruct st as [s w].
  unfold SPSolver.__del__, SPSolver._destroyFunc, SPSolver.getattr_or_None,
    SPSolver.call_native, SPSolver.could_not_find, destroy_symbol.
  run_monad.
  destruct (_destroyFuncName s); try reflexivity.
  simpl. by destruct (SPSolver.lookup_symbol (_SharedLibAccess s) s0).
Qed.

End Destructor.
